(** * burp-ui: asynchronous task status, cancellation and result delivery

    A shallow embedding of [burpui/api/tasks.py]: the REST resources
    [TaskStatus], [TaskGetFile] (with its remote relay [stream_file]),
    [TaskDeletedClient] and [TaskDoBrowseAll], over an explicit model of
    the Python values they manipulate and of the collaborators they talk
    to (result backend, SQL bookkeeping, cache, session, file system and
    the agent socket). *)

From Stdlib Require Import ZArith String Ascii List Bool Lia.
From Stdlib Require Import DecimalString DecimalZ Decimal.
From Stdlib Require Strings.Byte.
From Stdlib Require Import Init.Byte.
From stdpp Require Import base gmap strings list.

Import ListNotations.
Local Open Scope string_scope.
Local Open Scope list_scope.
Local Open Scope Z_scope.

(** ** Python values *)

Module Py.

(** The values that travel through task results, the session and the
    JSON answers.  A dict keeps its insertion order, as in Python.  An
    exception object is known by the name of its class and by the texts
    that [str] and [repr] give for it, which depend on the class:
    [str(KeyError('k'))] is ['k'] with its quotes, [str(OSError(2, 'x'))]
    is [[Errno 2] x]. *)
#[warnings="-register-all"]
Inductive pyval : Type :=
| PNone
| PBool (b : bool)
| PInt (z : Z)
| PStr (s : string)
| PList (l : list pyval)
| PDict (d : list (string * pyval))
| PExc (cls text shown : string).

(** Exceptions raised by the interpreter or the standard library. *)
Inductive pyexn : Type :=
| AttributeError (msg : string)
| TypeError (msg : string)
| ValueError (msg : string)
| StructError (msg : string)
| OSError (msg : string)
| BuildError (msg : string).

Definition exn_str (e : pyexn) : string :=
  match e with
  | AttributeError m | TypeError m | ValueError m
  | StructError m | OSError m | BuildError m => m
  end.

(** [bool(v)] *)
Definition truthy (v : pyval) : bool :=
  match v with
  | PNone => false
  | PBool b => b
  | PInt z => negb (z =? 0)
  | PStr s => negb (String.eqb s "")
  | PList l => match l with [] => false | _ => true end
  | PDict d => match d with [] => false | _ => true end
  | PExc _ _ _ => true
  end.

Fixpoint assoc (k : string) (d : list (string * pyval)) : option pyval :=
  match d with
  | [] => None
  | (k', v) :: d' => if String.eqb k k' then Some v else assoc k d'
  end.

Definition type_name (v : pyval) : string :=
  match v with
  | PNone => "NoneType"
  | PBool _ => "bool"
  | PInt _ => "int"
  | PStr _ => "str"
  | PList _ => "list"
  | PDict _ => "dict"
  | PExc cls _ _ => cls
  end.

(** [v.get(key)]: only a dict has the method; a missing key gives [None]. *)
Definition get (v : pyval) (key : string) : pyval + pyexn :=
  match v with
  | PDict d => inl (match assoc key d with Some x => x | None => PNone end)
  | _ => inr (AttributeError
                ("'" +:+ type_name v +:+ "' object has no attribute 'get'"))
  end.

(** [a == b] on the values compared by the resources: strings and [None]
    by value, [bool] as the integers 0 and 1, containers pointwise. *)
Fixpoint eqv (a b : pyval) : bool :=
  match a, b with
  | PNone, PNone => true
  | PBool x, PBool y => Bool.eqb x y
  | PBool x, PInt y => (if x then 1 else 0) =? y
  | PInt x, PBool y => x =? (if y then 1 else 0)
  | PInt x, PInt y => x =? y
  | PStr x, PStr y => String.eqb x y
  | PList x, PList y =>
      (fix go (x : list pyval) (y : list pyval) : bool :=
         match x, y with
         | [], [] => true
         | u :: x', v :: y' => eqv u v && go x' y'
         | _, _ => false
         end) x y
  | PDict x, PDict y =>
      (length x =? length y)%nat &&
      (fix go (x : list (string * pyval)) : bool :=
         match x with
         | [] => true
         | (k, u) :: x' =>
             match assoc k y with
             | Some v => eqv u v && go x'
             | None => false
             end
         end) x
  | PExc c m r, PExc c' m' r' =>
      String.eqb c c' && String.eqb m m' && String.eqb r r'
  | _, _ => false
  end.

Definition neqv (a b : pyval) : bool := negb (eqv a b).

(** The [server] argument of a route: [None] unless the URL carries one. *)
Definition of_opt (o : option string) : pyval :=
  match o with Some s => PStr s | None => PNone end.

(** *** [repr] and [str] *)

Definition str_of_Z (z : Z) : string := NilZero.string_of_int (Z.to_int z).

Definition dquote : ascii := ascii_of_nat 34.
Definition squote : ascii := ascii_of_nat 39.
Definition bslash : ascii := ascii_of_nat 92.

Fixpoint contains (c : ascii) (s : string) : bool :=
  match s with
  | EmptyString => false
  | String c' s' => Ascii.eqb c c' || contains c s'
  end.

Definition hex_digit (n : nat) : ascii :=
  if (n <? 10)%nat then ascii_of_nat (48 + n) else ascii_of_nat (87 + n).

Definition escape_char (q c : ascii) : string :=
  let n := nat_of_ascii c in
  if Ascii.eqb c bslash then String bslash (String bslash EmptyString)
  else if Ascii.eqb c q then String bslash (String q EmptyString)
  else if (n =? 10)%nat then String bslash "n"
  else if (n =? 13)%nat then String bslash "r"
  else if (n =? 9)%nat then String bslash "t"
  else if ((n <? 32) || (n =? 127))%nat then
    String bslash (String "x" (String (hex_digit (n / 16))
                                 (String (hex_digit (n mod 16)) EmptyString)))
  else String c EmptyString.

Fixpoint escape (q : ascii) (s : string) : string :=
  match s with
  | EmptyString => EmptyString
  | String c s' => escape_char q c +:+ escape q s'
  end.

(** [repr] of a [str] made of ASCII and printable characters. *)
Definition repr_str (s : string) : string :=
  let q := if contains squote s && negb (contains dquote s)
           then dquote else squote in
  String q (escape q s +:+ String q EmptyString).

Fixpoint repr (v : pyval) : string :=
  match v with
  | PNone => "None"
  | PBool b => if b then "True" else "False"
  | PInt z => str_of_Z z
  | PStr s => repr_str s
  | PList l =>
      "[" +:+ (fix go (l : list pyval) : string :=
                match l with
                | [] => ""
                | [x] => repr x
                | x :: l' => repr x +:+ ", " +:+ go l'
                end) l +:+ "]"
  | PDict d =>
      "{" +:+ (fix go (d : list (string * pyval)) : string :=
                match d with
                | [] => ""
                | [(k, x)] => repr_str k +:+ ": " +:+ repr x
                | (k, x) :: d' => repr_str k +:+ ": " +:+ repr x +:+ ", " +:+ go d'
                end) d +:+ "}"
  | PExc _ _ shown => shown
  end.

(** [str(v)] *)
Definition str (v : pyval) : string :=
  match v with
  | PStr s => s
  | PExc _ text _ => text
  | _ => repr v
  end.

(** *** [int(s)] and the text of an integer *)

(** [sys.get_int_max_str_digits()]: an integer of more digits is not
    converted from or to text. *)
Definition max_str_digits : nat := 4300.

Definition over_limit : string :=
  "Exceeds the limit (4300 digits) for integer string conversion".

Definition raise_limit : string :=
  "; use sys.set_int_max_str_digits() to increase the limit".

(** [str(n)] and ["{}".format(n)] of an integer. *)
Definition format_int (n : Z) : string + pyexn :=
  if (max_str_digits <? String.length (str_of_Z (Z.abs n)))%nat
  then inr (ValueError (over_limit +:+ raise_limit))
  else inl (str_of_Z n).

(** The white space [int] skips around a literal: [Py_ISSPACE]. *)
Definition is_space (c : ascii) : bool :=
  let n := nat_of_ascii c in
  ((9 <=? n) && (n <=? 13) || (n =? 32))%nat.

Fixpoint lstrip (s : string) : string :=
  match s with
  | String c s' => if is_space c then lstrip s' else s
  | EmptyString => EmptyString
  end.

Fixpoint rstrip (s : string) : string :=
  match s with
  | EmptyString => EmptyString
  | String c s' =>
      match rstrip s' with
      | EmptyString => if is_space c then EmptyString else String c EmptyString
      | r => String c r
      end
  end.

Definition strip (s : string) : string := rstrip (lstrip s).

Definition is_digit (c : ascii) : bool :=
  let n := nat_of_ascii c in ((48 <=? n) && (n <=? 57))%nat.

(** Digits possibly grouped by single underscores, as [int] accepts. *)
Fixpoint digits_grouped (prev_digit : bool) (s : string) : option string :=
  match s with
  | EmptyString => if prev_digit then Some EmptyString else None
  | String c s' =>
      if is_digit c then
        match digits_grouped true s' with
        | Some r => Some (String c r)
        | None => None
        end
      else if Ascii.eqb c "_" then
        if prev_digit then digits_grouped false s' else None
      else None
  end.

Definition Z_of_digits (s : string) : option Z :=
  match NilEmpty.uint_of_string s with
  | Some u => Some (Z.of_uint u)
  | None => None
  end.

(** The digits of an unsigned literal, at most [max_str_digits] of
    them. *)
Definition unsigned (s : string) : option Z :=
  match digits_grouped false s with
  | Some ds =>
      if (max_str_digits <? String.length ds)%nat then None
      else Z_of_digits ds
  | None => None
  end.

(** [int] of ASCII text in base 10; [None] is [ValueError]. *)
Definition int_of_ascii (s : string) : option Z :=
  let t := strip s in
  match t with
  | EmptyString => None
  | String c r =>
      if Ascii.eqb c "-" then option_map Z.opp (unsigned r)
      else if Ascii.eqb c "+" then unsigned r
      else unsigned t
  end.

(** A string of the model is the UTF-8 text of the Python string. *)
Fixpoint is_ascii (s : string) : bool :=
  match s with
  | EmptyString => true
  | String c s' => (nat_of_ascii c <? 128)%nat && is_ascii s'
  end.

Definition continuation (c : ascii) : option N :=
  let n := N_of_ascii c in
  if ((128 <=? n) && (n <? 192))%N then Some (n - 128)%N else None.

(** The code points of a string; [None] when it is not UTF-8. *)
Fixpoint code_points (s : string) : option (list N) :=
  match s with
  | EmptyString => Some []
  | String a s1 =>
      let n := N_of_ascii a in
      if (n <? 128)%N then option_map (cons n) (code_points s1)
      else if ((194 <=? n) && (n <? 224))%N then
        match s1 with
        | String b s2 =>
            match continuation b with
            | Some x =>
                option_map (cons ((n - 192) * 64 + x)%N) (code_points s2)
            | None => None
            end
        | EmptyString => None
        end
      else if ((224 <=? n) && (n <? 240))%N then
        match s1 with
        | String b (String c s3) =>
            match continuation b, continuation c with
            | Some x, Some y =>
                let cp := ((n - 224) * 4096 + x * 64 + y)%N in
                if ((2048 <=? cp) && negb ((55296 <=? cp) && (cp <? 57344)))%N
                then option_map (cons cp) (code_points s3)
                else None
            | _, _ => None
            end
        | _ => None
        end
      else if ((240 <=? n) && (n <? 245))%N then
        match s1 with
        | String b (String c (String d s4)) =>
            match continuation b, continuation c, continuation d with
            | Some x, Some y, Some z =>
                let cp := ((n - 240) * 262144 + x * 4096 + y * 64 + z)%N in
                if ((65536 <=? cp) && (cp <? 1114112))%N
                then option_map (cons cp) (code_points s4)
                else None
            | _, _, _ => None
            end
        | _ => None
        end
      else None
  end.

(** [Py_UNICODE_ISSPACE] beyond ASCII. *)
Definition unicode_space (cp : N) : bool :=
  existsb (N.eqb cp) [133; 160; 5760; 8232; 8233; 8239; 8287; 12288]%N
  || ((8192 <=? cp) && (cp <=? 8202))%N.

(** The code points of the digits zero beyond ASCII (Unicode 14.0, as
    in Python 3.11); the digits one to nine follow each of them. *)
Definition decimal_zeros : list N :=
  [1632; 1776; 1984; 2406; 2534; 2662; 2790; 2918; 3046; 3174; 3302; 3430;
   3558; 3664; 3792; 3872; 4160; 4240; 6112; 6160; 6470; 6608; 6784; 6800;
   6992; 7088; 7232; 7248; 42528; 43216; 43264; 43472; 43504; 43600; 44016;
   65296; 66720; 68912; 69734; 69872; 69942; 70096; 70384; 70736; 70864;
   71248; 71360; 71472; 71904; 72016; 72784; 73040; 73120; 92768; 92864;
   93008; 120782; 120792; 120802; 120812; 120822; 123200; 123632; 125264;
   130032]%N.

(** [Py_UNICODE_TODECIMAL] beyond ASCII. *)
Definition unicode_decimal (cp : N) : option N :=
  match List.find (fun z => (z <=? cp) && (cp <? z + 10))%N decimal_zeros with
  | Some z => Some (cp - z)%N
  | None => None
  end.

(** What [int] makes of a character of a string that is not ASCII:
    itself below 127, a space for white space, the ASCII digit for a
    decimal digit, and nothing else. *)
Definition ascii_of_code_point (cp : N) : option ascii :=
  if (cp <? 127)%N then Some (ascii_of_N cp)
  else if unicode_space cp then Some " "%char
  else match unicode_decimal cp with
       | Some d => Some (ascii_of_N (48 + d))
       | None => None
       end.

Fixpoint ascii_of_code_points (l : list N) : option string :=
  match l with
  | [] => Some EmptyString
  | cp :: l' =>
      match ascii_of_code_point cp, ascii_of_code_points l' with
      | Some c, Some s => Some (String c s)
      | _, _ => None
      end
  end.

(** [_PyUnicode_TransformDecimalAndSpaceToASCII] *)
Definition decimal_and_space_to_ascii (s : string) : option string :=
  if is_ascii s then Some s
  else match code_points s with
       | Some l => ascii_of_code_points l
       | None => None
       end.

(** [int(s)] for a string, in base 10; [None] is [ValueError]. *)
Definition int_of_str (s : string) : option Z :=
  match decimal_and_space_to_ascii s with
  | Some t => int_of_ascii t
  | None => None
  end.

(** The number of digits at the head of a literal. *)
Fixpoint leading_digits (s : string) : nat :=
  match s with
  | String c s' =>
      if is_digit c then S (leading_digits s')
      else if Ascii.eqb c "_" then leading_digits s'
      else O
  | EmptyString => O
  end.

(** The message of the [ValueError] of [int(s)]. *)
Definition int_error (s : string) : string :=
  let digits :=
    match decimal_and_space_to_ascii s with
    | Some t =>
        match lstrip t with
        | String c r =>
            if Ascii.eqb c "-" || Ascii.eqb c "+" then leading_digits r
            else leading_digits (String c r)
        | EmptyString => O
        end
    | None => O
    end in
  if (max_str_digits <? digits)%nat then
    over_limit +:+ ": value has " +:+ str_of_Z (Z.of_nat digits)
    +:+ " digits" +:+ raise_limit
  else "invalid literal for int() with base 10: " +:+ repr_str s.

(** [int(v)] *)
Definition int (v : pyval) : Z + pyexn :=
  match v with
  | PInt z => inl z
  | PBool b => inl (if b then 1 else 0)
  | PStr s =>
      match int_of_str s with
      | Some z => inl z
      | None => inr (ValueError (int_error s))
      end
  | _ => inr (TypeError
                ("int() argument must be a string, a bytes-like object or a "
                 +:+ "real number, not '" +:+ type_name v +:+ "'"))
  end.

(** *** Quoting in URLs *)

Definition upper_hex (n : nat) : ascii :=
  if (n <? 10)%nat then ascii_of_nat (48 + n) else ascii_of_nat (55 + n).

Definition is_alnum (c : ascii) : bool :=
  let n := nat_of_ascii c in
  ((48 <=? n) && (n <=? 57) || (65 <=? n) && (n <=? 90)
   || (97 <=? n) && (n <=? 122))%nat.

(** [urllib.parse.quote(s, safe="!$&'()*+,/:;=@")], the quoting Werkzeug
    (2.3 and later) applies to a value of a route: letters, digits,
    [_.-~] and the safe characters are kept, every other byte of the
    UTF-8 text becomes [%XX]. *)
Definition url_quote_char (c : ascii) : string :=
  if is_alnum c || contains c "_.-~" || contains c "!$&'()*+,/:;=@"
  then String c EmptyString
  else
    let n := nat_of_ascii c in
    String "%" (String (upper_hex (n / 16))
                  (String (upper_hex (n mod 16)) EmptyString)).

Fixpoint url_quote (s : string) : string :=
  match s with
  | EmptyString => EmptyString
  | String c s' => url_quote_char c +:+ url_quote s'
  end.

End Py.

Import Py.

(** ** Bytes on the wire and the agent socket *)

Module Wire.

Definition bytes : Type := list byte.

Definition byte_of_Z (z : Z) : byte :=
  match Byte.of_N (Z.to_N (z mod 256)) with
  | Some b => b
  | None => Byte.x00
  end.

Definition Z_of_byte (b : byte) : Z := Z.of_N (Byte.to_N b).

(** Big-endian encoding on [width] bytes. *)
Fixpoint be_encode (width : nat) (n : Z) : bytes :=
  match width with
  | O => []
  | S w => be_encode w (n / 256) ++ [byte_of_Z n]
  end.

Definition be_decode (bs : bytes) : Z :=
  fold_left (fun acc b => acc * 256 + Z_of_byte b) bs 0.

(** [struct.pack("!Q", n)], for [0 <= n < 2^64]. *)
Definition pack_Q (n : Z) : bytes := be_encode 8 n.

(** [struct.unpack("!Q", buf)]: the buffer must hold exactly 8 bytes. *)
Definition unpack_Q (buf : bytes) : Z + pyexn :=
  if (length buf =? 8)%nat then inl (be_decode buf)
  else inr (StructError "unpack requires a buffer of 8 bytes").

Definition bytes_of_string (s : string) : bytes :=
  map byte_of_ascii (list_ascii_of_string s).

(** [zlib.adler32] *)
Definition adler32 (bs : bytes) : Z :=
  let '(a, b) :=
    fold_left (fun '(a, b) x =>
                 let a' := (a + Z_of_byte x) mod 65521 in
                 (a', (b + a') mod 65521)) bs (1, 0) in
  Z.lor (Z.shiftl b 16) a.

(** What the peer does, in order: it delivers some bytes, or it stays
    quiet for a number of seconds. *)
Inductive arrival : Type :=
| Data (bs : bytes)
| Pause (seconds : Z).

(** A connected blocking socket: bytes already received and not yet read,
    what the peer will still do, whether the peer shuts its side down
    after that, the bytes written to the peer and whether [close] was
    called. *)
Record socket : Type := mkSocket {
  rxbuf : bytes;
  wire : list arrival;
  peer_closed : bool;
  tx : bytes;
  closed : bool
}.

Definition set_rx (s : socket) (rx : bytes) (w : list arrival) : socket :=
  {| rxbuf := rx; wire := w; peer_closed := peer_closed s;
     tx := tx s; closed := closed s |}.

(** The socket calls made by the relay, with what each one returned. *)
Inductive sockop : Type :=
| OpSelect (timeout : Z) (readable : bool)
| OpRecv (n : Z) (got : bytes)
| OpSendall (bs : bytes)
| OpClose.

(** Wait at most [budget] seconds for the next bytes of the peer. *)
Fixpoint poll (w : list arrival) (budget : Z) : option bytes * list arrival :=
  match w with
  | [] => (None, [])
  | Data [] :: w' => poll w' budget
  | Data bs :: w' => (Some bs, w')
  | Pause d :: w' =>
      if d <? budget then poll w' (budget - Z.max 0 d)
      else (None, Pause (d - budget) :: w')
  end.

(** [select.select([sock], [], [], timeout)]: is the socket readable
    before the timeout?  End of stream counts as readable. *)
Definition select (s : socket) (timeout : Z) : bool * socket :=
  match rxbuf s with
  | _ :: _ => (true, s)
  | [] =>
      match poll (wire s) timeout with
      | (Some bs, w') => (true, set_rx s bs w')
      | (None, []) => (peer_closed s, set_rx s [] [])
      | (None, w') => (false, set_rx s [] w')
      end
  end.

(** Wait without bound for the next bytes of the peer. *)
Fixpoint next_data (w : list arrival) : option (bytes * list arrival) :=
  match w with
  | [] => None
  | Data [] :: w' => next_data w'
  | Data bs :: w' => Some (bs, w')
  | Pause _ :: w' => next_data w'
  end.

(** [sock.recv(n)]: at most [n] of the bytes at hand, waiting for some
    when there is none; the empty result is the end of the stream,
    [None] a call that never returns. *)
Definition recv (s : socket) (n : Z) : option (bytes * socket) :=
  match rxbuf s with
  | _ :: _ =>
      Some (take (Z.to_nat n) (rxbuf s),
            set_rx s (drop (Z.to_nat n) (rxbuf s)) (wire s))
  | [] =>
      match next_data (wire s) with
      | Some (bs, w') =>
          Some (take (Z.to_nat n) bs, set_rx s (drop (Z.to_nat n) bs) w')
      | None =>
          if peer_closed s then Some ([], set_rx s [] []) else None
      end
  end.

Definition sendall (s : socket) (bs : bytes) : socket :=
  {| rxbuf := rxbuf s; wire := wire s; peer_closed := peer_closed s;
     tx := tx s ++ bs; closed := closed s |}.

Definition close (s : socket) : socket :=
  {| rxbuf := rxbuf s; wire := wire s; peer_closed := peer_closed s;
     tx := tx s; closed := true |}.

End Wire.

Import Wire.

(** ** The body generator of the relay *)

(** How an iteration of the generator [stream] of
    [TaskGetFile.stream_file] ends: exhausted after the handshake, an
    [abort] raised from inside it, a [recv] that never returns, or the
    iteration budget of the model used up. *)
Inductive stream_end : Type :=
| Completed
| Aborted (code : Z) (msg : string)
| Stuck
| Unfinished.

Record stream_run : Type := mkRun {
  chunks : list bytes;
  trace : list sockop;
  final : socket;
  ending : stream_end
}.

Definition emit (ops : list sockop) (out : list bytes) (r : stream_run)
  : stream_run :=
  {| chunks := out ++ chunks r; trace := ops ++ trace r;
     final := final r; ending := ending r |}.

Definition RE : bytes := bytes_of_string "RE".

(** The [while received < size] loop; every unfolding is one test of the
    loop condition, [fuel] bounds the number of iterations. *)
Fixpoint stream_loop (fuel : nat) (sock : socket) (size bsize received : Z)
  : stream_run :=
  if received <? size then
    match fuel with
    | O => mkRun [] [] sock Unfinished
    | S fuel' =>
        let '(r, sock1) := select sock 5 in
        if negb r then
          mkRun [] [OpSelect 5 false] sock1 (Aborted 500 "Socket timed-out")
        else
          match recv sock1 bsize with
          | None => mkRun [] [OpSelect 5 true] sock1 Stuck
          | Some (buf, sock2) =>
              let ops := [OpSelect 5 true; OpRecv bsize buf] in
              match buf with
              | [] => emit ops [] (stream_loop fuel' sock2 size bsize received)
              | _ =>
                  emit ops [buf]
                    (stream_loop fuel' sock2 size bsize
                       (received + Z.of_nat (length buf)))
              end
          end
    end
  else
    let sock1 := sendall sock (pack_Q 2) in
    let sock2 := sendall sock1 RE in
    mkRun [] [OpSendall (pack_Q 2); OpSendall RE; OpClose] (close sock2)
      Completed.

(** [stream(sock, size)] *)
Definition stream (fuel : nat) (sock : socket) (size : Z) : stream_run :=
  let bsize := 1024 in
  let bsize := if size <? bsize then size else bsize in
  stream_loop fuel sock size bsize 0.

(** ** The collaborators of the resources *)

Record header : Type := mkHeader {
  h_name : string;
  h_value : string;
  h_params : list (string * pyval)
}.

(** What a response carries: a value to serialise, the content of a file
    handed to [send_file], or the generator [stream(sock, size)] that the
    server iterates after the headers. *)
Inductive payload : Type :=
| Value (v : pyval)
| FileBody (content : bytes)
| Generator (sock : socket) (size : Z).

Record response : Type := mkResponse {
  status : Z;
  body : payload;
  mimetype : option string;
  headers : list header;
  cookies : list (string * string);
  etag : option string
}.

Definition json (v : pyval) (code : Z) : response :=
  mkResponse code (Value v) None [] [] None.

(** The meta data the result backend keeps for a task id. *)
Record task_meta : Type := mkMeta {
  t_state : string;
  t_result : pyval
}.

(** A row of the [Task] table; the uuid is its key. *)
Record task_row : Type := mkRow {
  row_task : string;
  row_user : string
}.

Record database : Type := mkDb {
  rows : gmap string task_row;
  commit_fails : bool
}.

Record world : Type := mkWorld {
  backend : gmap string task_meta;
  revoked : gset string;
  db : option database;
  cache : gmap string pyval;
  session : gmap string pyval;
  files : gmap string bytes;
  agents : gmap (string * string) socket;
  rescheduled : nat
}.

Record user : Type := mkUser {
  name : string;
  is_admin : bool
}.

(** What a request finds around it: [current_user], [g.now], the text of
    [time()], [bui.config["WITH_CELERY"]] and the mount point of the
    namespace. *)
Record request : Type := mkRequest {
  current_user : user;
  now : Z;
  clock : string;
  with_celery : bool;
  api_root : string
}.

Inductive outcome (A : Type) : Type :=
| Returned (a : A)
| Abort (code : Z) (msg : option string)
| Raised (e : pyexn)
| Blocked.

Arguments Returned {A} a.
Arguments Abort {A} code msg.
Arguments Raised {A} e.
Arguments Blocked {A}.

(** A resource method threads the world and ends with a value, with
    [self.abort], with an exception nobody caught, or never. *)
Definition handler (A : Type) : Type := world -> outcome A * world.

Definition ret {A} (a : A) : handler A := fun w => (Returned a, w).

Definition bind {A B} (m : handler A) (k : A -> handler B) : handler B :=
  fun w =>
    match m w with
    | (Returned a, w') => k a w'
    | (Abort c msg, w') => (Abort c msg, w')
    | (Raised e, w') => (Raised e, w')
    | (Blocked, w') => (Blocked, w')
    end.

Notation "x <- m ;; k" := (bind m (fun x => k))
  (at level 100, m at next level, right associativity).
Notation "m ;;; k" := (bind m (fun _ => k))
  (at level 100, right associativity).

Definition abort {A} (code : Z) (msg : option string) : handler A :=
  fun w => (Abort code msg, w).

Definition lift {A} (r : A + pyexn) : handler A :=
  fun w => match r with inl a => (Returned a, w) | inr e => (Raised e, w) end.

Definition modify (f : world -> world) : handler unit :=
  fun w => (Returned tt, f w).

Definition set_revoked (r : gset string) (w : world) : world :=
  mkWorld (backend w) r (db w) (cache w) (session w) (files w) (agents w)
    (rescheduled w).

Definition set_db (d : option database) (w : world) : world :=
  mkWorld (backend w) (revoked w) d (cache w) (session w) (files w) (agents w)
    (rescheduled w).

Definition set_cache (c : gmap string pyval) (w : world) : world :=
  mkWorld (backend w) (revoked w) (db w) c (session w) (files w) (agents w)
    (rescheduled w).

Definition set_session (s : gmap string pyval) (w : world) : world :=
  mkWorld (backend w) (revoked w) (db w) (cache w) s (files w) (agents w)
    (rescheduled w).

Definition set_files (f : gmap string bytes) (w : world) : world :=
  mkWorld (backend w) (revoked w) (db w) (cache w) (session w) f (agents w)
    (rescheduled w).

Definition set_rescheduled (n : nat) (w : world) : world :=
  mkWorld (backend w) (revoked w) (db w) (cache w) (session w) (files w)
    (agents w) n.

(** The three Celery tasks of [burpui.tasks]. *)
Inductive task_obj : Type := perform_restore | load_all_tree | delete_client.

(** [task_types]: the task and its callback endpoint. *)
Definition task_types (task_type : string) : option (task_obj * string) :=
  if String.eqb task_type "restore" then Some (perform_restore, ".task_get_file")
  else if String.eqb task_type "browse" then
    Some (load_all_tree, ".task_do_browse_all")
  else if String.eqb task_type "delete" then
    Some (delete_client, ".task_deleted_client")
  else None.

(** [task_obj.AsyncResult(task_id)] with its [state] and [result]: Celery
    reads the meta data of the id in the result backend, whichever task
    the id is asked through, and reports an id it has no meta data for as
    [PENDING] with no result. *)
Definition AsyncResult (t : task_obj) (task_id : string) : handler task_meta :=
  fun w =>
    (Returned (match backend w !! task_id with
               | Some m => m
               | None => mkMeta "PENDING" PNone
               end), w).

(** [task.revoke()]: Celery tells the workers to drop the id; the meta
    data stored for it is left as it is. *)
Definition revoke (task_id : string) : handler unit :=
  modify (fun w => set_revoked ({[task_id]} ∪ revoked w) w).

(** The bookkeeping block shared by [TaskStatus.get] and
    [TaskGetFile.get]:
<<
    if db:
        rec = Task.query.filter_by(uuid=task_id).first()
        if rec:
            try: db.session.delete(rec); db.session.commit()
            except: db.session.rollback()
>> *)
Definition purge_record (task_id : string) : handler unit :=
  modify (fun w =>
    match db w with
    | None => w
    | Some d =>
        match rows d !! task_id with
        | None => w
        | Some _ =>
            if commit_fails d then w
            else set_db (Some (mkDb (delete task_id (rows d)) (commit_fails d))) w
        end
    end).

(** [url_for(callback, task_id=task_id, server=server)] over the routes
    declared for the three callback endpoints; an argument that is [None]
    is left out, which selects the route without [<server>]; the values
    are quoted as Werkzeug quotes the variable parts of a route. *)
Definition url_for (rq : request) (callback task_id : string) (server : pyval)
  : pyval + pyexn :=
  let with_server (before after : string) : pyval :=
    match server with
    | PNone => PStr (api_root rq +:+ before +:+ after +:+ url_quote task_id)
    | _ => PStr (api_root rq +:+ before +:+ "/" +:+ url_quote (str server)
                   +:+ after +:+ url_quote task_id)
    end in
  if String.eqb callback ".task_get_file" then inl (with_server "" "/get/")
  else if String.eqb callback ".task_do_browse_all" then
    inl (with_server "" "/get-browse/")
  else if String.eqb callback ".task_deleted_client" then
    inl (with_server "/completed" "/config/")
  else inr (BuildError ("Could not build url for endpoint " +:+ repr_str callback)).

(** [bui.client.get_file(path, server)]: the connection the agent
    [server] opens for [path], nothing when it cannot serve it. *)
Definition get_file (path server : pyval) : handler (option socket) :=
  fun w =>
    (Returned (match path, server with
               | PStr p, PStr s => agents w !! (s, p)
               | _, _ => None
               end), w).

(** [open(path, "rb")] and the content read through the handle. *)
Definition open_rb (path : pyval) (w : world) : bytes + pyexn :=
  match path with
  | PStr p =>
      match files w !! p with
      | Some content => inl content
      | None => inr (OSError ("[Errno 2] No such file or directory: "
                                +:+ repr_str p))
      end
  | _ => inr (TypeError
                ("expected str, bytes or os.PathLike object, not "
                 +:+ type_name path))
  end.

(** [os.remove(path)] of the callback registered with
    [after_this_request]. *)
Definition remove_file (path : pyval) : handler unit :=
  modify (fun w =>
    match path with
    | PStr p => set_files (delete p (files w)) w
    | _ => w
    end).

(** [send_file(fh, as_attachment=True, attachment_filename=filename,
    mimetype="application/zip")] *)
Definition send_file (content : bytes) (filename : pyval) : response + pyexn :=
  match filename with
  | PNone => inr (TypeError
                    "filename unavailable, required for sending as attachment")
  | _ =>
      inl (mkResponse 200 (FileBody content) (Some "application/zip")
             [mkHeader "Content-Disposition" "attachment"
                [("filename", filename)]] [] None)
  end.

Definition set_cookie (r : response) (k v : string) : response :=
  mkResponse (status r) (body r) (mimetype r) (headers r)
    (cookies r ++ [(k, v)]) (etag r).

Definition set_etag (r : response) (tag : string) : response :=
  mkResponse (status r) (body r) (mimetype r) (headers r) (cookies r)
    (Some tag).

(** [filename.encode("utf-8")] *)
Definition encode (v : pyval) : bytes + pyexn :=
  match v with
  | PStr s => inl (bytes_of_string s)
  | _ => inr (AttributeError
                ("'" +:+ type_name v +:+ "' object has no attribute 'encode'"))
  end.

Definition restore_failed : string :=
  "An error occurred while performing the " +:+
  "restoration. Please contact your administrator " +:+
  "for further details".

Definition newline : string := String (ascii_of_nat 10) EmptyString.

(** ** The resources *)

(** [TaskStatus.get] *)
Definition TaskStatus_get (rq : request) (task_type task_id : string)
    (server : option string) : handler response :=
  match task_types task_type with
  | None => abort 400 None
  | Some (task_obj, callback) =>
      task <- AsyncResult task_obj task_id ;;
      if String.eqb (t_state task) "FAILURE" then
        purge_record task_id ;;;
        revoke task_id ;;;
        let err := str (t_result task) in
        abort 502 (Some err)
      else if String.eqb (t_state task) "SUCCESS" then
        if negb (truthy (t_result task)) then
          abort 500 (Some "The task did not return anything")
        else
          server <- lift (get (t_result task) "server") ;;
          location <- lift (url_for rq callback task_id server) ;;
          ret (json (PDict [("state", PStr (t_state task));
                            ("location", location)]) 200)
      else ret (json (PDict [("state", PStr (t_state task))]) 200)
  end.

(** [TaskStatus.delete] *)
Definition TaskStatus_delete (rq : request) (task_type task_id : string)
    (server : option string) : handler response :=
  match task_types task_type with
  | None => abort 400 None
  | Some (task_obj, _) =>
      task <- AsyncResult task_obj task_id ;;
      user <- lift (get (t_result task) "user") ;;
      dst_server <- lift (get (t_result task) "server") ;;
      if (neqv (PStr (name (current_user rq))) user
          || (truthy dst_server && neqv dst_server (of_opt server)))
         && negb (is_admin (current_user rq))
      then abort 403 (Some "Unauthorized access")
      else
        revoke task_id ;;;
        ret (json (PStr "") 201)
  end.

(** [TaskGetFile.stream_file] *)
Definition stream_file (rq : request) (path filename server : pyval)
  : handler response :=
  socket <- get_file path server ;;
  match socket with
  | None => abort 500 None
  | Some sock =>
      match recv sock 8 with
      | None => fun w => (Blocked, w)
      | Some (lengthbuf, sock) =>
          length <- lift (unpack_Q lengthbuf) ;;
          let hdrs :=
            [mkHeader "Content-Disposition" "attachement"
               [("filename", filename)];
             mkHeader "Content-Length" (str (PInt length)) []] in
          let resp :=
            mkResponse 200 (Generator sock length) (Some "application/zip")
              hdrs [] None in
          let resp := set_cookie resp "fileDownload" "true" in
          encoded <- lift (encode filename) ;;
          ret (set_etag resp
                 ("flask-" +:+ clock rq +:+ "-" +:+ str (PInt length) +:+ "-"
                  +:+ str (PInt (Z.land (adler32 encoded) 4294967295))))
      end
  end.

(** [TaskGetFile.get] *)
Definition TaskGetFile_get (rq : request) (task_id : string)
    (server : option string) : handler response :=
  task <- AsyncResult perform_restore task_id ;;
  if negb (String.eqb (t_state task) "SUCCESS") then
    if String.eqb (t_state task) "FAILURE" then
      err <- lift (get (t_result task) "error") ;;
      admin <- lift (get (t_result task) "admin") ;;
      let err :=
        if neqv err (PStr "encrypted") && negb (truthy admin)
        then PStr restore_failed else err in
      abort 500 (Some ("Unsuccessful task:" +:+ newline +:+ str err))
    else
      abort 400 (Some ("Task not processed yet: " +:+ t_state task))
  else
    path <- lift (get (t_result task) "path") ;;
    user <- lift (get (t_result task) "user") ;;
    dst_server <- lift (get (t_result task) "server") ;;
    filename <- lift (get (t_result task) "filename") ;;
    if (neqv (PStr (name (current_user rq))) user
        || (truthy dst_server && neqv dst_server (of_opt server)))
       && negb (is_admin (current_user rq))
    then abort 403 (Some "Unauthorized access")
    else
      purge_record task_id ;;;
      revoke task_id ;;;
      if truthy dst_server then stream_file rq path filename dst_server
      else
        fun w =>
          match open_rb path w with
          | inr e => abort 500 (Some (exn_str e)) w
          | inl content =>
              match send_file content filename with
              | inr e =>
                  (remove_file path ;;; abort 500 (Some (exn_str e))) w
              | inl resp =>
                  (remove_file path ;;;
                   ret (set_cookie resp "fileDownload" "true")) w
              end
          end.

(** [TaskDeletedClient.get] *)
Definition TaskDeletedClient_get (rq : request) (task_id : string)
    (server : option string) : handler pyval :=
  task <- AsyncResult delete_client task_id ;;
  if negb (String.eqb (t_state task) "SUCCESS") then
    if String.eqb (t_state task) "FAILURE" then
      err <- lift (get (t_result task) "error") ;;
      abort 500 (Some ("Unsuccessful task: " +:+ str err))
    else
      abort 400 (Some ("Task not processed yet: " +:+ t_state task))
  else
    let tres := t_result task in
    user <- lift (get tres "user") ;;
    dst_server <- lift (get tres "server") ;;
    resp <- lift (get tres "result") ;;
    kwargs <- lift (get tres "kwargs") ;;
    client <- lift (get tres "client") ;;
    delcert <- lift (get kwargs "delcert") ;;
    revoke_cert <- lift (get kwargs "revoke") ;;
    keepconf <- lift (get kwargs "keepconf") ;;
    delete <- lift (get kwargs "delete") ;;
    template <- lift (get kwargs "template") ;;
    if neqv (PStr (name (current_user rq))) user
       || (truthy dst_server && neqv dst_server (of_opt server))
    then abort 403 (Some "Unauthorized access")
    else
      revoke task_id ;;;
      (if negb (truthy keepconf) then
         modify (set_cache ∅) ;;;
         _extra <- (fun w =>
                      let _extra :=
                        match session w !! "_extra" with
                        | Some v => v
                        | None => PInt (now rq)
                        end in
                      match int _extra with
                      | inl n => (Returned n, w)
                      | inr (ValueError _) => (Returned 0, w)
                      | inr e => (Raised e, w)
                      end) ;;
         text <- lift (format_int (_extra + 1)) ;;
         modify (fun w =>
                   set_session (<["_extra" := PStr text]> (session w)) w) ;;;
         if with_celery rq
         then modify (fun w => set_rescheduled (S (rescheduled w)) w)
         else ret tt
       else ret tt) ;;;
      ret resp.

(** [TaskDoBrowseAll.get] *)
Definition TaskDoBrowseAll_get (rq : request) (task_id : string)
    (server : option string) : handler pyval :=
  task <- AsyncResult load_all_tree task_id ;;
  if negb (String.eqb (t_state task) "SUCCESS") then
    if String.eqb (t_state task) "FAILURE" then
      err <- lift (get (t_result task) "error") ;;
      abort 500 (Some ("Unsuccessful task: " +:+ str err))
    else
      abort 400 (Some ("Task not processed yet: " +:+ t_state task))
  else
    user <- lift (get (t_result task) "user") ;;
    dst_server <- lift (get (t_result task) "server") ;;
    resp <- lift (get (t_result task) "tree") ;;
    if neqv (PStr (name (current_user rq))) user
       || (truthy dst_server && neqv dst_server (of_opt server))
    then abort 403 (Some "Unauthorized access")
    else
      revoke task_id ;;;
      ret resp.

(** ** Vocabulary of the properties *)

(** The guard of the specification (section 4.3), in its words: the
    caller is the task owner and the caller's target node is unset or
    equals the task's origin node, or the caller is an administrator. *)
Definition authorized (caller task_owner : string)
    (caller_target_node task_origin_node : option string) (is_admin : bool)
  : bool :=
  (String.eqb caller task_owner
   && match caller_target_node with
      | None => true
      | Some n =>
          match task_origin_node with
          | Some o => String.eqb n o
          | None => false
          end
      end)
  || is_admin.

(** What the resources test: the caller is the owner and the origin node
    recorded in the result is unset (or empty) or equals the node of the
    request. *)
Definition owner_on_node (caller task_owner : string)
    (request_node task_origin_node : option string) : bool :=
  String.eqb caller task_owner
  && match task_origin_node with
     | None => true
     | Some o =>
         String.eqb o ""
         || match request_node with
            | Some n => String.eqb o n
            | None => false
            end
     end.

Definition forbidden {A} (r : outcome A * world) : bool :=
  match fst r with
  | Abort 403 _ => true
  | _ => false
  end.

(** A response of the client-error class (4xx). *)
Definition client_error {A} (o : outcome A) : bool :=
  match o with
  | Abort c _ => (400 <=? c) && (c <? 500)
  | _ => false
  end.

Definition crashed {A} (o : outcome A) : bool :=
  match o with
  | Raised _ => true
  | _ => false
  end.

Definition task_type_known (task_type : string) : Prop :=
  task_type = "restore" \/ task_type = "browse" \/ task_type = "delete".

(** The bookkeeping can be carried out: there is no database, or its
    commits go through. *)
Definition db_healthy (w : world) : Prop :=
  match db w with
  | Some d => commit_fails d = false
  | None => True
  end.

Definition has_record (task_id : string) (w : world) : Prop :=
  match db w with
  | Some d => is_Some (rows d !! task_id)
  | None => False
  end.

Definition header_value (h : string) (r : response) : option string :=
  match List.find (fun x => String.eqb (h_name x) h) (headers r) with
  | Some x => Some (h_value x)
  | None => None
  end.

(** All the bytes the peer delivers, in order. *)
Fixpoint wire_bytes (w : list arrival) : bytes :=
  match w with
  | [] => []
  | Data bs :: w' => bs ++ wire_bytes w'
  | Pause _ :: w' => wire_bytes w'
  end.

Definition is_data (a : arrival) : bool :=
  match a with
  | Data _ => true
  | Pause _ => false
  end.

(** Every read asks for at most 1024 bytes and for no more than the bytes
    still expected, [remaining] at the start of the trace. *)
Fixpoint reads_within_remaining (remaining : Z) (t : list sockop) : bool :=
  match t with
  | [] => true
  | OpRecv n got :: t' =>
      (n <=? 1024) && (n <=? remaining)
      && reads_within_remaining (remaining - Z.of_nat (length got)) t'
  | _ :: t' => reads_within_remaining remaining t'
  end.

(** Every read asks for at most 1024 bytes and at most [size] bytes. *)
Definition read_capped (size : Z) (op : sockop) : Prop :=
  match op with
  | OpRecv n _ => n = Z.min 1024 size /\ n <= 1024 /\ n <= size
  | _ => True
  end.

(** Every read comes right after a wait of [bound] seconds that reported
    the socket readable. *)
Fixpoint reads_follow_wait (bound : Z) (t : list sockop) : bool :=
  match t with
  | [] => true
  | OpRecv _ _ :: _ => false
  | OpSelect b r :: t' =>
      match t' with
      | OpRecv _ _ :: t'' => (b =? bound) && r && reads_follow_wait bound t''
      | _ => reads_follow_wait bound t'
      end
  | _ :: t' => reads_follow_wait bound t'
  end.

Definition sent_bytes (r : stream_run) : Z :=
  Z.of_nat (length (concat (chunks r))).

(** The socket calls of the end-of-transfer acknowledgment. *)
Definition handshake : list sockop :=
  [OpSendall [x00; x00; x00; x00; x00; x00; x00; x02];
   OpSendall [x52; x45]; OpClose].

(** ** Sample requests and states *)

Definition alice : request :=
  mkRequest (mkUser "alice" false) 1700000000 "1700000000.25" false
    "/api/tasks".

Definition mallory : request :=
  mkRequest (mkUser "mallory" false) 1700000000 "1700000000.25" false
    "/api/tasks".

Definition root : request :=
  mkRequest (mkUser "root" true) 1700000000 "1700000000.25" true
    "/api/tasks".

Definition idle : world := mkWorld ∅ ∅ None ∅ ∅ ∅ ∅ 0.

Definition with_task (task_id : string) (m : task_meta) (w : world) : world :=
  mkWorld (<[task_id := m]> (backend w)) (revoked w) (db w) (cache w)
    (session w) (files w) (agents w) (rescheduled w).

Definition with_agent (server path : string) (s : socket) (w : world)
  : world :=
  mkWorld (backend w) (revoked w) (db w) (cache w) (session w) (files w)
    (<[(server, path) := s]> (agents w)) (rescheduled w).

(** A restore that ran on the agent [agent1] for alice. *)
Definition remote_restore : pyval :=
  PDict [("user", PStr "alice"); ("server", PStr "agent1");
         ("path", PStr "/tmp/r.zip"); ("filename", PStr "r.zip")].

(** A restore that ran on the local server for alice. *)
Definition local_restore : pyval :=
  PDict [("user", PStr "alice"); ("server", PNone);
         ("path", PStr "/tmp/r.zip"); ("filename", PStr "r.zip")].

(** A local restore whose result names no file name. *)
Definition nameless_restore : pyval :=
  PDict [("user", PStr "alice"); ("server", PNone);
         ("path", PStr "/tmp/r.zip")].

(** A tree listing computed for alice. *)
Definition listing : pyval :=
  PDict [("user", PStr "alice"); ("server", PNone);
         ("tree", PList [PDict [("name", PStr "etc")]])].

(** A client deletion asked by alice. *)
Definition deletion (keepconf : bool) : pyval :=
  PDict [("user", PStr "alice"); ("server", PNone);
         ("result", PList [PList [PInt 0; PStr "client removed"]]);
         ("client", PStr "laptop");
         ("kwargs", PDict [("keepconf", PBool keepconf);
                           ("delcert", PBool false);
                           ("revoke", PBool false);
                           ("delete", PBool false);
                           ("template", PBool false)])].

(** A restore that failed, with the detail the executor stored. *)
Definition failed_restore (detail : string) (admin : bool) : pyval :=
  PDict [("error", PStr detail); ("admin", PBool admin)].

Definition recorded (task_id task user : string) (w : world) : world :=
  set_db (Some (mkDb (<[task_id := mkRow task user]>
                        (match db w with
                         | Some d => rows d
                         | None => ∅
                         end)) false)) w.

(** The same state with a database whose commits fail. *)
Definition failing_commits (w : world) : world :=
  set_db (option_map (fun d => mkDb (rows d) true) (db w)) w.


(** A restore that ran on the agent [agent 1] for alice. *)
Definition spaced_restore : pyval :=
  PDict [("user", PStr "alice"); ("server", PStr "agent 1");
         ("path", PStr "/tmp/r.zip"); ("filename", PStr "r.zip")].

Definition byte_a : byte := x61.
Definition byte_b : byte := x62.

Definition with_counter (v : pyval) (w : world) : world :=
  set_session (<["_extra" := v]> (session w)) w.

Definition with_cached (k : string) (v : pyval) (w : world) : world :=
  set_cache (<[k := v]> (cache w)) w.

(** The agent announces 3 bytes and delivers them in two pieces. *)
Definition prompt_agent : socket :=
  mkSocket []
    [Data ([x00; x00; x00; x00; x00; x00; x00; x03] ++ [byte_a]);
     Data [byte_b; byte_a]]
    false [] false.

(** The agent announces 2 bytes, delivers one and goes quiet. *)
Definition stalled_agent : socket :=
  mkSocket []
    [Data ([x00; x00; x00; x00; x00; x00; x00; x02] ++ [byte_a]); Pause 5]
    false [] false.

(** The agent announces 2 bytes, delivers one, waits 5 seconds and
    delivers the other. *)
Definition slow_agent : socket :=
  mkSocket []
    [Data ([x00; x00; x00; x00; x00; x00; x00; x02] ++ [byte_a]); Pause 5;
     Data [byte_b]]
    false [] false.

(** The agent announces 2 bytes and delivers them after a second each;
    it had waited a minute before it sent anything, and the prefix came
    with nothing behind it. *)
Definition unhurried_agent : socket :=
  mkSocket []
    [Pause 60; Data [x00; x00; x00; x00; x00; x00; x00; x02]; Pause 1;
     Data [byte_a]; Pause 1; Pause 3; Data [byte_b]; Pause 30]
    false [] false.

(** The length prefix reaches the socket in two pieces, the 2 bytes
    announced with the second. *)
Definition split_agent : socket :=
  mkSocket []
    [Data [x00; x00; x00; x00];
     Data ([x00; x00; x00; x02] ++ [byte_a; byte_b])]
    false [] false.

(** The 2 bytes announced reach the socket one at a time. *)
Definition trickle : socket :=
  mkSocket [] [Data [byte_a]; Data [byte_b]] false [] false.

(** The 1500 bytes announced are all there. *)
Definition burst : socket :=
  mkSocket (repeat byte_a 1500) [] false [] false.

(** The agent announces 1024 bytes and delivers them at once. *)
Definition kilobyte_agent : socket :=
  mkSocket []
    [Data ([x00; x00; x00; x00; x00; x00; x04; x00] ++ repeat byte_b 1024)]
    false [] false.

(** The agent announces 2 bytes and delivers 3. *)
Definition generous : socket :=
  mkSocket [] [Data [byte_a]; Data [byte_b; byte_a]] false [] false.

(** The agent delivers 1 byte of the 2 announced and closes. *)
Definition hung_up : socket :=
  mkSocket [] [Data [byte_a]] true [] false.

(** The text of the [OSError] raised by [open] on a path that does not
    exist. *)
Definition missing_file (p : string) : string :=
  "[Errno 2] No such file or directory: " +:+ repr_str p.

Fixpoint digits_only (s : string) : bool :=
  match s with
  | EmptyString => true
  | String c s' => is_digit c && digits_only s'
  end.

(** A handler that leaves the cache and the session as they are. *)
Definition keeps_caches {A} (m : handler A) : Prop :=
  forall w, cache (snd (m w)) = cache w /\ session (snd (m w)) = session w.

(** The bytes a socket still has to hand over: those received and not
    yet read, then those the peer will deliver. *)
Definition pending (s : socket) : bytes := rxbuf s ++ wire_bytes (wire s).

Definition backlog (s : socket) : nat :=
  (length (wire s) + length (pending s))%nat.

(** The peer never pauses. *)
Definition steady (s : socket) : bool := forallb is_data (wire s).

Definition read_of (n : Z) (op : sockop) : Prop :=
  match op with
  | OpRecv m _ => m = n
  | _ => True
  end.

(** Case analysis on a known task type, computing its [task_types]
    entry. *)
Ltac known_type H :=
  destruct H as [-> | [-> | ->]];
  cbn [task_types String.eqb Ascii.eqb Bool.eqb].

(** An integer that Python converts to text: of at most [max_str_digits]
    digits. *)
Definition short (n : Z) : Prop :=
  (max_str_digits <? String.length (str_of_Z (Z.abs n)))%nat = false.

(** The text of 4300 nines, the longest that [int] reads. *)
Definition nines : string := string_of_list_ascii (repeat "9"%char 4300).


(** In time: the peer lets less than [budget] seconds pass before its
    next bytes, and less than 5 seconds before each delivery after
    that; what it does after its last byte does not count. *)
Fixpoint in_time (budget : Z) (w : list arrival) : bool :=
  match w with
  | [] => true
  | Data [] :: w' => in_time budget w'
  | Data _ :: w' => in_time 5 w'
  | Pause d :: w' =>
      match wire_bytes w' with
      | [] => true
      | _ => (d <? budget) && in_time (budget - Z.max 0 d) w'
      end
  end.

(** ** Further vocabulary *)

(** The state and the result that [AsyncResult] reports for an id. *)
Definition task_state (w : world) (task_id : string) : string :=
  match backend w !! task_id with
  | Some m => t_state m
  | None => "PENDING"
  end.

Definition task_result (w : world) (task_id : string) : pyval :=
  match backend w !! task_id with
  | Some m => t_result m
  | None => PNone
  end.

Definition is_dict (v : pyval) : bool :=
  match v with
  | PDict _ => true
  | _ => false
  end.

(** A handler whose only effect on the state is to revoke ids. *)
Definition only_revokes {A} (m : handler A) : Prop :=
  forall w, exists ids, snd (m w) = set_revoked ids w.

(** The entry of a result map under a key, [None] when it has none:
    what [result.get(key)] gives on a map. *)
Definition field (d : list (string * pyval)) (key : string) : pyval :=
  match assoc key d with
  | Some x => x
  | None => PNone
  end.

(** The state after the bookkeeping of a fetch: the row of the task
    purged, the task revoked. *)
Definition consumed (task_id : string) (w : world) : world :=
  set_revoked ({[task_id]} ∪ revoked (snd (purge_record task_id w)))
    (snd (purge_record task_id w)).

(** The value of [_extra] after the [try] block of
    [TaskDeletedClient.get]: the integer read from the session counter
    (from [g.now] when the session has none), 0 when [int] raises
    [ValueError]; any other exception escapes. *)
Definition read_counter (rq : request) (w : world) : Z + pyexn :=
  match int (match session w !! "_extra" with
             | Some v => v
             | None => PInt (now rq)
             end) with
  | inl n => inl n
  | inr (ValueError _) => inl 0
  | inr e => inr e
  end.

(** The state after the result of a client deletion without [keepconf]
    was fetched, the counter having read [n]. *)
Definition invalidated (rq : request) (task_id : string) (n : Z) (w : world)
  : world :=
  let w1 := set_cache ∅ (set_revoked ({[task_id]} ∪ revoked w) w) in
  let w2 :=
    set_session (<["_extra" := PStr (str_of_Z (n + 1))]> (session w1)) w1 in
  if with_celery rq then set_rescheduled (S (rescheduled w2)) w2 else w2.

(** ** [burpui/__init__.py] *)

Definition starts_with_slash (s : string) : bool :=
  match s with
  | String c _ => Ascii.eqb c "/"
  | EmptyString => false
  end.

Fixpoint ends_with_slash (s : string) : bool :=
  match s with
  | EmptyString => false
  | String c EmptyString => Ascii.eqb c "/"
  | String _ s' => ends_with_slash s'
  end.

(** [os.path.join(a, *p)] of [posixpath]. *)
Fixpoint path_join (a : string) (p : list string) : string :=
  match p with
  | [] => a
  | b :: p' =>
      path_join
        (if starts_with_slash b then b
         else if String.eqb a "" || ends_with_slash a then a +:+ b
         else a +:+ "/" +:+ b) p'
  end.

(** [os.path.isfile(p)] *)
Definition isfile (w : world) (p : string) : bool :=
  match files w !! p with
  | Some _ => true
  | None => false
  end.

(** The candidates of [lookup_config] when no file is named;
    [prefix] is [sys.prefix]. *)
Definition conf_files (prefix : string) : list string :=
  let root := path_join prefix ["share"; "burpui"; "etc"] in
  ["/etc/burp/burpui.cfg";
   path_join root ["burpui.cfg"];
   path_join root ["burpui.sample.cfg"]].

(** [lookup_config(conf)]; the [IOError] is Python 3's [OSError]. *)
Definition lookup_config (prefix : string) (w : world) (conf : option string)
  : option string + pyexn :=
  if truthy (of_opt conf) then
    match conf with
    | Some c =>
        if isfile w c then inl (Some c)
        else inr (OSError ("File not found: '" +:+ c +:+ "'"))
    | None => inl None
    end
  else inl (List.find (isfile w) (conf_files prefix)).

(** The levels of [logging]. *)
Definition NOTSET : Z := 0.
Definition DEBUG : Z := 10.
Definition INFO : Z := 20.
Definition WARNING : Z := 30.
Definition ERROR : Z := 40.

(** [l[i]] of Python: a negative index counts from the end; [None] is
    [IndexError]. *)
Definition py_index {A} (l : list A) (i : Z) : option A :=
  let n := Z.of_nat (length l) in
  if (0 <=? i) && (i <? n) then nth_error l (Z.to_nat i)
  else if (- n <=? i) && (i <? 0) then nth_error l (Z.to_nat (n + i))
  else None.

(** The [debug] argument of [init]: a boolean, formerly, or a count. *)
Inductive debug_arg : Type :=
| DebugFlag (b : bool)
| DebugCount (n : Z).

(** The logging level [init] derives from its [debug] argument. *)
Definition debug_level (debug : debug_arg) : option Z :=
  match debug with
  | DebugFlag b => Some (if b then DEBUG else NOTSET)
  | DebugCount debug =>
      let levels := [NOTSET; ERROR; WARNING; INFO; DEBUG] in
      let debug :=
        if debug >=? Z.of_nat (length levels)
        then Z.of_nat (length levels) - 1 else debug in
      let debug := if negb (truthy (PInt debug)) then 0 else debug in
      py_index levels debug
  end.

(** Whether [init] switches Flask to [DEBUG] and [TESTING]. *)
Definition debug_mode (level : Z) (gunicorn : bool) : bool :=
  negb (level =? NOTSET) && negb gunicorn.

(** ** The migrations *)

Inductive sqltype : Type :=
| SqlInteger
| SqlString (length : Z)
| SqlDateTime
| SqlBoolean.

Record column : Type := mkColumn {
  col_name : string;
  col_type : sqltype;
  col_nullable : bool
}.

Record table : Type := mkTable {
  columns : list column;
  primary_key : list string;
  unique : list (list string)
}.

(** [op.create_table]: the database refuses a name that is taken. *)
Definition create_table (name : string) (t : table) (s : gmap string table)
  : option (gmap string table) :=
  match s !! name with
  | Some _ => None
  | None => Some (<[name := t]> s)
  end.

(** [op.drop_table]: the database refuses a name it does not know. *)
Definition drop_table (name : string) (s : gmap string table)
  : option (gmap string table) :=
  match s !! name with
  | Some _ => Some (delete name s)
  | None => None
  end.

Module Rev_56de018f4d88.
Definition revision : string := "56de018f4d88".
Definition down_revision : string := "fc07e3fa0086".

Definition upgrade (s : gmap string table) : option (gmap string table) :=
  create_table "pref"
    (mkTable
       [mkColumn "id" SqlInteger false;
        mkColumn "user" (SqlString 256) true;
        mkColumn "key" (SqlString 256) false;
        mkColumn "value" (SqlString 256) true]
       ["id"] []) s.

Definition downgrade (s : gmap string table) : option (gmap string table) :=
  drop_table "pref" s.
End Rev_56de018f4d88.

Module Rev_7f317474332d.
Definition revision : string := "7f317474332d".
Definition down_revision : string := "225d9b2f0fb1".

Definition upgrade (s : gmap string table) : option (gmap string table) :=
  create_table "session"
    (mkTable
       [mkColumn "id" SqlInteger false;
        mkColumn "uuid" (SqlString 256) true;
        mkColumn "user" (SqlString 256) true;
        mkColumn "ip" (SqlString 256) true;
        mkColumn "ua" (SqlString 2048) true;
        mkColumn "timestamp" SqlDateTime true;
        mkColumn "expire" SqlDateTime true;
        mkColumn "permanent" SqlBoolean true;
        mkColumn "api" SqlBoolean true]
       ["id"] [["uuid"]]) s.

Definition downgrade (s : gmap string table) : option (gmap string table) :=
  drop_table "session" s.
End Rev_7f317474332d.

(** ** Submitting tasks: [TaskRestore.post], [ClientSettings.delete] and
    [TaskClientTreeAll.post] *)

(** [current_user] with the answers of its [acl]. *)
Record principal : Type := mkPrincipal {
  who : user;
  is_anonymous : bool;
  is_moderator : bool;
  is_client_rw : pyval -> pyval -> bool;
  is_client_allowed : pyval -> pyval -> bool;
  is_server_rw : pyval -> bool
}.

(** [current_user.name] *)
Definition user_name (p : principal) : string := name (who p).

(** A call of [apply_async] as the broker holds it. *)
Record job : Type := mkJob {
  job_id : string;
  job_task : task_obj;
  job_args : list pyval
}.

(** A line of [bui.audit.logger]. *)
Record audit_entry : Type := mkAudit {
  audit_message : string;
  audit_server : pyval
}.

(** The state a submission works on: the state of the other resources,
    the broker's queue and the audit log, oldest first. *)
Record site : Type := mkSite {
  here : world;
  queue : list job;
  audit : list audit_entry
}.

(** What a submission finds around it: [current_user], [WS_AVAILABLE],
    [request.sid], the id [apply_async] gives the task,
    [bui.client.is_backup_running] and the truth of
    [bui.client.get_attr("batch_list_supported", False, server)]. *)
Record surroundings : Type := mkSurroundings {
  caller : principal;
  ws_available : bool;
  sid : pyval;
  uuid : string;
  is_backup_running : pyval -> pyval -> bool;
  batch_list_supported : pyval -> bool
}.

(** How a submission ends: with its answer, with [self.abort], or with
    an exception nobody caught, of which the class is kept. *)
Inductive answer : Type :=
| Answered (r : response)
| Refused (code : Z) (msg : string)
| Failed (cls : string).

(** [a or b] *)
Definition por (a b : pyval) : pyval := if truthy a then a else b.

Definition of_optZ (o : option Z) : pyval :=
  match o with Some z => PInt z | None => PNone end.

Definition of_optb (o : option bool) : pyval :=
  match o with Some b => PBool b | None => PNone end.

(** [del d[k]] on a dict that has the key. *)
Fixpoint del_key (k : string) (d : list (string * pyval))
  : list (string * pyval) :=
  match d with
  | [] => []
  | (k', v) :: d' => if String.eqb k k' then d' else (k', v) :: del_key k d'
  end.

(** [task = t.apply_async(args=args)]: the call joins the queue under
    the id it was given. *)
Definition apply_async (t : task_obj) (id : string) (args : list pyval)
    (s : site) : site :=
  mkSite (here s) (queue s ++ [mkJob id t args]) (audit s).

(** [bui.audit.logger.info(message, server=server)] *)
Definition audit_info (message : string) (server : pyval) (s : site) : site :=
  mkSite (here s) (queue s) (audit s ++ [mkAudit message server]).

(** [timedelta(minutes=m)], in seconds: [None] is a [TypeError], more
    than 999999999 days an [OverflowError]. *)
Definition timedelta_minutes (m : option Z) : Z + string :=
  match m with
  | None => inr "TypeError"
  | Some m =>
      let days := (m * 60) / 86400 in
      if (days <? -999999999) || (999999999 <? days) then inr "OverflowError"
      else inl (m * 60)
  end.

(** The block that records a submission:
<<
    try: db.session.add(db_task); db.session.commit()
    except: db.session.rollback()
>>
    A [task_row] keeps the name of the task and the user of the row. *)
Definition record_task (id task user : string) (w : world) : world :=
  match db w with
  | None => w
  | Some d =>
      if commit_fails d then w
      else set_db (Some (mkDb (<[id := mkRow task user]> (rows d))
                           (commit_fails d))) w
  end.

Definition set_here (w : world) (s : site) : site :=
  mkSite w (queue s) (audit s).

(** The archive formats the parser of [TaskRestore] lets through
    ([choices]); a request that names none gets the default, [zip], and
    one that names another, or null, is answered 400 by the parser. *)
Inductive archive_format : Type := Zip | TarGz | TarBz2.

Definition format_text (f : archive_format) : string :=
  match f with
  | Zip => "zip"
  | TarGz => "tar.gz"
  | TarBz2 => "tar.bz2"
  end.

(** What the parser of [TaskRestore] hands over: [list] is required and
    not nullable, [format] is one of the choices, the others may be
    null. *)
Record restore_args : Type := mkRestoreArgs {
  arg_pass : option string;
  arg_format : archive_format;
  arg_strip : option Z;
  arg_list : string;
  arg_timeout : option Z
}.

(** The parsed arguments as the dict they are, in the order of the
    parser. *)
Definition restore_args_dict (a : restore_args) : list (string * pyval) :=
  [("pass", of_opt (arg_pass a));
   ("format", PStr (format_text (arg_format a)));
   ("strip", of_optZ (arg_strip a));
   ("list", PStr (arg_list a));
   ("timeout", of_optZ (arg_timeout a))].

Definition accepted (id task : string) : response :=
  json (PDict [("id", PStr id); ("name", PStr task)]) 202.

(** [TaskRestore.post] *)
Definition TaskRestore_post (e : surroundings) (a : restore_args)
    (server name backup : pyval) (s : site) : answer * site :=
  let args := restore_args_dict a in
  let files := PStr (arg_list a) in
  let strip := of_optZ (arg_strip a) in
  let fmt := por (PStr (format_text (arg_format a))) (PStr "zip") in
  let passwd := of_opt (arg_pass a) in
  let timeout := arg_timeout a in
  let args_log := del_key "pass" args in
  let s :=
    audit_info ("requested restoration of backup n°" +:+ str backup
                  +:+ " for " +:+ str name +:+ ": " +:+ repr (PDict args_log))
      server s in
  let room := if ws_available e then sid e else PNone in
  if negb (truthy files) || negb (truthy name) || negb (truthy backup) then
    (Refused 400 "missing arguments", s)
  else if negb (is_anonymous (caller e))
          && negb (is_admin (who (caller e)))
          && negb (is_client_rw (caller e) name server)
  then
    (Refused 403
       "You are not allowed to perform a restoration for this client", s)
  else
    let s :=
      apply_async perform_restore (uuid e)
        [name; backup; files; strip; fmt; passwd; server;
         PStr (user_name (caller e));
         PBool (negb (is_anonymous (caller e)) && is_admin (who (caller e)));
         room] s in
    match db (here s) with
    | None => (Answered (accepted (uuid e) "perform_restore"), s)
    | Some _ =>
        match timedelta_minutes timeout with
        | inr cls => (Failed cls, s)
        | inl _ =>
            (Answered (accepted (uuid e) "perform_restore"),
             set_here (record_task (uuid e) "perform_restore"
                         (user_name (caller e)) (here s)) s)
        end
    end.

(** What the parser of [ClientSettings.delete] hands over. *)
Record delete_args : Type := mkDeleteArgs {
  arg_revoke : option bool;
  arg_delcert : option bool;
  arg_keepconf : option bool;
  arg_template : option bool;
  arg_delete : option bool
}.

(** [ClientSettings.delete], once its decorators have let the request
    in. *)
Definition ClientSettings_delete (e : surroundings) (a : delete_args)
    (server client conf : pyval) (s : site) : answer * site :=
  if negb (is_anonymous (caller e))
     && is_moderator (caller e)
     && negb (is_server_rw (caller e) server)
  then (Refused 403 "You don't have rights on this server", s)
  else if is_backup_running e client server then
    (Refused 409
       ("There is currently a backup running for this client hence "
          +:+ "we cannot delete it for now. Please try again later"), s)
  else
    let delcert := of_optb (arg_delcert a) in
    let revoke := of_optb (arg_revoke a) in
    let keepconf := of_optb (arg_keepconf a) in
    let template := of_optb (arg_template a) in
    let delete := of_optb (arg_delete a) in
    let s :=
      apply_async delete_client (uuid e)
        [client; keepconf; delcert; revoke; template; delete; server;
         PStr (user_name (caller e))] s in
    match db (here s) with
    | None => (Answered (accepted (uuid e) "delete_client"), s)
    | Some _ =>
        match timedelta_minutes (Some 60) with
        | inr cls => (Failed cls, s)
        | inl _ =>
            (Answered (accepted (uuid e) "delete_client"),
             set_here (record_task (uuid e) "delete_client"
                         (user_name (caller e)) (here s)) s)
        end
    end.

(** [TaskClientTreeAll.post]; [serverName] is the argument of its
    parser. *)
Definition TaskClientTreeAll_post (e : surroundings)
    (serverName : option string) (server name backup : pyval) (s : site)
  : answer * site :=
  let server := por server (of_opt serverName) in
  if negb (batch_list_supported e server) then
    (Refused 405 "Sorry, the requested backend does not support this method",
     s)
  else if negb (is_anonymous (caller e))
          && negb (is_admin (who (caller e)))
          && negb (is_client_allowed (caller e) name server)
  then (Refused 403 "Sorry, you are not allowed to view this client", s)
  else
    let s :=
      apply_async load_all_tree (uuid e)
        [name; backup; server; PStr (user_name (caller e))] s in
    (Answered (accepted (uuid e) "load_all_tree"), s).

(** *** Vocabulary and samples for the submissions *)

(** The three things [TaskRestore.post] insists on. *)
Definition restore_complete (a : restore_args) (name backup : pyval) : bool :=
  negb (String.eqb (arg_list a) "") && truthy name && truthy backup.

Definition may_restore (p : principal) (name server : pyval) : bool :=
  is_anonymous p || is_admin (who p) || is_client_rw p name server.

Definition may_browse (p : principal) (name server : pyval) : bool :=
  is_anonymous p || is_admin (who p) || is_client_allowed p name server.

Definition may_delete (p : principal) (server : pyval) : bool :=
  is_anonymous p || negb (is_moderator p) || is_server_rw p server.

Definition with_pass (p : option string) (a : restore_args) : restore_args :=
  mkRestoreArgs p (arg_format a) (arg_strip a) (arg_list a) (arg_timeout a).

(** The minutes [timedelta] takes. *)
Definition minutes_in_range (m : Z) : Prop :=
  -1439999998560 <= m < 1440000000000.

(** The parts of the state no submission writes. *)
Definition same_results (w w' : world) : Prop :=
  backend w' = backend w /\ revoked w' = revoked w /\ cache w' = cache w
  /\ session w' = session w /\ files w' = files w /\ agents w' = agents w
  /\ rescheduled w' = rescheduled w.

(** A submission that only appends to the queue and the log. *)
Definition only_appends (e : surroundings) (s : site) (run : answer * site)
  : Prop :=
  exists jobs lines,
    queue (snd run) = queue s ++ jobs
    /\ audit (snd run) = audit s ++ lines
    /\ (length jobs <= 1)%nat /\ (length lines <= 1)%nat
    /\ Forall (fun j => job_id j = uuid e) jobs
    /\ same_results (here s) (here (snd run))
    /\ (forall r, fst run = Answered r -> length jobs = 1%nat)
    /\ (forall code msg, fst run = Refused code msg -> jobs = []).

(** alice, who may restore and browse her laptop and nothing else. *)
Definition clerk : principal :=
  mkPrincipal (mkUser "alice" false) false false
    (fun name _ => eqv name (PStr "laptop"))
    (fun name _ => eqv name (PStr "laptop"))
    (fun _ => false).

(** A moderator without rights on any server. *)
Definition warden : principal :=
  mkPrincipal (mkUser "wendy" false) false true
    (fun _ _ => true) (fun _ _ => true) (fun _ => false).

Definition desk (p : principal) (busy : bool) : surroundings :=
  mkSurroundings p false PNone "7c9e6679" (fun _ _ => busy) (fun _ => true).

Definition etc_as_zip (timeout : option Z) : restore_args :=
  mkRestoreArgs (Some "s3cret") Zip (Some 0) "/etc" timeout.

(** A site with a database and nothing going on. *)
Definition office : site := mkSite (set_db (Some (mkDb ∅ false)) idle) [] [].

(** Closes an [only_appends] goal once the run is known; [frame] is the
    lemma by which the results were left alone. *)
Ltac appended frame :=
  unfold only_appends; do 2 eexists;
  cbn [snd fst queue audit here set_here apply_async audit_info];
  (split; [first [reflexivity | symmetry; apply app_nil_r]|]);
  (split; [first [reflexivity | symmetry; apply app_nil_r]|]);
  cbn [length];
  repeat split; try lia; try discriminate; try reflexivity;
  try apply frame; repeat constructor.

(** * Properties *)

(** ** The ownership guard *)

Lemma guard_value (caller owner : string) (node origin : option string) :
  neqv (PStr caller) (PStr owner)
  || (truthy (of_opt origin) && neqv (of_opt origin) (of_opt node))
  = negb (owner_on_node caller owner node origin).
Proof.
  unfold owner_on_node, neqv. cbn [eqv].
  destruct (String.eqb caller owner); cbn [negb orb andb]; [|reflexivity].
  destruct origin as [o|]; cbn [of_opt truthy]; [|reflexivity].
  destruct (String.eqb o ""); cbn [negb orb andb]; [reflexivity|].
  destruct node as [n|]; cbn [of_opt eqv]; reflexivity.
Qed.

Lemma stream_file_not_forbidden rq path filename server w :
  forbidden (stream_file rq path filename server w) = false.
Proof.
  unfold stream_file, bind, get_file, forbidden.
  destruct (match path with PStr p => _ | _ => None end) as [sock|];
    [|reflexivity].
  destruct (recv sock 8) as [[buf sock']|]; [|reflexivity].
  unfold lift. destruct (unpack_Q buf); [|reflexivity].
  destruct (encode filename); reflexivity.
Qed.

Lemma local_send_not_forbidden path filename w :
  forbidden
    (match open_rb path w with
     | inr e => abort 500 (Some (exn_str e)) w
     | inl content =>
         match send_file content filename with
         | inr e => (remove_file path ;;; abort 500 (Some (exn_str e))) w
         | inl resp =>
             (remove_file path ;;;
              ret (set_cookie resp "fileDownload" "true")) w
         end
     end) = false.
Proof.
  destruct (open_rb path w) as [content|]; [|reflexivity].
  destruct (send_file content filename); reflexivity.
Qed.

Section Guard.
Variables (rq : request) (task_id : string) (node : option string).
Variables (w : world) (st : string) (d : list (string * pyval)).
Variables (owner : string) (origin : option string).
Hypothesis Hmeta : backend w !! task_id = Some (mkMeta st (PDict d)).
Hypothesis Huser : get (PDict d) "user" = inl (PStr owner).
Hypothesis Hnode : get (PDict d) "server" = inl (of_opt origin).

Lemma cancel_guard task_type :
  task_type_known task_type ->
  forbidden (TaskStatus_delete rq task_type task_id node w)
  = negb (owner_on_node (name (current_user rq)) owner node origin
          || is_admin (current_user rq)).
Proof.
  intros Hk. unfold TaskStatus_delete.
  known_type Hk; unfold bind, AsyncResult; rewrite Hmeta;
    cbn [t_result t_state]; rewrite Huser, Hnode; cbn [lift];
    rewrite guard_value, negb_orb;
    destruct (negb (owner_on_node _ _ _ _) && negb _); reflexivity.
Qed.

Lemma fetch_guard :
  st = "SUCCESS" ->
  forbidden (TaskGetFile_get rq task_id node w)
  = negb (owner_on_node (name (current_user rq)) owner node origin
          || is_admin (current_user rq)).
Proof.
  intros ->. unfold TaskGetFile_get, bind at 1, AsyncResult.
  rewrite Hmeta. cbn [t_result t_state String.eqb Ascii.eqb Bool.eqb negb].
  assert (Hp : exists p, get (PDict d) "path" = inl p)
    by (eexists; reflexivity).
  assert (Hf : exists f, get (PDict d) "filename" = inl f)
    by (eexists; reflexivity).
  destruct Hp as [p Hp]. destruct Hf as [f Hf].
  unfold bind at 1. rewrite Hp. cbn [lift].
  unfold bind at 1. rewrite Huser. cbn [lift].
  unfold bind at 1. rewrite Hnode. cbn [lift].
  unfold bind at 1. rewrite Hf. cbn [lift].
  rewrite guard_value, negb_orb.
  destruct (negb (owner_on_node _ _ _ _) && negb _); [reflexivity|].
  unfold bind, purge_record, revoke, modify.
  destruct (truthy (of_opt origin)).
  - apply stream_file_not_forbidden.
  - apply local_send_not_forbidden.
Qed.

Lemma tree_guard :
  st = "SUCCESS" ->
  forbidden (TaskDoBrowseAll_get rq task_id node w)
  = negb (owner_on_node (name (current_user rq)) owner node origin).
Proof.
  intros ->. unfold TaskDoBrowseAll_get, bind, AsyncResult.
  rewrite Hmeta. cbn [t_result t_state String.eqb Ascii.eqb Bool.eqb negb].
  rewrite Huser, Hnode. cbn [lift].
  assert (Hp : exists p, get (PDict d) "tree" = inl p)
    by (eexists; reflexivity).
  destruct Hp as [p Hp]. rewrite Hp. rewrite guard_value.
  destruct (negb (owner_on_node _ _ _ _)); reflexivity.
Qed.
End Guard.

(** C1, as the resources implement it: when the result of a task names
    its owner and its origin node, cancelling it and fetching its
    artifact are refused with 403 exactly when the caller is neither an
    administrator nor the owner asking on the right node, where the right
    node means that the origin node recorded in the result is unset or
    empty, or equals the node of the request; fetching a tree applies the
    same test to every caller who is not an administrator. *)
Theorem ownership_guard rq task_id node w d owner origin :
  backend w !! task_id = Some (mkMeta "SUCCESS" (PDict d)) ->
  get (PDict d) "user" = inl (PStr owner) ->
  get (PDict d) "server" = inl (of_opt origin) ->
  let caller := name (current_user rq) in
  let admin := is_admin (current_user rq) in
  (forall task_type, task_type_known task_type ->
   forbidden (TaskStatus_delete rq task_type task_id node w)
   = negb (owner_on_node caller owner node origin || admin))
  /\ forbidden (TaskGetFile_get rq task_id node w)
     = negb (owner_on_node caller owner node origin || admin)
  /\ (admin = false ->
      forbidden (TaskDoBrowseAll_get rq task_id node w)
      = negb (owner_on_node caller owner node origin)).
Proof.
  intros Hmeta Huser Hnode caller admin. split; [|split].
  - intros task_type Hk.
    apply (cancel_guard rq task_id node w "SUCCESS" d owner origin); auto.
  - apply (fetch_guard rq task_id node w "SUCCESS" d owner origin); auto.
  - intros _.
    apply (tree_guard rq task_id node w "SUCCESS" d owner origin); auto.
Qed.

Lemma ownership_guard_witness :
  forbidden (TaskStatus_delete mallory "restore" "t1" (Some "agent1")
               (with_task "t1" (mkMeta "SUCCESS" remote_restore) idle))
  = true
  /\ forbidden (TaskGetFile_get mallory "t1" (Some "agent1")
                  (with_task "t1" (mkMeta "SUCCESS" remote_restore) idle))
     = true.
Proof.
  destruct (ownership_guard mallory "t1" (Some "agent1")
              (with_task "t1" (mkMeta "SUCCESS" remote_restore) idle)
              _ "alice" (Some "agent1") eq_refl eq_refl eq_refl)
    as (Hcancel & Hfetch & _).
  split.
  - apply (Hcancel "restore"). left. reflexivity.
  - exact Hfetch.
Defined.

(** C1 as the specification words it fails on the resources: the owner
    who names no node is refused a task that ran on an agent, although
    the specification's guard accepts her, and an administrator who is
    not the owner is refused the tree of a task. *)
Lemma guard_differs_from_specification :
  authorized "alice" "alice" None (Some "agent1") false = true
  /\ fst (TaskStatus_delete alice "restore" "t1" None
            (with_task "t1" (mkMeta "SUCCESS" remote_restore) idle))
     = Abort 403 (Some "Unauthorized access")
  /\ fst (TaskGetFile_get alice "t1" None
            (with_task "t1" (mkMeta "SUCCESS" remote_restore) idle))
     = Abort 403 (Some "Unauthorized access")
  /\ authorized "root" "alice" None None true = true
  /\ fst (TaskDoBrowseAll_get root "t2" None
            (with_task "t2" (mkMeta "SUCCESS" listing) idle))
     = Abort 403 (Some "Unauthorized access").
Proof. repeat split; vm_compute; reflexivity. Qed.

(** ** Status queries *)

(** C2, as the resources implement it: an id the result backend knows
    nothing about is reported as a pending task.  The status query
    answers 200 with the state [PENDING], the artifact fetch answers 400
    "not processed yet", and neither changes anything. *)
Theorem unknown_task_is_pending rq task_type task_id node w :
  backend w !! task_id = None ->
  task_type_known task_type ->
  TaskStatus_get rq task_type task_id node w
  = (Returned (json (PDict [("state", PStr "PENDING")]) 200), w)
  /\ TaskGetFile_get rq task_id node w
     = (Abort 400 (Some "Task not processed yet: PENDING"), w).
Proof.
  intros Hb Hk. split.
  - unfold TaskStatus_get. known_type Hk;
      unfold bind, AsyncResult; rewrite Hb; reflexivity.
  - unfold TaskGetFile_get, bind, AsyncResult. rewrite Hb. reflexivity.
Qed.

Lemma unknown_task_is_pending_witness :
  TaskStatus_get alice "browse" "nope" None idle
  = (Returned (json (PDict [("state", PStr "PENDING")]) 200), idle)
  /\ TaskGetFile_get alice "nope" None idle
     = (Abort 400 (Some "Task not processed yet: PENDING"), idle).
Proof.
  apply (unknown_task_is_pending alice "browse" "nope" None idle).
  - reflexivity.
  - right. left. reflexivity.
Defined.

(** C2 as the specification words it fails: for an id that was never
    submitted the status query is a success, not an error of the
    not-found class, and the cancellation ends in an exception that
    nothing catches. *)
Lemma unknown_task_not_reported_missing :
  fst (TaskStatus_get alice "restore" "nope" None idle)
  = Returned (json (PDict [("state", PStr "PENDING")]) 200)
  /\ client_error (fst (TaskStatus_get alice "restore" "nope" None idle))
     = false
  /\ fst (TaskStatus_delete alice "restore" "nope" None idle)
     = Raised (AttributeError "'NoneType' object has no attribute 'get'")
  /\ crashed (fst (TaskStatus_delete alice "restore" "nope" None idle))
     = true.
Proof. repeat split; vm_compute; reflexivity. Qed.

(** No resource of the module ever answers 404. *)
Lemma status_never_404 rq task_type task_id node w msg :
  fst (TaskStatus_get rq task_type task_id node w) <> Abort 404 msg.
Proof.
  unfold TaskStatus_get.
  destruct (task_types task_type) as [[t callback]|]; [|discriminate].
  unfold bind at 1, AsyncResult.
  set (task := match backend w !! task_id with
               | Some m => m
               | None => mkMeta "PENDING" PNone
               end).
  destruct (String.eqb (t_state task) "FAILURE"); [discriminate|].
  destruct (String.eqb (t_state task) "SUCCESS"); [|discriminate].
  destruct (negb (truthy (t_result task))); [discriminate|].
  unfold bind, lift.
  destruct (get (t_result task) "server") as [server|]; [|discriminate].
  destruct (url_for rq callback task_id server); discriminate.
Qed.

Lemma purge_record_returns task_id w :
  purge_record task_id w = (Returned tt, snd (purge_record task_id w)).
Proof. reflexivity. Qed.

Lemma purge_record_gone task_id w :
  db_healthy w -> ~ has_record task_id (snd (purge_record task_id w)).
Proof.
  unfold db_healthy, has_record, purge_record, modify. cbn [snd].
  destruct (db w) as [dbs|] eqn:Hdb; [|rewrite Hdb; tauto].
  intros Hc. destruct (rows dbs !! task_id) eqn:Hrow.
  - rewrite Hc. cbn [set_db db rows]. rewrite lookup_delete_eq.
    intros [x Hx]; discriminate.
  - rewrite Hdb, Hrow. intros [x Hx]; discriminate.
Qed.

Lemma purge_record_frame task_id w :
  let w' := snd (purge_record task_id w) in
  backend w' = backend w /\ revoked w' = revoked w /\ cache w' = cache w
  /\ session w' = session w /\ files w' = files w /\ agents w' = agents w.
Proof.
  unfold purge_record, modify. cbn [snd].
  destruct (db w) as [dbs|]; [|tauto].
  destruct (rows dbs !! task_id); [|tauto].
  destruct (commit_fails dbs); cbn; tauto.
Qed.

(** When the commit fails the row is kept: the bookkeeping is best
    effort. *)
Lemma purge_record_rolled_back task_id w dbs :
  db w = Some dbs -> commit_fails dbs = true ->
  snd (purge_record task_id w) = w.
Proof.
  intros Hdb Hc. unfold purge_record, modify. cbn [snd]. rewrite Hdb.
  destruct (rows dbs !! task_id); [rewrite Hc|]; reflexivity.
Qed.




Lemma known_is_some task_type :
  task_type_known task_type -> is_Some (task_types task_type).
Proof. intros [-> | [-> | ->]]; eexists; reflexivity. Qed.




(** ** Failure details *)



(** ** Local delivery *)

Lemma consumed_facts task_id w :
  task_id ∈ revoked (consumed task_id w)
  /\ backend (consumed task_id w) = backend w
  /\ files (consumed task_id w) = files w
  /\ (db_healthy w -> ~ has_record task_id (consumed task_id w))
  /\ (forall dbs, db w = Some dbs -> commit_fails dbs = true ->
      db (consumed task_id w) = db w).
Proof.
  pose proof (purge_record_frame task_id w) as (Hbk & _ & _ & _ & Hfl & _).
  unfold consumed. cbn [revoked backend files db set_revoked].
  split; [apply elem_of_union_l, elem_of_singleton; reflexivity|].
  split; [exact Hbk|]. split; [exact Hfl|]. split.
  - intros Hdb. exact (purge_record_gone task_id w Hdb).
  - intros dbs Hdb Hc.
    rewrite (purge_record_rolled_back task_id w dbs Hdb Hc). reflexivity.
Qed.

(** What is left of [TaskGetFile.get] for a local artifact once the
    guard is passed. *)
Lemma local_fetch_steps rq task_id node w d :
  backend w !! task_id = Some (mkMeta "SUCCESS" (PDict d)) ->
  truthy (field d "server") = false ->
  (neqv (PStr (name (current_user rq))) (field d "user")
   || (truthy (field d "server")
       && neqv (field d "server") (of_opt node)))
  && negb (is_admin (current_user rq)) = false ->
  TaskGetFile_get rq task_id node w
  = match open_rb (field d "path") (consumed task_id w) with
    | inr e => (Abort 500 (Some (exn_str e)), consumed task_id w)
    | inl content =>
        match send_file content (field d "filename") with
        | inr e =>
            (remove_file (field d "path") ;;;
             abort 500 (Some (exn_str e))) (consumed task_id w)
        | inl resp =>
            (remove_file (field d "path") ;;;
             ret (set_cookie resp "fileDownload" "true"))
              (consumed task_id w)
        end
    end.
Proof.
  intros Hb Hloc Hok.
  unfold TaskGetFile_get, bind at 1, AsyncResult. rewrite Hb.
  cbn [t_state t_result String.eqb Ascii.eqb Bool.eqb negb].
  do 4 (unfold bind at 1; cbn [get lift]; fold (field d "path");
        fold (field d "user"); fold (field d "server");
        fold (field d "filename")).
  rewrite Hok, Hloc.
  unfold bind at 1. rewrite purge_record_returns.
  unfold bind at 1, revoke, modify. fold (consumed task_id w).
  reflexivity.
Qed.

(** C10, as the resources implement it: when the owner (or an
    administrator) fetches a local artifact and opening the file or
    preparing the response fails, the answer is 500 with the text of the
    exception, and by then the task has been revoked and its row
    deleted, unless the commit of that deletion failed, in which case
    the row is kept; the result backend is left as it was.  When the
    file could not be opened the files are as they were; when the
    response could not be prepared the file has been removed.  The
    revocation does not stand in the way of a retry, which finds the
    task in state [SUCCESS] and takes the same steps: it answers 500
    again as long as the file cannot be opened. *)
Theorem failed_local_fetch rq task_id node w d p :
  backend w !! task_id = Some (mkMeta "SUCCESS" (PDict d)) ->
  truthy (field d "server") = false ->
  (neqv (PStr (name (current_user rq))) (field d "user")
   || (truthy (field d "server")
       && neqv (field d "server") (of_opt node)))
  && negb (is_admin (current_user rq)) = false ->
  field d "path" = PStr p ->
  files w !! p = None
  \/ (exists content e,
        files w !! p = Some content
        /\ send_file content (field d "filename") = inr e) ->
  exists msg w',
    TaskGetFile_get rq task_id node w = (Abort 500 (Some msg), w')
    /\ task_id ∈ revoked w'
    /\ (task_id ∉ revoked w -> w' <> w)
    /\ (db_healthy w -> ~ has_record task_id w')
    /\ (forall dbs, db w = Some dbs -> commit_fails dbs = true ->
        db w' = db w)
    /\ backend w' = backend w
    /\ (files w !! p = None -> msg = missing_file p /\ files w' = files w)
    /\ (forall content e,
          files w !! p = Some content ->
          send_file content (field d "filename") = inr e ->
          msg = exn_str e /\ files w' = delete p (files w))
    /\ fst (TaskGetFile_get rq task_id node w')
       = Abort 500 (Some (missing_file p)).
Proof.
  intros Hb Hloc Hok Hp Hfail.
  destruct (consumed_facts task_id w) as (Hrev & Hbk & Hfl & Hgone & Hkept).
  rewrite (local_fetch_steps rq task_id node w d Hb Hloc Hok).
  assert (Hdiff : forall w', task_id ∈ revoked w' ->
                             task_id ∉ revoked w -> w' <> w)
    by (intros w' Hin Hnot ->; exact (Hnot Hin)).
  assert (Hretry : forall w1,
             backend w1 = backend w -> files w1 !! p = None ->
             fst (TaskGetFile_get rq task_id node w1)
             = Abort 500 (Some (missing_file p))).
  { intros w1 Hbk1 Hfile1.
    rewrite (local_fetch_steps rq task_id node w1 d);
      [|rewrite Hbk1; exact Hb | exact Hloc | exact Hok].
    destruct (consumed_facts task_id w1) as (_ & _ & Hfl1 & _).
    rewrite Hp. unfold open_rb. rewrite Hfl1, Hfile1. reflexivity. }
  rewrite Hp. unfold open_rb at 1. rewrite Hfl.
  destruct Hfail as [Hnone | (content & e & Hfile & Hs)].
  - rewrite Hnone. do 2 eexists. split; [reflexivity|].
    split; [exact Hrev|]. split; [apply Hdiff; exact Hrev|].
    split; [exact Hgone|]. split; [exact Hkept|]. split; [exact Hbk|].
    split; [intros _; split; [reflexivity | exact Hfl]|].
    split; [intros content e Hfile; congruence|].
    apply Hretry; [exact Hbk | rewrite Hfl; exact Hnone].
  - rewrite Hfile, Hs. unfold bind, remove_file, modify, abort.
    do 2 eexists. split; [reflexivity|].
    split; [exact Hrev|]. split; [apply Hdiff; exact Hrev|].
    split; [exact Hgone|]. split; [exact Hkept|]. split; [exact Hbk|].
    split; [intros Hnone; congruence|].
    split.
    { intros content' e' Hfile' Hs'. cbn [files set_files]. rewrite Hfl.
      split; [|reflexivity].
      assert (content' = content) as -> by congruence. congruence. }
    apply Hretry; [exact Hbk|].
    cbn [files set_files]. apply lookup_delete_eq.
Qed.

Lemma failed_local_fetch_witness :
  (exists w',
     TaskGetFile_get alice "t1" None
       (recorded "t1" "perform_restore" "alice"
          (with_task "t1" (mkMeta "SUCCESS" local_restore) idle))
     = (Abort 500 (Some (missing_file "/tmp/r.zip")), w')
     /\ "t1" ∈ revoked w'
     /\ ~ has_record "t1" w')
  /\ (exists w',
        TaskGetFile_get alice "t2" None
          (set_files {["/tmp/r.zip" := [byte_a]]}
             (with_task "t2" (mkMeta "SUCCESS" nameless_restore) idle))
        = (Abort 500
             (Some "filename unavailable, required for sending as attachment"),
           w')
        /\ "t2" ∈ revoked w'
        /\ files w' = ∅).
Proof.
  split.
  - destruct (failed_local_fetch alice "t1" None
                (recorded "t1" "perform_restore" "alice"
                   (with_task "t1" (mkMeta "SUCCESS" local_restore) idle))
                _ "/tmp/r.zip" eq_refl eq_refl eq_refl eq_refl
                (or_introl eq_refl))
      as (msg & w' & Hrun & Hrev & _ & Hrow & _ & _ & Hopen & _).
    destruct (Hopen eq_refl) as [-> _].
    exists w'. split; [exact Hrun|]. split; [exact Hrev|].
    apply Hrow. reflexivity.
  - assert (Hfile :
      files (set_files {["/tmp/r.zip" := [byte_a]]}
               (with_task "t2" (mkMeta "SUCCESS" nameless_restore) idle))
        !! "/tmp/r.zip" = Some [byte_a])
      by (vm_compute; reflexivity).
    destruct (failed_local_fetch alice "t2" None
                (set_files {["/tmp/r.zip" := [byte_a]]}
                   (with_task "t2" (mkMeta "SUCCESS" nameless_restore) idle))
                _ "/tmp/r.zip" eq_refl eq_refl eq_refl eq_refl
                (or_intror (ex_intro _ _ (ex_intro _ _
                                            (conj Hfile eq_refl)))))
      as (msg & w' & Hrun & Hrev & _ & _ & _ & _ & _ & Hsend & _).
    destruct (Hsend _ _ Hfile eq_refl) as [-> Hfiles].
    exists w'. split; [exact Hrun|]. split; [exact Hrev|].
    rewrite Hfiles. vm_compute. reflexivity.
Defined.

(** C10 as it is worded fails in two places.  A retry can succeed: after
    the fetch of a local artifact failed with 500 on a missing file, the
    task stays in state [SUCCESS], and once the file can be opened the
    retry for the same id delivers it, although the task is revoked and
    its row gone.  And the record is not always removed: where the
    database refuses the commit the row is still there after the 500. *)
Lemma retry_after_failed_fetch_succeeds :
  let w0 := recorded "t1" "perform_restore" "alice"
              (with_task "t1" (mkMeta "SUCCESS" local_restore) idle) in
  let w1 := snd (TaskGetFile_get alice "t1" None w0) in
  let w2 := set_files (<["/tmp/r.zip" := [byte_a; byte_b]]> (files w1)) w1 in
  let w3 := snd (TaskGetFile_get alice "t1" None (failing_commits w0)) in
  fst (TaskGetFile_get alice "t1" None w0)
  = Abort 500 (Some "[Errno 2] No such file or directory: '/tmp/r.zip'")
  /\ revoked w1 = {["t1"]}
  /\ db w1 = Some (mkDb ∅ false)
  /\ fst (TaskGetFile_get alice "t1" None w2)
     = Returned
         (mkResponse 200 (FileBody [byte_a; byte_b]) (Some "application/zip")
            [mkHeader "Content-Disposition" "attachment"
               [("filename", PStr "r.zip")]]
            [("fileDownload", "true")] None)
  /\ fst (TaskGetFile_get alice "t1" None (failing_commits w0))
     = Abort 500 (Some "[Errno 2] No such file or directory: '/tmp/r.zip'")
  /\ revoked w3 = {["t1"]}
  /\ db w3 = Some (mkDb {["t1" := mkRow "perform_restore" "alice"]} true).
Proof. repeat split; vm_compute; reflexivity. Qed.

(** ** Cache invalidation *)

Lemma digit_not_space c : is_digit c = true -> is_space c = false.
Proof.
  destruct c as [[|] [|] [|] [|] [|] [|] [|] [|]]; vm_compute; congruence.
Qed.

Lemma digit_not_sign c :
  is_digit c = true ->
  Ascii.eqb c "-" = false /\ Ascii.eqb c "+" = false
  /\ Ascii.eqb c "_" = false.
Proof.
  destruct c as [[|] [|] [|] [|] [|] [|] [|] [|]]; vm_compute;
    intuition congruence.
Qed.

Lemma digits_of_uint u : digits_only (NilEmpty.string_of_uint u) = true.
Proof. induction u; cbn [NilEmpty.string_of_uint digits_only]; auto. Qed.

Lemma lstrip_digits s : digits_only s = true -> lstrip s = s.
Proof.
  destruct s as [|c s]; [reflexivity|]. cbn [digits_only lstrip].
  intros [Hc _]%andb_prop. rewrite (digit_not_space c Hc). reflexivity.
Qed.

Lemma rstrip_digits s : digits_only s = true -> rstrip s = s.
Proof.
  induction s as [|c s IH]; [reflexivity|]. cbn [digits_only rstrip].
  intros [Hc Hs]%andb_prop. rewrite (IH Hs), (digit_not_space c Hc).
  destruct s; reflexivity.
Qed.

Lemma digits_grouped_digits s b :
  digits_only s = true -> s <> EmptyString \/ b = true ->
  digits_grouped b s = Some s.
Proof.
  revert b. induction s as [|c s IH]; intros b Hd Hne.
  - destruct Hne as [Hne | ->]; [congruence | reflexivity].
  - cbn [digits_only] in Hd. apply andb_prop in Hd as [Hc Hs].
    cbn [digits_grouped]. rewrite Hc, (IH true Hs); auto.
Qed.

Lemma digit_is_ascii c :
  is_digit c = true -> (nat_of_ascii c <? 128)%nat = true.
Proof.
  destruct c as [[|] [|] [|] [|] [|] [|] [|] [|]]; vm_compute; congruence.
Qed.

Lemma digits_are_ascii s : digits_only s = true -> is_ascii s = true.
Proof.
  induction s as [|c s IH]; [reflexivity|]. cbn [digits_only is_ascii].
  intros [Hc Hs]%andb_prop. rewrite (digit_is_ascii c Hc), (IH Hs).
  reflexivity.
Qed.

Lemma unsigned_of_uint u :
  let s := NilZero.string_of_uint u in
  digits_only s = true /\ s <> EmptyString
  /\ ((max_str_digits <? String.length s)%nat = false ->
      unsigned s = Some (Z.of_uint u)).
Proof.
  destruct u; cbn [NilZero.string_of_uint];
    try (split; [reflexivity | split; [discriminate | reflexivity]]).
  all: match goal with
       | |- context [NilEmpty.string_of_uint ?u] =>
           pose proof (digits_of_uint u) as Hd;
           pose proof (NilEmpty.usu u) as Hu
       end.
  all: split; [exact Hd|]; split; [discriminate|].
  all: intros Hlen; unfold unsigned;
    rewrite digits_grouped_digits by (auto; left; discriminate).
  all: rewrite Hlen; unfold Z_of_digits; rewrite Hu; reflexivity.
Qed.

(** The text of an integer reads back as the integer, as long as Python
    converts it. *)
Lemma int_of_str_of_Z n : short n -> int_of_str (str_of_Z n) = Some n.
Proof.
  unfold short, str_of_Z. rewrite <- (DecimalZ.of_to n) at 3.
  destruct n as [|p|p]; cbn [Z.abs Z.to_int NilZero.string_of_int Z.of_int];
    [intros _; reflexivity| |];
    destruct (unsigned_of_uint (Pos.to_uint p)) as (Hd & Hne & Hu);
    cbn zeta in Hd, Hne, Hu; intros Hshort; specialize (Hu Hshort);
    unfold int_of_str, decimal_and_space_to_ascii.
  - rewrite (digits_are_ascii _ Hd). unfold int_of_ascii, strip.
    rewrite lstrip_digits, rstrip_digits by assumption.
    destruct (NilZero.string_of_uint (Pos.to_uint p)) as [|c r] eqn:E;
      [congruence|].
    cbn [digits_only] in Hd. apply andb_prop in Hd as [Hc _].
    destruct (digit_not_sign c Hc) as (-> & -> & _). exact Hu.
  - cbn [is_ascii]. rewrite (digits_are_ascii _ Hd).
    change ((nat_of_ascii "-" <? 128)%nat && true) with true. cbn iota.
    unfold int_of_ascii, strip.
    cbn [lstrip]. change (is_space "-") with false. cbn iota.
    cbn [rstrip]. rewrite rstrip_digits by assumption.
    destruct (NilZero.string_of_uint (Pos.to_uint p)) as [|c r] eqn:E;
      [congruence|].
    change (Ascii.eqb "-" "-") with true. cbn iota.
    rewrite Hu. reflexivity.
Qed.

Lemma format_int_short n : short n -> format_int n = inl (str_of_Z n).
Proof. unfold short, format_int. intros ->. reflexivity. Qed.

Lemma format_int_long n :
  ~ short n ->
  format_int n = inr (ValueError (over_limit +:+ raise_limit)).
Proof.
  unfold short, format_int.
  destruct (max_str_digits <? String.length (str_of_Z (Z.abs n)))%nat;
    [reflexivity | congruence].
Qed.

Lemma keeps_ret {A} (a : A) : keeps_caches (ret a).
Proof. intros w. split; reflexivity. Qed.

Lemma keeps_abort {A} code msg : keeps_caches (@abort A code msg).
Proof. intros w. split; reflexivity. Qed.

Lemma keeps_lift {A} (r : A + pyexn) : keeps_caches (lift r).
Proof. intros w. destruct r; split; reflexivity. Qed.

Lemma keeps_bind {A B} (m : handler A) (k : A -> handler B) :
  keeps_caches m -> (forall a, keeps_caches (k a)) -> keeps_caches (bind m k).
Proof.
  intros Hm Hk w. unfold bind. specialize (Hm w).
  destruct (m w) as [[a| | |] w1]; cbn [snd] in *; try exact Hm.
  destruct (Hk a w1) as [Hc Hs]. destruct Hm as [Hc1 Hs1].
  split; congruence.
Qed.

Lemma keeps_AsyncResult t task_id : keeps_caches (AsyncResult t task_id).
Proof. intros w. split; reflexivity. Qed.

Lemma keeps_revoke task_id : keeps_caches (revoke task_id).
Proof. intros w. split; reflexivity. Qed.

Lemma keeps_purge_record task_id : keeps_caches (purge_record task_id).
Proof.
  intros w. pose proof (purge_record_frame task_id w). cbn zeta in *. tauto.
Qed.

Lemma keeps_remove_file path : keeps_caches (remove_file path).
Proof. intros w. destruct path; split; reflexivity. Qed.

Lemma keeps_stream_file rq path filename server :
  keeps_caches (stream_file rq path filename server).
Proof.
  unfold stream_file. apply keeps_bind.
  - intros w. split; reflexivity.
  - intros [sock|]; [|apply keeps_abort].
    destruct (recv sock 8) as [[buf sock']|]; [|intros w; split; reflexivity].
    apply keeps_bind; [apply keeps_lift|]. intros len.
    apply keeps_bind; [apply keeps_lift|]. intros enc. apply keeps_ret.
Qed.

Lemma keeps_TaskGetFile_get rq task_id node :
  keeps_caches (TaskGetFile_get rq task_id node).
Proof.
  unfold TaskGetFile_get.
  apply keeps_bind; [apply keeps_AsyncResult|]. intros task.
  destruct (negb (String.eqb (t_state task) "SUCCESS")).
  - destruct (String.eqb (t_state task) "FAILURE"); [|apply keeps_abort].
    repeat (apply keeps_bind; [apply keeps_lift|]; intros ?).
    apply keeps_abort.
  - repeat (apply keeps_bind; [apply keeps_lift|]; intros ?).
    match goal with |- keeps_caches (if ?c then _ else _) => destruct c end;
      [apply keeps_abort|].
    apply keeps_bind; [apply keeps_purge_record|]. intros _.
    apply keeps_bind; [apply keeps_revoke|]. intros _.
    match goal with |- keeps_caches (if ?c then _ else _) => destruct c end;
      [apply keeps_stream_file|].
    intros w. destruct (open_rb _ w) as [content|e];
      [|split; reflexivity].
    destruct (send_file content _) as [resp|e'].
    + apply (keeps_bind (remove_file _) (fun _ => ret _));
        [apply keeps_remove_file | intros; apply keeps_ret].
    + apply (keeps_bind (remove_file _) (fun _ => abort _ _));
        [apply keeps_remove_file | intros; apply keeps_abort].
Qed.

Lemma keeps_TaskDoBrowseAll_get rq task_id node :
  keeps_caches (TaskDoBrowseAll_get rq task_id node).
Proof.
  unfold TaskDoBrowseAll_get.
  apply keeps_bind; [apply keeps_AsyncResult|]. intros task.
  destruct (negb (String.eqb (t_state task) "SUCCESS")).
  - destruct (String.eqb (t_state task) "FAILURE"); [|apply keeps_abort].
    repeat (apply keeps_bind; [apply keeps_lift|]; intros ?).
    apply keeps_abort.
  - repeat (apply keeps_bind; [apply keeps_lift|]; intros ?).
    match goal with |- keeps_caches (if ?c then _ else _) => destruct c end;
      [apply keeps_abort|].
    apply keeps_bind; [apply keeps_revoke|]. intros _. apply keeps_ret.
Qed.

Section Deletion.
Variables (rq : request) (task_id : string) (node : option string).
Variables (w : world) (d kw : list (string * pyval)).
Variables (owner : string) (origin : option string).
Variables (answer keepconf : pyval).
Hypothesis Hmeta : backend w !! task_id = Some (mkMeta "SUCCESS" (PDict d)).
Hypothesis Huser : get (PDict d) "user" = inl (PStr owner).
Hypothesis Hnode : get (PDict d) "server" = inl (of_opt origin).
Hypothesis Hanswer : get (PDict d) "result" = inl answer.
Hypothesis Hkwargs : get (PDict d) "kwargs" = inl (PDict kw).
Hypothesis Hkeep : get (PDict kw) "keepconf" = inl keepconf.
Hypothesis Hguard :
  owner_on_node (name (current_user rq)) owner node origin = true.

(** What is left of [TaskDeletedClient.get] once the guard is passed. *)
Lemma deleted_client_run :
  TaskDeletedClient_get rq task_id node w
  = (revoke task_id ;;;
     (if negb (truthy keepconf) then
        modify (set_cache ∅) ;;;
        _extra <- (fun w =>
                     let _extra :=
                       match session w !! "_extra" with
                       | Some v => v
                       | None => PInt (now rq)
                       end in
                     match int _extra with
                     | inl n => (Returned n, w)
                     | inr (ValueError _) => (Returned 0, w)
                     | inr e => (Raised e, w)
                     end) ;;
        text <- lift (format_int (_extra + 1)) ;;
        modify (fun w =>
                  set_session (<["_extra" := PStr text]> (session w)) w) ;;;
        if with_celery rq
        then modify (fun w => set_rescheduled (S (rescheduled w)) w)
        else ret tt
      else ret tt) ;;;
     ret answer) w.
Proof.
  unfold TaskDeletedClient_get, bind at 1, AsyncResult. rewrite Hmeta.
  cbn [t_state t_result String.eqb Ascii.eqb Bool.eqb negb].
  assert (Hc : exists c, get (PDict d) "client" = inl c)
    by (eexists; reflexivity).
  assert (H1 : exists c, get (PDict kw) "delcert" = inl c)
    by (eexists; reflexivity).
  assert (H2 : exists c, get (PDict kw) "revoke" = inl c)
    by (eexists; reflexivity).
  assert (H3 : exists c, get (PDict kw) "delete" = inl c)
    by (eexists; reflexivity).
  assert (H4 : exists c, get (PDict kw) "template" = inl c)
    by (eexists; reflexivity).
  destruct Hc as [c Hc], H1 as [c1 H1], H2 as [c2 H2], H3 as [c3 H3],
    H4 as [c4 H4].
  unfold bind at 1. rewrite Huser. cbn [lift].
  unfold bind at 1. rewrite Hnode. cbn [lift].
  unfold bind at 1. rewrite Hanswer. cbn [lift].
  unfold bind at 1. rewrite Hkwargs. cbn [lift].
  unfold bind at 1. rewrite Hc. cbn [lift].
  unfold bind at 1. rewrite H1. cbn [lift].
  unfold bind at 1. rewrite H2. cbn [lift].
  unfold bind at 1. rewrite Hkeep. cbn [lift].
  unfold bind at 1. rewrite H3. cbn [lift].
  unfold bind at 1. rewrite H4. cbn [lift].
  rewrite guard_value, Hguard. reflexivity.
Qed.

Lemma deleted_client_bumps n :
  truthy keepconf = false ->
  int (match session w !! "_extra" with
       | Some v => v
       | None => PInt (now rq)
       end) = inl n ->
  short (n + 1) ->
  exists w',
    TaskDeletedClient_get rq task_id node w = (Returned answer, w')
    /\ cache w' = ∅
    /\ session w' !! "_extra" = Some (PStr (str_of_Z (n + 1)))
    /\ task_id ∈ revoked w'.
Proof.
  intros Hk Hs Hshort. rewrite deleted_client_run, Hk. cbn [negb].
  unfold bind, revoke, modify. cbn [session set_revoked set_cache].
  rewrite Hs, (format_int_short _ Hshort). cbn [lift].
  destruct (with_celery rq); cbn [ret]; eexists;
    (split; [reflexivity|]); cbn;
    (split; [reflexivity|]);
    (split; [apply lookup_insert_eq|]);
    apply elem_of_union_l, elem_of_singleton; reflexivity.
Qed.

Lemma deleted_client_keeps :
  truthy keepconf = true ->
  exists w',
    TaskDeletedClient_get rq task_id node w = (Returned answer, w')
    /\ cache w' = cache w
    /\ session w' = session w.
Proof.
  intros Hk. rewrite deleted_client_run, Hk. cbn [negb].
  eexists. split; [reflexivity|]. split; reflexivity.
Qed.
End Deletion.

(** C9, as the resource implements it: fetching the result of a client
    deletion that succeeded, by its owner on the right node.  Without
    [keepconf] the cache is emptied and the session counter, whose
    previous value (the stored one, or the time of the request when none
    is stored) reads as the integer [n], is replaced by the text of
    [n + 1], which reads back as [n + 1], as long as [n + 1] has no more
    digits than Python converts to text; with [keepconf] the cache and
    the session are left as they are.  Fetching a restored archive or a
    tree never touches the cache or the session. *)
Theorem client_deletion_invalidates
    rq task_id node w d kw owner origin answer keepconf n :
  backend w !! task_id = Some (mkMeta "SUCCESS" (PDict d)) ->
  get (PDict d) "user" = inl (PStr owner) ->
  get (PDict d) "server" = inl (of_opt origin) ->
  get (PDict d) "result" = inl answer ->
  get (PDict d) "kwargs" = inl (PDict kw) ->
  get (PDict kw) "keepconf" = inl keepconf ->
  owner_on_node (name (current_user rq)) owner node origin = true ->
  int (match session w !! "_extra" with
       | Some v => v
       | None => PInt (now rq)
       end) = inl n ->
  (truthy keepconf = false -> short (n + 1) ->
   exists w',
     TaskDeletedClient_get rq task_id node w = (Returned answer, w')
     /\ cache w' = ∅
     /\ session w' !! "_extra" = Some (PStr (str_of_Z (n + 1)))
     /\ int (PStr (str_of_Z (n + 1))) = inl (n + 1))
  /\ (truthy keepconf = true ->
      exists w',
        TaskDeletedClient_get rq task_id node w = (Returned answer, w')
        /\ cache w' = cache w
        /\ session w' = session w)
  /\ keeps_caches (TaskGetFile_get rq task_id node)
  /\ keeps_caches (TaskDoBrowseAll_get rq task_id node).
Proof.
  intros Hmeta Huser Hnode Hanswer Hkwargs Hkeep Hguard Hcount.
  split; [|split; [|split]].
  - intros Hk Hshort.
    destruct (deleted_client_bumps rq task_id node w d kw owner origin
                answer keepconf Hmeta Huser Hnode Hanswer Hkwargs Hkeep
                Hguard n Hk Hcount Hshort) as (w' & Hrun & Hc & Hs & _).
    exists w'. cbn [int]. rewrite (int_of_str_of_Z _ Hshort). auto.
  - intros Hk.
    apply (deleted_client_keeps rq task_id node w d kw owner origin
             answer keepconf Hmeta Huser Hnode Hanswer Hkwargs Hkeep
             Hguard Hk).
  - apply keeps_TaskGetFile_get.
  - apply keeps_TaskDoBrowseAll_get.
Qed.

Lemma client_deletion_invalidates_witness :
  exists w',
    TaskDeletedClient_get alice "t1" None
      (with_cached "report" (PInt 3)
         (with_counter (PStr " +4_1 ")
            (with_task "t1" (mkMeta "SUCCESS" (deletion false)) idle)))
    = (Returned (PList [PList [PInt 0; PStr "client removed"]]), w')
    /\ cache w' = ∅
    /\ session w' !! "_extra" = Some (PStr "42").
Proof.
  destruct (client_deletion_invalidates alice "t1" None
              (with_cached "report" (PInt 3)
                 (with_counter (PStr " +4_1 ")
                    (with_task "t1" (mkMeta "SUCCESS" (deletion false))
                       idle)))
              _ _ "alice" None _ (PBool false) 41
              eq_refl eq_refl eq_refl eq_refl eq_refl eq_refl eq_refl eq_refl)
    as (Hbump & _).
  destruct (Hbump eq_refl eq_refl) as (w' & Hrun & Hc & Hs & _).
  exists w'. repeat split; assumption.
Defined.

(** C9 as it is worded fails at the longest counter: Python converts no
    integer of more than 4300 digits to text, and the text of the new
    counter is made outside the [try].  A counter of 4300 nines reads as
    an integer, the cache is cleared, and the request ends with the
    [ValueError] of the conversion, the counter left as it was. *)
Lemma longest_counter_is_not_incremented :
  let w0 := with_cached "report" (PInt 3)
              (with_counter (PStr nines)
                 (with_task "t1" (mkMeta "SUCCESS" (deletion false)) idle)) in
  int (PStr nines) = inl (10 ^ 4300 - 1)
  /\ fst (TaskDeletedClient_get alice "t1" None w0)
     = Raised
         (ValueError
            ("Exceeds the limit (4300 digits) for integer string conversion"
             +:+ "; use sys.set_int_max_str_digits() to increase the limit"))
  /\ session (snd (TaskDeletedClient_get alice "t1" None w0)) !! "_extra"
     = Some (PStr nines)
  /\ cache (snd (TaskDeletedClient_get alice "t1" None w0)) = ∅.
Proof.
  cbv zeta. split; [|split; [|split]]; vm_compute; reflexivity.
Qed.

(** With no counter in the session the time of the request is the
    previous value. *)
Lemma first_deletion_counts_from_now :
  session (snd (TaskDeletedClient_get alice "t1" None
                  (with_task "t1" (mkMeta "SUCCESS" (deletion false)) idle)))
    !! "_extra"
  = Some (PStr "1700000001").
Proof. vm_compute. reflexivity. Qed.

(** A counter that does not read as an integer starts again from 0. *)
Lemma unreadable_counter_restarts :
  session (snd (TaskDeletedClient_get alice "t1" None
                  (with_counter (PStr "soon")
                     (with_task "t1" (mkMeta "SUCCESS" (deletion false))
                        idle)))) !! "_extra"
  = Some (PStr "1").
Proof. vm_compute. reflexivity. Qed.

(** ** The remote relay *)

Lemma select_socket s t :
  tx (snd (select s t)) = tx s /\ closed (snd (select s t)) = closed s
  /\ peer_closed (snd (select s t)) = peer_closed s.
Proof.
  unfold select. destruct (rxbuf s); [|repeat split].
  destruct (poll (wire s) t) as [[bs|] [|a w']]; repeat split.
Qed.

Lemma recv_socket s n buf s' :
  recv s n = Some (buf, s') ->
  tx s' = tx s /\ closed s' = closed s /\ peer_closed s' = peer_closed s.
Proof.
  unfold recv. destruct (rxbuf s).
  - destruct (next_data (wire s)) as [[bs w']|].
    + intros [= <- <-]. repeat split.
    + destruct (peer_closed s) eqn:E; [|discriminate].
      intros [= <- <-]. repeat split. cbn. congruence.
  - intros [= <- <-]. repeat split.
Qed.

Section Loop.
Variables (size bsize : Z).

Lemma loop_reads fuel : forall sock received,
  Forall (read_of bsize) (trace (stream_loop fuel sock size bsize received)).
Proof.
  induction fuel as [|fuel IH]; intros sock received; cbn [stream_loop];
    destruct (received <? size); cbn [trace];
    try (repeat constructor; fail).
  destruct (select sock 5) as [r sock1]. destruct r; cbn [negb];
    [|repeat constructor].
  destruct (recv sock1 bsize) as [[buf sock2]|]; [|repeat constructor].
  destruct buf; cbn [emit trace]; repeat constructor; apply IH.
Qed.

Lemma loop_reads_follow_wait fuel : forall sock received,
  reads_follow_wait 5
    (trace (stream_loop fuel sock size bsize received)) = true.
Proof.
  induction fuel as [|fuel IH]; intros sock received; cbn [stream_loop];
    destruct (received <? size); cbn [trace]; try reflexivity.
  destruct (select sock 5) as [r sock1]. destruct r; cbn [negb];
    [|reflexivity].
  destruct (recv sock1 bsize) as [[buf sock2]|]; [|reflexivity].
  destruct buf; cbn [emit trace app reads_follow_wait Z.eqb Pos.eqb andb];
    apply IH.
Qed.

Lemma loop_timeout fuel : forall sock received,
  let r := stream_loop fuel sock size bsize received in
  (In (OpSelect 5 false) (trace r)
   <-> ending r = Aborted 500 "Socket timed-out")
  /\ (forall c m, ending r = Aborted c m ->
      c = 500 /\ m = "Socket timed-out"
      /\ received + sent_bytes r < size
      /\ tx (final r) = tx sock /\ closed (final r) = closed sock).
Proof.
  induction fuel as [|fuel IH]; intros sock received; cbn [stream_loop];
    destruct (received <? size) eqn:Hlt; cbn zeta.
  1,2,4: cbn; split; [split; [intuition discriminate | discriminate]
                     | discriminate].
  apply Z.ltb_lt in Hlt.
  pose proof (select_socket sock 5) as (Htx & Hcl & _).
  destruct (select sock 5) as [r sock1]. cbn [snd] in *.
  destruct r; cbn [negb].
  - destruct (recv sock1 bsize) as [[buf sock2]|] eqn:Hrecv.
    + apply recv_socket in Hrecv as (Htx2 & Hcl2 & _).
      destruct buf as [|b buf].
      * specialize (IH sock2 received). cbn zeta in IH.
        destruct IH as [Hin Hab]. cbn [emit trace ending final app].
        split.
        -- rewrite <- Hin. cbn [In]. intuition discriminate.
        -- intros c m H. destruct (Hab c m H) as (-> & -> & Hs & Ht & Hc).
           unfold sent_bytes in *. cbn [chunks emit app] in *.
           repeat split; congruence || lia.
      * remember (b :: buf) as chunk eqn:Hchunk.
        specialize (IH sock2 (received + Z.of_nat (length chunk))).
        cbn zeta in IH. rewrite Hchunk at 1. rewrite <- Hchunk.
        destruct IH as [Hin Hab]. cbn [emit trace ending final app].
        split.
        -- rewrite <- Hin. cbn [In]. intuition discriminate.
        -- intros c m H. destruct (Hab c m H) as (-> & -> & Hs & Ht & Hc).
           unfold sent_bytes in *.
           cbn [chunks emit app] in *.
           rewrite concat_cons, length_app.
           repeat split; congruence || lia.
    + cbn. split; [split; [intuition discriminate | discriminate]
                  | discriminate].
  - cbn [trace ending final chunks]. split.
    + split; [reflexivity | left; reflexivity].
    + intros c m [= <- <-]. unfold sent_bytes. cbn.
      repeat split; congruence || lia.
Qed.
End Loop.

Lemma poll_steady w budget :
  forallb is_data w = true ->
  match poll w budget with
  | (Some bs, w') =>
      bs <> [] /\ wire_bytes w = bs ++ wire_bytes w'
      /\ (length w' < length w)%nat /\ forallb is_data w' = true
  | (None, w') => wire_bytes w = [] /\ w' = []
  end.
Proof.
  induction w as [|a w IH]; intros Hd; cbn [poll]; [split; reflexivity|].
  cbn [forallb] in Hd. apply andb_prop in Hd as [Ha Hw].
  destruct a as [bs|secs]; [|discriminate].
  destruct bs as [|b bs].
  - specialize (IH Hw). destruct (poll w budget) as [[bs'|] w'].
    + destruct IH as (H1 & H2 & H3 & H4). cbn [wire_bytes app length].
      repeat split; auto with arith.
    + exact IH.
  - cbn [wire_bytes length]. repeat split; auto with arith.
Qed.

Lemma select_steady s :
  steady s = true -> pending s <> [] ->
  exists s1,
    select s 5 = (true, s1) /\ rxbuf s1 <> [] /\ pending s1 = pending s
    /\ (backlog s1 <= backlog s)%nat /\ steady s1 = true
    /\ tx s1 = tx s /\ closed s1 = closed s.
Proof.
  unfold steady, backlog, pending, select. intros Hd Hp.
  destruct (rxbuf s) as [|b rx] eqn:Hrx.
  - pose proof (poll_steady (wire s) 5 Hd) as Hpoll.
    destruct (poll (wire s) 5) as [[bs|] w'].
    + destruct Hpoll as (H1 & H2 & H3 & H4).
      exists (set_rx s bs w'). cbn [set_rx rxbuf wire tx closed].
      rewrite H2. cbn [app length].
      repeat split; auto. rewrite !length_app. lia.
    + destruct Hpoll as [H1 ->]. rewrite H1 in Hp. cbn in Hp. congruence.
  - exists s. rewrite Hrx. repeat split; auto.
Qed.

Lemma recv_buffered s n :
  rxbuf s <> [] -> 0 < n ->
  exists buf s2,
    recv s n = Some (buf, s2) /\ buf <> [] /\ pending s = buf ++ pending s2
    /\ wire s2 = wire s /\ tx s2 = tx s /\ closed s2 = closed s.
Proof.
  unfold recv, pending. intros Hrx Hn.
  destruct (rxbuf s) as [|b rx] eqn:E; [congruence|].
  exists (take (Z.to_nat n) (b :: rx)),
         (set_rx s (drop (Z.to_nat n) (b :: rx)) (wire s)).
  cbn [set_rx rxbuf wire tx closed]. repeat split.
  - destruct (Z.to_nat n) eqn:En; [lia|]. discriminate.
  - rewrite app_assoc, take_drop. reflexivity.
Qed.

Lemma stream_loop_eq fuel sock size bsize received :
  stream_loop fuel sock size bsize received
  = if received <? size then
      match fuel with
      | O => mkRun [] [] sock Unfinished
      | S fuel' =>
          let '(r, sock1) := select sock 5 in
          if negb r then
            mkRun [] [OpSelect 5 false] sock1 (Aborted 500 "Socket timed-out")
          else
            match recv sock1 bsize with
            | None => mkRun [] [OpSelect 5 true] sock1 Stuck
            | Some (buf, sock2) =>
                let ops := [OpSelect 5 true; OpRecv bsize buf] in
                match buf with
                | [] =>
                    emit ops [] (stream_loop fuel' sock2 size bsize received)
                | _ =>
                    emit ops [buf]
                      (stream_loop fuel' sock2 size bsize
                         (received + Z.of_nat (length buf)))
                end
            end
      end
    else
      mkRun [] handshake (close (sendall (sendall sock (pack_Q 2)) RE))
        Completed.
Proof. destruct fuel; reflexivity. Qed.

Lemma poll_in_time w : forall budget,
  in_time budget w = true -> wire_bytes w <> [] ->
  exists bs w',
    poll w budget = (Some bs, w') /\ bs <> []
    /\ wire_bytes w = bs ++ wire_bytes w'
    /\ (length w' < length w)%nat /\ in_time 5 w' = true.
Proof.
  induction w as [|a w IH]; intros budget Ht Hne;
    [cbn in Hne; congruence|].
  destruct a as [[|b bs]|d]; cbn [in_time poll wire_bytes app] in *.
  - destruct (IH budget Ht Hne) as (bs' & w' & Hp & Hb & Hw & Hl & Hi).
    exists bs', w'. cbn [length]. repeat split; auto with arith.
  - exists (b :: bs), w. cbn [length].
    repeat split; [discriminate | auto with arith | exact Ht].
  - destruct (wire_bytes w) as [|x rest] eqn:Hw; [congruence|].
    apply andb_prop in Ht as [Hd Ht]. rewrite Hd.
    destruct (IH (budget - Z.max 0 d) Ht ltac:(discriminate))
      as (bs' & w' & Hp & Hb & Hw' & Hl & Hi).
    exists bs', w'. cbn [length]. repeat split; auto with arith.
Qed.

Lemma select_in_time s :
  in_time 5 (wire s) = true -> pending s <> [] ->
  exists s1,
    select s 5 = (true, s1) /\ rxbuf s1 <> [] /\ pending s1 = pending s
    /\ (backlog s1 <= backlog s)%nat /\ in_time 5 (wire s1) = true
    /\ tx s1 = tx s /\ closed s1 = closed s.
Proof.
  unfold backlog, pending, select. intros Ht Hp.
  destruct (rxbuf s) as [|b rx] eqn:Hrx.
  - cbn [app] in Hp.
    destruct (poll_in_time (wire s) 5 Ht Hp)
      as (bs & w' & Hpoll & Hb & Hw & Hl & Hi).
    rewrite Hpoll. exists (set_rx s bs w').
    cbn [set_rx rxbuf wire tx closed]. rewrite Hw. cbn [app length].
    repeat split; auto. rewrite !length_app. lia.
  - exists s. rewrite Hrx. repeat split; auto.
Qed.

Section Relay.
Variables (size bsize : Z).
Hypothesis Hbsize : 0 < size -> 0 < bsize.

Lemma loop_completes fuel : forall sock received,
  0 <= received ->
  in_time 5 (wire sock) = true ->
  received + Z.of_nat (length (pending sock)) = size ->
  (backlog sock <= fuel)%nat ->
  let r := stream_loop fuel sock size bsize received in
  concat (chunks r) = pending sock
  /\ ending r = Completed
  /\ tx (final r) = tx sock ++ pack_Q 2 ++ RE
  /\ closed (final r) = true
  /\ exists pre, trace r = pre ++ handshake.
Proof.
  induction fuel as [|fuel IH]; intros sock received Hrec Hst Hsum Hfuel;
    cbn zeta; rewrite stream_loop_eq;
    destruct (received <? size) eqn:Hlt.
  2,4: apply Z.ltb_ge in Hlt;
       assert (Hnil : pending sock = [])
         by (apply length_zero_iff_nil; lia);
       rewrite Hnil; cbn [chunks ending final trace concat];
       repeat split; [cbn; rewrite <- app_assoc; reflexivity
                     | exists []; reflexivity].
  - apply Z.ltb_lt in Hlt. unfold backlog in Hfuel. lia.
  - apply Z.ltb_lt in Hlt.
    assert (Hp : pending sock <> []).
    { intros Hnil. rewrite Hnil in Hsum. cbn in Hsum. lia. }
    destruct (select_in_time sock Hst Hp)
      as (s1 & Hsel & Hrx & Hp1 & Hb1 & Hst1 & Htx1 & Hcl1).
    rewrite Hsel. cbn [negb].
    destruct (recv_buffered s1 bsize Hrx (Hbsize ltac:(lia)))
      as (buf & s2 & Hrecv & Hbuf & Hp2 & Hw2 & Htx2 & Hcl2).
    rewrite Hrecv.
    assert (Hlen : length (pending s1)
                   = (length buf + length (pending s2))%nat)
      by (rewrite Hp2, length_app; reflexivity).
    assert (Hbuflen : (0 < length buf)%nat)
      by (destruct buf; [congruence | cbn; lia]).
    destruct (IH s2 (received + Z.of_nat (length buf)))
      as (Hc & He & Ht & Hcl & pre & Htr).
    + lia.
    + rewrite Hw2. exact Hst1.
    + rewrite <- Hsum, <- Hp1, Hlen. lia.
    + unfold backlog in *. rewrite Hw2. lia.
    + destruct buf as [|b buf]; [congruence|].
      cbn [emit chunks ending final trace].
      repeat split.
      * cbn [app]. rewrite concat_cons, Hc, <- Hp2. exact Hp1.
      * exact He.
      * rewrite Ht. congruence.
      * exact Hcl.
      * exists ([OpSelect 5 true; OpRecv bsize (b :: buf)] ++ pre).
        rewrite Htr, app_assoc. reflexivity.
Qed.
End Relay.
Lemma byte_of_Z_value z : Z_of_byte (byte_of_Z z) = z mod 256.
Proof.
  unfold Z_of_byte, byte_of_Z.
  assert (Hr : 0 <= z mod 256 < 256) by (apply Z.mod_pos_bound; lia).
  destruct (Byte.of_N (Z.to_N (z mod 256))) as [b|] eqn:E.
  - apply Byte.to_of_N in E. rewrite E. lia.
  - apply Byte.of_N_None_iff in E. lia.
Qed.

Lemma be_encode_length width : forall n, length (be_encode width n) = width.
Proof.
  induction width as [|w IH]; intros n; cbn [be_encode]; [reflexivity|].
  rewrite length_app, IH. cbn. lia.
Qed.

Lemma be_decode_encode width : forall n,
  be_decode (be_encode width n) = n mod 256 ^ Z.of_nat width.
Proof.
  unfold be_decode.
  induction width as [|w IH]; intros n.
  - cbn. rewrite Z.mod_1_r. reflexivity.
  - cbn [be_encode]. rewrite fold_left_app. cbn [fold_left].
    rewrite IH, byte_of_Z_value, Nat2Z.inj_succ, Z.pow_succ_r by lia.
    rewrite (Z.rem_mul_r n 256 (256 ^ Z.of_nat w)) by lia. lia.
Qed.

Lemma unpack_pack_Q n :
  0 <= n < 2 ^ 64 -> unpack_Q (pack_Q n) = inl n.
Proof.
  intros Hn. unfold unpack_Q, pack_Q. rewrite be_encode_length.
  cbn [Nat.eqb]. rewrite be_decode_encode.
  change (256 ^ Z.of_nat 8) with (2 ^ 64). rewrite Z.mod_small by lia.
  reflexivity.
Qed.

Lemma recv_prefix sock len first rest :
  rxbuf sock = [] ->
  next_data (wire sock) = Some (pack_Q len ++ first, rest) ->
  recv sock 8 = Some (pack_Q len, set_rx sock first rest).
Proof.
  intros Hrx Hw. unfold recv. rewrite Hrx, Hw.
  pose proof (be_encode_length 8 len) as Hlen. fold (pack_Q len) in Hlen.
  change (Z.to_nat 8) with 8%nat.
  rewrite take_app_length', drop_app_length' by exact Hlen.
  reflexivity.
Qed.

(** C3, as the relay implements it: the first bytes the agent delivers
    hold the whole length, on 8 bytes, big-endian; exactly that many
    bytes follow, in the same delivery or in later ones, and the agent
    lets less than 5 seconds pass before each of these.  The response
    announces the length as [Content-Length]; iterating its body hands
    over exactly the payload, then writes the 8 bytes of the number 2
    and the two letters [RE] to the agent and closes the socket. *)
Theorem remote_relay rq w server path filename sock len payload first rest
    fuel :
  agents w !! (server, path) = Some sock ->
  rxbuf sock = [] ->
  next_data (wire sock) = Some (pack_Q len ++ first, rest) ->
  in_time 5 rest = true ->
  payload = first ++ wire_bytes rest ->
  Z.of_nat (length payload) = len ->
  len < 2 ^ 64 ->
  (length rest + length payload <= fuel)%nat ->
  exists resp sock1,
    stream_file rq (PStr path) (PStr filename) (PStr server) w
    = (Returned resp, w)
    /\ status resp = 200
    /\ header_value "Content-Length" resp = Some (str_of_Z len)
    /\ body resp = Generator sock1 len
    /\ concat (chunks (stream fuel sock1 len)) = payload
    /\ ending (stream fuel sock1 len) = Completed
    /\ (exists reads, trace (stream fuel sock1 len) = reads ++ handshake)
    /\ tx (final (stream fuel sock1 len))
       = tx sock ++ [x00; x00; x00; x00; x00; x00; x00; x02] ++ [x52; x45]
    /\ closed (final (stream fuel sock1 len)) = true.
Proof.
  intros Hagent Hrx Hwire Htime Hpay Hlen Hmax Hfuel.
  exists (set_etag
            (set_cookie
               (mkResponse 200 (Generator (set_rx sock first rest) len)
                  (Some "application/zip")
                  [mkHeader "Content-Disposition" "attachement"
                     [("filename", PStr filename)];
                   mkHeader "Content-Length" (str (PInt len)) []] [] None)
               "fileDownload" "true")
            ("flask-" +:+ clock rq +:+ "-" +:+ str (PInt len) +:+ "-"
             +:+ str (PInt (Z.land (adler32 (bytes_of_string filename))
                              4294967295)))),
         (set_rx sock first rest).
  split.
  { unfold stream_file, bind at 1, get_file. rewrite Hagent.
    rewrite (recv_prefix sock len first rest Hrx Hwire).
    unfold bind, lift. rewrite unpack_pack_Q by lia. reflexivity. }
  split; [reflexivity|]. split; [reflexivity|]. split; [reflexivity|].
  assert (Hb : 0 < len -> 0 < (if len <? 1024 then len else 1024))
    by (intros; destruct (len <? 1024); lia).
  destruct (loop_completes len (if len <? 1024 then len else 1024) Hb fuel
              (set_rx sock first rest) 0) as (Hc & He & Ht & Hcl & Htr).
  - lia.
  - exact Htime.
  - unfold pending. cbn [set_rx rxbuf wire]. rewrite <- Hpay. lia.
  - unfold backlog, pending. cbn [set_rx rxbuf wire]. rewrite <- Hpay. lia.
  - unfold pending in Hc. cbn [set_rx rxbuf wire] in Hc.
    unfold stream. rewrite Hc, He, Ht, Hcl, <- Hpay.
    repeat split; auto.
Qed.

Lemma remote_relay_witness :
  exists resp sock1,
    stream_file alice (PStr "/tmp/r.zip") (PStr "r.zip") (PStr "agent1")
      (with_agent "agent1" "/tmp/r.zip" unhurried_agent idle)
    = (Returned resp, with_agent "agent1" "/tmp/r.zip" unhurried_agent idle)
    /\ header_value "Content-Length" resp = Some "2"
    /\ body resp = Generator sock1 2
    /\ concat (chunks (stream 8 sock1 2)) = [byte_a; byte_b]
    /\ ending (stream 8 sock1 2) = Completed
    /\ tx (final (stream 8 sock1 2))
       = [x00; x00; x00; x00; x00; x00; x00; x02; x52; x45]
    /\ closed (final (stream 8 sock1 2)) = true.
Proof.
  destruct (remote_relay alice
              (with_agent "agent1" "/tmp/r.zip" unhurried_agent idle)
              "agent1" "/tmp/r.zip" "r.zip" unhurried_agent 2
              [byte_a; byte_b] []
              [Pause 1; Data [byte_a]; Pause 1; Pause 3; Data [byte_b];
               Pause 30] 8%nat
              eq_refl eq_refl eq_refl eq_refl eq_refl eq_refl eq_refl
              ltac:(cbn; lia))
    as (resp & sock1 & Hrun & _ & Hlen & Hbody & Hc & He & _ & Htx & Hcl).
  exists resp, sock1. repeat split; assumption.
Defined.

(** C3 as it is worded fails for a sender that does all the claim asks
    of it and is slow: it announces 2 bytes, delivers one, and delivers
    the other 5 seconds later.  The response announces 2 bytes, the body
    stops after 1 with the abort of the time-out, nothing is written
    back and the socket is not closed.  A sender whose 8 bytes of length
    arrive in two pieces gets no response at all: the single [recv(8)]
    comes back short and [struct.unpack] raises. *)
Lemma slow_sender_is_not_acknowledged :
  (exists resp sock1,
     fst (stream_file alice (PStr "/tmp/r.zip") (PStr "r.zip")
            (PStr "agent1")
            (with_agent "agent1" "/tmp/r.zip" slow_agent idle))
     = Returned resp
     /\ header_value "Content-Length" resp = Some "2"
     /\ body resp = Generator sock1 2
     /\ wire_bytes (wire slow_agent)
        = pack_Q 2 ++ [byte_a; byte_b]
     /\ chunks (stream 9 sock1 2) = [[byte_a]]
     /\ ending (stream 9 sock1 2) = Aborted 500 "Socket timed-out"
     /\ tx (final (stream 9 sock1 2)) = []
     /\ closed (final (stream 9 sock1 2)) = false)
  /\ wire_bytes (wire split_agent) = pack_Q 2 ++ [byte_a; byte_b]
  /\ fst (stream_file alice (PStr "/tmp/r.zip") (PStr "r.zip")
            (PStr "agent1")
            (with_agent "agent1" "/tmp/r.zip" split_agent idle))
     = Raised (StructError "unpack requires a buffer of 8 bytes").
Proof.
  split; [|split; vm_compute; reflexivity].
  do 2 eexists. split; [vm_compute; reflexivity|].
  repeat split; vm_compute; reflexivity.
Qed.

(** The relay of the specification's test: 1024 bytes announced and
    delivered, relayed in one chunk and acknowledged. *)
Lemma relay_of_a_kilobyte :
  exists resp sock1,
    fst (stream_file alice (PStr "/tmp/r.zip") (PStr "r.zip") (PStr "agent1")
           (with_agent "agent1" "/tmp/r.zip" kilobyte_agent idle))
    = Returned resp
    /\ header_value "Content-Length" resp = Some "1024"
    /\ body resp = Generator sock1 1024
    /\ chunks (stream 1 sock1 1024) = [repeat byte_b 1024]
    /\ trace (stream 1 sock1 1024)
       = [OpSelect 5 true; OpRecv 1024 (repeat byte_b 1024)] ++ handshake.
Proof.
  do 2 eexists. split; [vm_compute; reflexivity|].
  repeat split; vm_compute; reflexivity.
Qed.

(** C4, as the relay implements it: every read of the loop asks for the
    same number of bytes, the smaller of 1024 and the announced length;
    it is at most 1024 and at most the announced length. *)
Theorem relay_read_size fuel sock size :
  Forall (read_capped size) (trace (stream fuel sock size)).
Proof.
  unfold stream.
  eapply Forall_impl; [apply loop_reads|].
  intros [t r|n got|bs|]; cbn [read_of read_capped]; auto.
  intros ->. destruct (size <? 1024) eqn:E;
    [apply Z.ltb_lt in E | apply Z.ltb_ge in E]; lia.
Qed.

(** C4 as the specification words it fails: after a short read the loop
    asks again for the announced 2 bytes although 1 is left, and of 1500
    bytes it asks 1024 twice although 476 are left after the first
    read. *)
Lemma read_exceeds_remaining :
  trace (stream 3 trickle 2)
  = [OpSelect 5 true; OpRecv 2 [byte_a];
     OpSelect 5 true; OpRecv 2 [byte_b]] ++ handshake
  /\ reads_within_remaining 2 (trace (stream 3 trickle 2)) = false
  /\ map (fun op => match op with
                    | OpRecv n got => Some (n, length got)
                    | _ => None
                    end) (trace (stream 3 burst 1500))
     = [None; Some (1024, 1024%nat); None; Some (1024, 476%nat);
        None; None; None]
  /\ reads_within_remaining 1500 (trace (stream 3 burst 1500)) = false.
Proof. repeat split; vm_compute; reflexivity. Qed.

Lemma select_not_readable s t s' :
  select s t = (false, s') ->
  rxbuf s = [] /\ fst (poll (wire s) t) = None.
Proof.
  unfold select. destruct (rxbuf s); [|discriminate].
  destruct (poll (wire s) t) as [[bs|] w']; [discriminate|].
  intros _. split; reflexivity.
Qed.

(** Data that comes after 4 seconds is waited for; after 5 it is not. *)
Lemma select_waits_five_seconds :
  fst (select (mkSocket [] [Pause 4; Data [byte_a]] false [] false) 5) = true
  /\ fst (select (mkSocket [] [Pause 5; Data [byte_a]] false [] false) 5)
     = false
  /\ fst (select (mkSocket [] [Pause 2; Pause 3; Data [byte_a]] false []
                    false) 5) = false.
Proof. repeat split. Qed.

(** C5, as the relay implements it: every read of the loop comes right
    after a wait of 5 seconds that found the socket readable; the
    generator aborts with 500 "Socket timed-out" exactly when such a wait
    fails, and then fewer bytes than announced have been handed over,
    nothing was written to the agent and the socket was not closed. *)
Theorem relay_wait_and_timeout fuel sock size :
  reads_follow_wait 5 (trace (stream fuel sock size)) = true
  /\ (In (OpSelect 5 false) (trace (stream fuel sock size))
      <-> ending (stream fuel sock size) = Aborted 500 "Socket timed-out")
  /\ (forall c m, ending (stream fuel sock size) = Aborted c m ->
      c = 500 /\ m = "Socket timed-out"
      /\ sent_bytes (stream fuel sock size) < size
      /\ tx (final (stream fuel sock size)) = tx sock
      /\ closed (final (stream fuel sock size)) = closed sock).
Proof.
  unfold stream. split; [apply loop_reads_follow_wait|].
  pose proof (loop_timeout size (if size <? 1024 then size else 1024) fuel
                sock 0) as [Hin Hab].
  split; [exact Hin|].
  intros c m H. destruct (Hab c m H) as (-> & -> & Hs & Ht & Hc).
  repeat split; auto.
Qed.

(** C5 as the specification words it fails in its last part: the agent
    announces 2 bytes, delivers 1 and stalls.  The response announces
    [Content-Length: 2], its body hands over the byte received and then
    aborts on the timeout. *)
Lemma stalled_relay_sends_partial_body :
  exists resp sock1,
    fst (stream_file alice (PStr "/tmp/r.zip") (PStr "r.zip") (PStr "agent1")
           (with_agent "agent1" "/tmp/r.zip" stalled_agent idle))
    = Returned resp
    /\ status resp = 200
    /\ header_value "Content-Length" resp = Some "2"
    /\ body resp = Generator sock1 2
    /\ chunks (stream 3 sock1 2) = [[byte_a]]
    /\ ending (stream 3 sock1 2) = Aborted 500 "Socket timed-out"
    /\ sent_bytes (stream 3 sock1 2) = 1.
Proof.
  do 2 eexists. split; [vm_compute; reflexivity|].
  repeat split; vm_compute; reflexivity.
Qed.

(** * Further properties *)

(** ** Status and cancellation *)

Lemma state_test (st name : string) : st <> name -> String.eqb st name = false.
Proof. intros H. apply String.eqb_neq. exact H. Qed.

Lemma AsyncResult_value t task_id w :
  AsyncResult t task_id w
  = (Returned (mkMeta (task_state w task_id) (task_result w task_id)), w).
Proof.
  unfold AsyncResult, task_state, task_result.
  destruct (backend w !! task_id) as [[st res]|]; reflexivity.
Qed.

(** An unfinished task is reported as it is: for a state other than
    [FAILURE] and [SUCCESS] the status query answers 200 with the state
    alone and changes nothing. *)
Theorem status_reports_unfinished rq task_type task_id node w :
  task_type_known task_type ->
  task_state w task_id <> "FAILURE" ->
  task_state w task_id <> "SUCCESS" ->
  TaskStatus_get rq task_type task_id node w
  = (Returned (json (PDict [("state", PStr (task_state w task_id))]) 200), w).
Proof.
  intros Hk Hf Hs. unfold TaskStatus_get.
  known_type Hk; unfold bind; rewrite AsyncResult_value;
    cbn [t_state t_result]; rewrite (state_test _ _ Hf), (state_test _ _ Hs);
    reflexivity.
Qed.

Lemma status_reports_unfinished_witness :
  TaskStatus_get alice "delete" "t1" None
    (with_task "t1" (mkMeta "STARTED" PNone) idle)
  = (Returned (json (PDict [("state", PStr "STARTED")]) 200),
     with_task "t1" (mkMeta "STARTED" PNone) idle).
Proof.
  apply (status_reports_unfinished alice "delete" "t1" None
           (with_task "t1" (mkMeta "STARTED" PNone) idle)).
  - right. right. reflexivity.
  - discriminate.
  - discriminate.
Defined.

Lemma status_leaves_state rq task_type task_id node w :
  task_state w task_id <> "FAILURE" ->
  snd (TaskStatus_get rq task_type task_id node w) = w.
Proof.
  intros Hf. unfold TaskStatus_get.
  destruct (task_types task_type) as [[t callback]|]; [|reflexivity].
  unfold bind at 1. rewrite AsyncResult_value. cbn [t_state t_result].
  rewrite (state_test _ _ Hf).
  destruct (String.eqb (task_state w task_id) "SUCCESS"); [|reflexivity].
  destruct (negb (truthy (task_result w task_id))); [reflexivity|].
  unfold bind, lift.
  destruct (get (task_result w task_id) "server") as [server|];
    [|reflexivity].
  destruct (url_for rq callback task_id server); reflexivity.
Qed.

(** X1: The status query writes only for a failed task: whatever the task
    type, the result and the answer (also a 400, a 500 or an uncaught
    exception), the state of the world is the one it started from unless
    the task is in state [FAILURE]. *)
Theorem status_query_read_only rq task_type task_id node w :
  task_state w task_id <> "FAILURE" ->
  snd (TaskStatus_get rq task_type task_id node w) = w.
Proof. apply status_leaves_state. Qed.

Lemma status_query_read_only_witness :
  snd (TaskStatus_get alice "restore" "t1" None
         (with_task "t1" (mkMeta "SUCCESS" (PStr "done")) idle))
  = with_task "t1" (mkMeta "SUCCESS" (PStr "done")) idle.
Proof.
  apply (status_query_read_only alice "restore" "t1" None
           (with_task "t1" (mkMeta "SUCCESS" (PStr "done")) idle)).
  discriminate.
Defined.

Lemma revoke_again task_id (ids : gset string) :
  {[task_id]} ∪ ({[task_id]} ∪ ids) = {[task_id]} ∪ ids.
Proof. rewrite (assoc_L (∪)), (idemp_L (∪)). reflexivity. Qed.

Lemma set_revoked_twice ids ids' w :
  set_revoked ids (set_revoked ids' w) = set_revoked ids w.
Proof. reflexivity. Qed.

Lemma set_revoked_same w : set_revoked (revoked w) w = w.
Proof. destruct w; reflexivity. Qed.

(** What [TaskStatus.delete] does once the type is known. *)
Lemma cancel_run rq task_type task_id node w :
  is_Some (task_types task_type) ->
  TaskStatus_delete rq task_type task_id node w
  = match get (task_result w task_id) "user",
          get (task_result w task_id) "server" with
    | inl user, inl dst_server =>
        if (neqv (PStr (name (current_user rq))) user
            || (truthy dst_server && neqv dst_server (of_opt node)))
           && negb (is_admin (current_user rq))
        then (Abort 403 (Some "Unauthorized access"), w)
        else (Returned (json (PStr "") 201),
              set_revoked ({[task_id]} ∪ revoked w) w)
    | inr e, _ => (Raised e, w)
    | inl _, inr e => (Raised e, w)
    end.
Proof.
  intros [[t callback] Ht]. unfold TaskStatus_delete. rewrite Ht.
  unfold bind at 1. rewrite AsyncResult_value.
  cbn [t_result]. unfold bind, lift.
  destruct (get (task_result w task_id) "user") as [user|e];
    [|reflexivity].
  destruct (get (task_result w task_id) "server") as [dst|e];
    [|reflexivity].
  match goal with |- context [if ?c then _ else _] => destruct c end;
    reflexivity.
Qed.

(** X2: An accepted cancellation answers 201 with an empty body and revokes
    the task; it leaves the durable row of the task, the result backend,
    the files, the cache and the session as they are. *)
Theorem cancel_revokes_only rq task_type task_id node w d owner origin :
  task_type_known task_type ->
  task_result w task_id = PDict d ->
  get (PDict d) "user" = inl (PStr owner) ->
  get (PDict d) "server" = inl (of_opt origin) ->
  owner_on_node (name (current_user rq)) owner node origin
  || is_admin (current_user rq) = true ->
  TaskStatus_delete rq task_type task_id node w
  = (Returned (json (PStr "") 201), set_revoked ({[task_id]} ∪ revoked w) w)
  /\ db (snd (TaskStatus_delete rq task_type task_id node w)) = db w.
Proof.
  intros Hk Hres Hu Hs Hok.
  rewrite (cancel_run rq task_type task_id node w (known_is_some _ Hk)),
    Hres, Hu, Hs.
  rewrite guard_value, <- negb_orb, Hok. cbn [negb]. split; reflexivity.
Qed.

Lemma cancel_revokes_only_witness :
  TaskStatus_delete alice "restore" "t1" (Some "agent1")
    (recorded "t1" "perform_restore" "alice"
       (with_task "t1" (mkMeta "STARTED" remote_restore) idle))
  = (Returned (json (PStr "") 201),
     set_revoked {["t1"]}
       (recorded "t1" "perform_restore" "alice"
          (with_task "t1" (mkMeta "STARTED" remote_restore) idle))).
Proof.
  destruct (cancel_revokes_only alice "restore" "t1" (Some "agent1")
              (recorded "t1" "perform_restore" "alice"
                 (with_task "t1" (mkMeta "STARTED" remote_restore) idle))
              _ "alice" (Some "agent1")
              (or_introl eq_refl) eq_refl eq_refl eq_refl eq_refl)
    as [Hrun _].
  exact Hrun.
Defined.

(** X3: A task the backend holds no result map for cannot be cancelled: the
    lookup of the owner in the result fails with an [AttributeError]
    that nothing catches, and the task is not revoked.  This is the case
    of a task that is still pending, whose result is [None]. *)
Theorem cancel_needs_result_map rq task_type task_id node w :
  task_type_known task_type ->
  is_dict (task_result w task_id) = false ->
  TaskStatus_delete rq task_type task_id node w
  = (Raised (AttributeError
               ("'" +:+ type_name (task_result w task_id)
                +:+ "' object has no attribute 'get'")), w).
Proof.
  intros Hk Hd.
  rewrite (cancel_run rq task_type task_id node w (known_is_some _ Hk)).
  destruct (task_result w task_id); try reflexivity. discriminate.
Qed.

Lemma cancel_needs_result_map_witness :
  TaskStatus_delete alice "restore" "t1" None
    (with_task "t1" (mkMeta "PENDING" PNone) idle)
  = (Raised (AttributeError "'NoneType' object has no attribute 'get'"),
     with_task "t1" (mkMeta "PENDING" PNone) idle).
Proof.
  apply (cancel_needs_result_map alice "restore" "t1" None
           (with_task "t1" (mkMeta "PENDING" PNone) idle)).
  - left. reflexivity.
  - reflexivity.
Defined.

Lemma purge_record_revoked task_id ids w :
  snd (purge_record task_id (set_revoked ids w))
  = set_revoked ids (snd (purge_record task_id w)).
Proof.
  unfold purge_record, modify. cbn [snd set_revoked db].
  destruct (db w) as [dbs|]; [|reflexivity].
  destruct (rows dbs !! task_id); [|reflexivity].
  destruct (commit_fails dbs); reflexivity.
Qed.

Lemma purge_record_twice task_id w :
  snd (purge_record task_id (snd (purge_record task_id w)))
  = snd (purge_record task_id w).
Proof.
  unfold purge_record, modify. cbn [snd].
  destruct (db w) as [dbs|] eqn:Hdb; [|rewrite Hdb; reflexivity].
  destruct (rows dbs !! task_id) eqn:Hrow; [|rewrite Hdb, Hrow; reflexivity].
  destruct (commit_fails dbs) eqn:Hc; [rewrite Hdb, Hrow, Hc; reflexivity|].
  cbn [set_db db rows]. rewrite lookup_delete_eq. reflexivity.
Qed.

Lemma task_state_revoked ids w task_id :
  task_state (set_revoked ids w) task_id = task_state w task_id
  /\ task_result (set_revoked ids w) task_id = task_result w task_id.
Proof. split; reflexivity. Qed.

Lemma status_failure_run rq task_type task_id node w :
  is_Some (task_types task_type) ->
  task_state w task_id = "FAILURE" ->
  TaskStatus_get rq task_type task_id node w
  = (Abort 502 (Some (str (task_result w task_id))),
     set_revoked ({[task_id]} ∪ revoked (snd (purge_record task_id w)))
       (snd (purge_record task_id w))).
Proof.
  intros [[t callback] Ht] Hst. unfold TaskStatus_get. rewrite Ht.
  unfold bind at 1. rewrite AsyncResult_value. cbn [t_state t_result].
  rewrite Hst. cbn [String.eqb Ascii.eqb Bool.eqb].
  unfold bind at 1. rewrite purge_record_returns. reflexivity.
Qed.

(** X4: Asking twice is asking once: a status query or a cancellation
    repeated on the state the first call left gives the same answer and
    leaves that state as it is.  Revoking a task again and purging a row
    that is gone are no-ops. *)
Theorem status_and_cancel_idempotent rq task_type task_id node w :
  TaskStatus_get rq task_type task_id node
    (snd (TaskStatus_get rq task_type task_id node w))
  = TaskStatus_get rq task_type task_id node w
  /\ TaskStatus_delete rq task_type task_id node
       (snd (TaskStatus_delete rq task_type task_id node w))
     = TaskStatus_delete rq task_type task_id node w.
Proof.
  split.
  - destruct (String.eqb (task_state w task_id) "FAILURE") eqn:Hf.
    + apply String.eqb_eq in Hf.
      destruct (task_types task_type) as [p|] eqn:Ht.
      * assert (Hsome : is_Some (task_types task_type))
          by (rewrite Ht; eexists; reflexivity).
        pose proof (purge_record_frame task_id w) as (Hbk & _).
        rewrite (status_failure_run rq task_type task_id node w Hsome Hf).
        cbn [snd]. rewrite status_failure_run; [|exact Hsome|].
        -- rewrite purge_record_revoked, purge_record_twice.
           cbn [revoked set_revoked]. rewrite revoke_again.
           unfold task_result. cbn [backend set_revoked]. rewrite Hbk.
           reflexivity.
        -- unfold task_state in *. cbn [backend set_revoked]. rewrite Hbk.
           exact Hf.
      * unfold TaskStatus_get. rewrite Ht. reflexivity.
    + apply String.eqb_neq in Hf.
      rewrite (status_leaves_state rq task_type task_id node w Hf).
      reflexivity.
  - destruct (task_types task_type) as [p|] eqn:Ht.
    + assert (Hsome : is_Some (task_types task_type))
        by (rewrite Ht; eexists; reflexivity).
      rewrite (cancel_run rq task_type task_id node w Hsome).
      destruct (get (task_result w task_id) "user") as [user|e] eqn:Hu;
        [|cbn [snd]; rewrite cancel_run, Hu by exact Hsome; reflexivity].
      destruct (get (task_result w task_id) "server") as [dst|e] eqn:Hs;
        [|cbn [snd]; rewrite cancel_run, Hu, Hs by exact Hsome; reflexivity].
      destruct ((neqv (PStr (name (current_user rq))) user
                 || truthy dst && neqv dst (of_opt node))
                && negb (is_admin (current_user rq))) eqn:Hg;
        cbn [snd]; rewrite cancel_run by exact Hsome.
      * rewrite Hu, Hs, Hg. reflexivity.
      * change (task_result (set_revoked ({[task_id]} ∪ revoked w) w) task_id)
          with (task_result w task_id).
        rewrite Hu, Hs, Hg. cbn [revoked set_revoked].
        rewrite revoke_again. reflexivity.
    + unfold TaskStatus_delete. rewrite Ht. reflexivity.
Qed.

(** ** Result endpoints *)

Lemma get_field d key : get (PDict d) key = inl (field d key).
Proof. reflexivity. Qed.

Lemma get_field_inv d key v : get (PDict d) key = inl v -> field d key = v.
Proof. intros [= H]. exact H. Qed.

(** X5: The three result endpoints answer 400 and change nothing while the
    task is neither in state [SUCCESS] nor in state [FAILURE]; the
    message carries the state. *)
Theorem results_wait_for_completion rq task_id node w :
  task_state w task_id <> "SUCCESS" ->
  task_state w task_id <> "FAILURE" ->
  let msg := Some ("Task not processed yet: " +:+ task_state w task_id) in
  TaskGetFile_get rq task_id node w = (Abort 400 msg, w)
  /\ TaskDeletedClient_get rq task_id node w = (Abort 400 msg, w)
  /\ TaskDoBrowseAll_get rq task_id node w = (Abort 400 msg, w).
Proof.
  intros Hs Hf msg.
  unfold TaskGetFile_get, TaskDeletedClient_get, TaskDoBrowseAll_get, bind.
  rewrite !AsyncResult_value. cbn [t_state].
  rewrite (state_test _ _ Hs), (state_test _ _ Hf). cbn [negb].
  repeat split.
Qed.

Lemma results_wait_for_completion_witness :
  TaskGetFile_get alice "t1" None
    (with_task "t1" (mkMeta "STARTED" PNone) idle)
  = (Abort 400 (Some "Task not processed yet: STARTED"),
     with_task "t1" (mkMeta "STARTED" PNone) idle).
Proof.
  destruct (results_wait_for_completion alice "t1" None
              (with_task "t1" (mkMeta "STARTED" PNone) idle))
    as (Hfetch & _ & _).
  - discriminate.
  - discriminate.
  - exact Hfetch.
Defined.

(** The results of a failed client deletion or tree listing are answered
    with 500 and the stored error, whoever asks and with nothing
    replaced: the failure is reported before the owner is looked at, and
    nothing changes. *)
Theorem failed_results_reported rq task_id node w d :
  task_state w task_id = "FAILURE" ->
  task_result w task_id = PDict d ->
  let msg := Some ("Unsuccessful task: " +:+ str (field d "error")) in
  TaskDeletedClient_get rq task_id node w = (Abort 500 msg, w)
  /\ TaskDoBrowseAll_get rq task_id node w = (Abort 500 msg, w).
Proof.
  intros Hst Hres msg.
  unfold TaskDeletedClient_get, TaskDoBrowseAll_get, bind.
  rewrite !AsyncResult_value. cbn [t_state t_result]. rewrite Hst, Hres.
  split; reflexivity.
Qed.

Lemma failed_results_reported_witness :
  TaskDoBrowseAll_get mallory "t1" None
    (with_task "t1" (mkMeta "FAILURE" (failed_restore "disk full" false))
       idle)
  = (Abort 500 (Some "Unsuccessful task: disk full"),
     with_task "t1" (mkMeta "FAILURE" (failed_restore "disk full" false))
       idle).
Proof.
  destruct (failed_results_reported mallory "t1" None
              (with_task "t1"
                 (mkMeta "FAILURE" (failed_restore "disk full" false)) idle)
              _ eq_refl eq_refl) as [_ Hbrowse].
  exact Hbrowse.
Defined.

(** What [TaskGetFile.get] does with a successful task whose result is a
    map. *)
Lemma fetch_steps rq task_id node w d :
  task_state w task_id = "SUCCESS" ->
  task_result w task_id = PDict d ->
  TaskGetFile_get rq task_id node w
  = if (neqv (PStr (name (current_user rq))) (field d "user")
        || (truthy (field d "server")
            && neqv (field d "server") (of_opt node)))
       && negb (is_admin (current_user rq))
    then (Abort 403 (Some "Unauthorized access"), w)
    else if truthy (field d "server")
    then stream_file rq (field d "path") (field d "filename")
           (field d "server") (consumed task_id w)
    else
      match open_rb (field d "path") (consumed task_id w) with
      | inr e => (Abort 500 (Some (exn_str e)), consumed task_id w)
      | inl content =>
          match send_file content (field d "filename") with
          | inr e =>
              (remove_file (field d "path") ;;;
               abort 500 (Some (exn_str e))) (consumed task_id w)
          | inl resp =>
              (remove_file (field d "path") ;;;
               ret (set_cookie resp "fileDownload" "true"))
                (consumed task_id w)
          end
      end.
Proof.
  intros Hst Hres. unfold TaskGetFile_get, bind at 1.
  rewrite AsyncResult_value. cbn [t_state t_result]. rewrite Hst, Hres.
  cbn [String.eqb Ascii.eqb Bool.eqb negb].
  unfold bind at 1. rewrite get_field. cbn [lift].
  unfold bind at 1. rewrite get_field. cbn [lift].
  unfold bind at 1. rewrite get_field. cbn [lift].
  unfold bind at 1. rewrite get_field. cbn [lift].
  match goal with |- context [if ?c then abort _ _ else _] => destruct c end;
    [reflexivity|].
  unfold bind at 1. rewrite purge_record_returns.
  unfold bind at 1. cbn [revoke modify]. fold (consumed task_id w).
  destruct (truthy (field d "server")); reflexivity.
Qed.

(** X6: A refused fetch destroys nothing: when the caller is neither the
    owner on the right node nor an administrator the answer is 403 and
    the task is not revoked, its row and the archive are kept. *)
Theorem refused_fetch_changes_nothing rq task_id node w d owner origin :
  task_state w task_id = "SUCCESS" ->
  task_result w task_id = PDict d ->
  get (PDict d) "user" = inl (PStr owner) ->
  get (PDict d) "server" = inl (of_opt origin) ->
  owner_on_node (name (current_user rq)) owner node origin
  || is_admin (current_user rq) = false ->
  TaskGetFile_get rq task_id node w
  = (Abort 403 (Some "Unauthorized access"), w).
Proof.
  intros Hst Hres Hu%get_field_inv Hs%get_field_inv Hno.
  rewrite (fetch_steps rq task_id node w d Hst Hres), Hu, Hs.
  rewrite guard_value, <- negb_orb, Hno. reflexivity.
Qed.

Lemma refused_fetch_changes_nothing_witness :
  TaskGetFile_get mallory "t1" None
    (recorded "t1" "perform_restore" "alice"
       (with_task "t1" (mkMeta "SUCCESS" local_restore) idle))
  = (Abort 403 (Some "Unauthorized access"),
     recorded "t1" "perform_restore" "alice"
       (with_task "t1" (mkMeta "SUCCESS" local_restore) idle)).
Proof.
  apply (refused_fetch_changes_nothing mallory "t1" None
           (recorded "t1" "perform_restore" "alice"
              (with_task "t1" (mkMeta "SUCCESS" local_restore) idle))
           _ "alice" None eq_refl eq_refl eq_refl eq_refl eq_refl).
Defined.

Lemma consumed_frame task_id w :
  backend (consumed task_id w) = backend w
  /\ files (consumed task_id w) = files w
  /\ cache (consumed task_id w) = cache w
  /\ session (consumed task_id w) = session w
  /\ task_id ∈ revoked (consumed task_id w).
Proof.
  pose proof (purge_record_frame task_id w) as (Hb & _ & Hc & Hs & Hf & _).
  unfold consumed. cbn [backend files cache session revoked set_revoked].
  repeat split; auto. apply elem_of_union_l, elem_of_singleton. reflexivity.
Qed.

Lemma consumed_no_record task_id w :
  db_healthy w -> ~ has_record task_id (consumed task_id w).
Proof. intros H. apply (purge_record_gone task_id w H). Qed.

Section LocalDelivery.
Variables (rq : request) (task_id : string) (node : option string).
Variables (w : world) (d : list (string * pyval)).
Variables (p owner : string) (filename : pyval) (content : bytes).
Hypothesis Hstate : task_state w task_id = "SUCCESS".
Hypothesis Hresult : task_result w task_id = PDict d.
Hypothesis Hpath : get (PDict d) "path" = inl (PStr p).
Hypothesis Huser : get (PDict d) "user" = inl (PStr owner).
Hypothesis Hlocal : truthy (field d "server") = false.
Hypothesis Hname : get (PDict d) "filename" = inl filename.
Hypothesis Hnamed : filename <> PNone.
Hypothesis Hguard :
  String.eqb (name (current_user rq)) owner || is_admin (current_user rq)
  = true.
Hypothesis Hfile : files w !! p = Some content.

Lemma local_delivery_run :
  TaskGetFile_get rq task_id node w
  = (Returned
       (mkResponse 200 (FileBody content) (Some "application/zip")
          [mkHeader "Content-Disposition" "attachment"
             [("filename", filename)]]
          [("fileDownload", "true")] None),
     set_files (delete p (files w)) (consumed task_id w)).
Proof.
  apply get_field_inv in Hpath, Huser, Hname.
  rewrite (fetch_steps rq task_id node w d Hstate Hresult).
  rewrite Huser, Hlocal, Hpath, Hname. cbn [andb]. rewrite orb_false_r.
  unfold neqv. cbn [eqv]. rewrite <- negb_orb, Hguard. cbn [negb].
  destruct (consumed_frame task_id w) as (_ & Hf & _).
  unfold open_rb. rewrite Hf, Hfile.
  unfold send_file. destruct filename; try congruence;
    unfold bind, remove_file, modify, ret; rewrite Hf; reflexivity.
Qed.
End LocalDelivery.

(** X7: The delivery of a local archive to its owner (or an administrator):
    the answer is 200 with the content of the file as an attachment and
    the cookie [fileDownload=true]; afterwards the file is gone from the
    storage, the task is revoked and, the database being there to commit,
    its row is gone; no other file is touched. *)
Theorem local_delivery rq task_id node w d p owner filename content :
  task_state w task_id = "SUCCESS" ->
  task_result w task_id = PDict d ->
  get (PDict d) "path" = inl (PStr p) ->
  get (PDict d) "user" = inl (PStr owner) ->
  truthy (field d "server") = false ->
  get (PDict d) "filename" = inl filename ->
  filename <> PNone ->
  String.eqb (name (current_user rq)) owner || is_admin (current_user rq)
  = true ->
  files w !! p = Some content ->
  db_healthy w ->
  exists resp w',
    TaskGetFile_get rq task_id node w = (Returned resp, w')
    /\ status resp = 200
    /\ body resp = FileBody content
    /\ cookies resp = [("fileDownload", "true")]
    /\ files w' = delete p (files w)
    /\ task_id ∈ revoked w'
    /\ ~ has_record task_id w'.
Proof.
  intros Hst Hres Hp Hu Hl Hn Hnn Hg Hf Hdb.
  do 2 eexists. split.
  { apply (local_delivery_run rq task_id node w d p owner filename content);
      assumption. }
  destruct (consumed_frame task_id w) as (_ & _ & _ & _ & Hrev).
  repeat split; try reflexivity; try exact Hrev.
  apply (consumed_no_record task_id w Hdb).
Qed.

Lemma local_delivery_witness :
  exists resp w',
    TaskGetFile_get alice "t1" None
      (set_files {["/tmp/r.zip" := [byte_a; byte_b]]}
         (recorded "t1" "perform_restore" "alice"
            (with_task "t1" (mkMeta "SUCCESS" local_restore) idle)))
    = (Returned resp, w')
    /\ body resp = FileBody [byte_a; byte_b]
    /\ files w' = ∅.
Proof.
  destruct (local_delivery alice "t1" None
              (set_files {["/tmp/r.zip" := [byte_a; byte_b]]}
                 (recorded "t1" "perform_restore" "alice"
                    (with_task "t1" (mkMeta "SUCCESS" local_restore) idle)))
              _ "/tmp/r.zip" "alice" (PStr "r.zip") [byte_a; byte_b]
              eq_refl eq_refl eq_refl eq_refl eq_refl eq_refl
              ltac:(discriminate) eq_refl eq_refl eq_refl)
    as (resp & w' & Hrun & _ & Hbody & _ & Hfiles & _).
  exists resp, w'. repeat split; assumption.
Defined.

(** X8: Fetching twice: after a local archive was delivered, a second fetch
    for the same id finds the task still in state [SUCCESS], passes the
    guard again and fails on the file that the first fetch removed; the
    answer is 500 with the text of the [OSError], not a 404. *)
Theorem second_fetch_fails rq task_id node w d p owner filename content :
  task_state w task_id = "SUCCESS" ->
  task_result w task_id = PDict d ->
  get (PDict d) "path" = inl (PStr p) ->
  get (PDict d) "user" = inl (PStr owner) ->
  truthy (field d "server") = false ->
  get (PDict d) "filename" = inl filename ->
  filename <> PNone ->
  String.eqb (name (current_user rq)) owner || is_admin (current_user rq)
  = true ->
  files w !! p = Some content ->
  fst (TaskGetFile_get rq task_id node
         (snd (TaskGetFile_get rq task_id node w)))
  = Abort 500 (Some (missing_file p)).
Proof.
  intros Hst Hres Hp Hu Hl Hn Hnn Hg Hf.
  rewrite (local_delivery_run rq task_id node w d p owner filename content)
    by assumption.
  cbn [snd].
  destruct (consumed_frame task_id w) as (Hbk & _).
  set (w1 := set_files (delete p (files w)) (consumed task_id w)).
  assert (Hst1 : task_state w1 task_id = "SUCCESS")
    by (unfold task_state in *; cbn [w1 backend set_files];
        rewrite Hbk; exact Hst).
  assert (Hres1 : task_result w1 task_id = PDict d)
    by (unfold task_result in *; cbn [w1 backend set_files];
        rewrite Hbk; exact Hres).
  apply get_field_inv in Hp, Hu.
  rewrite (fetch_steps rq task_id node w1 d Hst1 Hres1).
  rewrite Hu, Hl, Hp. cbn [andb]. rewrite orb_false_r.
  unfold neqv. cbn [eqv]. rewrite <- negb_orb, Hg. cbn [negb].
  destruct (consumed_frame task_id w1) as (_ & Hf1 & _).
  unfold open_rb. rewrite Hf1. cbn [w1 files set_files].
  rewrite lookup_delete_eq. reflexivity.
Qed.

Lemma second_fetch_fails_witness :
  fst (TaskGetFile_get alice "t1" None
         (snd (TaskGetFile_get alice "t1" None
                 (set_files {["/tmp/r.zip" := [byte_a; byte_b]]}
                    (with_task "t1" (mkMeta "SUCCESS" local_restore)
                       idle)))))
  = Abort 500 (Some "[Errno 2] No such file or directory: '/tmp/r.zip'").
Proof.
  apply (second_fetch_fails alice "t1" None
           (set_files {["/tmp/r.zip" := [byte_a; byte_b]]}
              (with_task "t1" (mkMeta "SUCCESS" local_restore) idle))
           _ "/tmp/r.zip" "alice" (PStr "r.zip") [byte_a; byte_b]
           eq_refl eq_refl eq_refl eq_refl eq_refl eq_refl
           ltac:(discriminate) eq_refl eq_refl).
Defined.

(** What [TaskDeletedClient.get] does with a successful task whose
    result is a map with a map of options. *)
Lemma deletion_steps rq task_id node w d kw :
  task_state w task_id = "SUCCESS" ->
  task_result w task_id = PDict d ->
  field d "kwargs" = PDict kw ->
  TaskDeletedClient_get rq task_id node w
  = if neqv (PStr (name (current_user rq))) (field d "user")
       || (truthy (field d "server")
           && neqv (field d "server") (of_opt node))
    then (Abort 403 (Some "Unauthorized access"), w)
    else if truthy (field kw "keepconf")
    then (Returned (field d "result"),
          set_revoked ({[task_id]} ∪ revoked w) w)
    else
      match read_counter rq w with
      | inl n =>
          match format_int (n + 1) with
          | inl _ =>
              (Returned (field d "result"), invalidated rq task_id n w)
          | inr e =>
              (Raised e,
               set_cache ∅ (set_revoked ({[task_id]} ∪ revoked w) w))
          end
      | inr e =>
          (Raised e,
           set_cache ∅ (set_revoked ({[task_id]} ∪ revoked w) w))
      end.
Proof.
  intros Hst Hres Hkw. unfold TaskDeletedClient_get, bind at 1.
  rewrite AsyncResult_value. cbn [t_state t_result]. rewrite Hst, Hres.
  cbn [String.eqb Ascii.eqb Bool.eqb negb].
  do 4 (unfold bind at 1; rewrite get_field; cbn [lift]).
  rewrite Hkw.
  do 6 (unfold bind at 1; rewrite get_field; cbn [lift]).
  match goal with |- context [if ?c then abort _ _ else _] => destruct c end;
    [reflexivity|].
  unfold bind at 1. cbn [revoke modify].
  destruct (truthy (field kw "keepconf")); cbn [negb]; [reflexivity|].
  unfold read_counter, invalidated, bind, modify.
  cbn [session set_cache set_revoked].
  assert (Htext : forall n, match format_int n with
                            | inl t => t = str_of_Z n
                            | inr _ => True
                            end).
  { intros n. unfold format_int.
    destruct (max_str_digits <? String.length (str_of_Z (Z.abs n)))%nat;
      [exact I | reflexivity]. }
  destruct (int _) as [n|[m|m|m|m|m|m]]; try reflexivity.
  - specialize (Htext (n + 1)).
    destruct (format_int (n + 1)) as [t|e]; cbn [lift]; [|reflexivity].
    subst t. destruct (with_celery rq); reflexivity.
  - specialize (Htext (0 + 1)).
    destruct (format_int (0 + 1)) as [t|e]; cbn [lift]; [|reflexivity].
    subst t. destruct (with_celery rq); reflexivity.
Qed.

(** The results of a client deletion and of a tree listing are for the
    owner alone: a caller who is not the owner on the right node is
    answered 403 and nothing changes, also when the caller is an
    administrator. *)
Theorem results_for_owner_only rq task_id node w d kw owner origin :
  task_state w task_id = "SUCCESS" ->
  task_result w task_id = PDict d ->
  get (PDict d) "user" = inl (PStr owner) ->
  get (PDict d) "server" = inl (of_opt origin) ->
  get (PDict d) "kwargs" = inl (PDict kw) ->
  owner_on_node (name (current_user rq)) owner node origin = false ->
  TaskDeletedClient_get rq task_id node w
  = (Abort 403 (Some "Unauthorized access"), w)
  /\ TaskDoBrowseAll_get rq task_id node w
     = (Abort 403 (Some "Unauthorized access"), w).
Proof.
  intros Hst Hres Hu%get_field_inv Hs%get_field_inv Hk%get_field_inv Hno.
  split.
  - rewrite (deletion_steps rq task_id node w d kw Hst Hres Hk), Hu, Hs.
    rewrite guard_value, Hno. reflexivity.
  - unfold TaskDoBrowseAll_get, bind at 1. rewrite AsyncResult_value.
    cbn [t_state t_result]. rewrite Hst, Hres.
    cbn [String.eqb Ascii.eqb Bool.eqb negb].
    do 3 (unfold bind at 1; rewrite get_field; cbn [lift]).
    rewrite Hu, Hs, guard_value, Hno. reflexivity.
Qed.

Lemma results_for_owner_only_witness :
  is_admin (current_user root) = true
  /\ TaskDeletedClient_get root "t1" None
       (with_task "t1" (mkMeta "SUCCESS" (deletion false)) idle)
     = (Abort 403 (Some "Unauthorized access"),
        with_task "t1" (mkMeta "SUCCESS" (deletion false)) idle).
Proof.
  split; [reflexivity|].
  apply (results_for_owner_only root "t1" None
           (with_task "t1" (mkMeta "SUCCESS" (deletion false)) idle)
           _ _ "alice" None eq_refl eq_refl eq_refl eq_refl eq_refl eq_refl).
Defined.

(** X9: A session counter that does not read as an integer makes the
    deletion start it again: [int] raises [ValueError], the counter
    becomes ["1"], and the rest of the invalidation takes place. *)
Theorem unreadable_counter_becomes_one rq task_id node w d kw owner origin s :
  task_state w task_id = "SUCCESS" ->
  task_result w task_id = PDict d ->
  get (PDict d) "user" = inl (PStr owner) ->
  get (PDict d) "server" = inl (of_opt origin) ->
  get (PDict d) "kwargs" = inl (PDict kw) ->
  truthy (field kw "keepconf") = false ->
  owner_on_node (name (current_user rq)) owner node origin = true ->
  session w !! "_extra" = Some (PStr s) ->
  int_of_str s = None ->
  exists w',
    TaskDeletedClient_get rq task_id node w = (Returned (field d "result"), w')
    /\ session w' !! "_extra" = Some (PStr "1")
    /\ cache w' = ∅.
Proof.
  intros Hst Hres Hu%get_field_inv Hs%get_field_inv Hk%get_field_inv Hkeep
    Hok Hsess Hbad.
  rewrite (deletion_steps rq task_id node w d kw Hst Hres Hk), Hu, Hs, Hkeep.
  rewrite guard_value, Hok. cbn [negb].
  unfold read_counter. rewrite Hsess. cbn [int]. rewrite Hbad.
  change (format_int (0 + 1)) with (@inl string pyexn "1").
  eexists. split; [reflexivity|]. unfold invalidated.
  destruct (with_celery rq); cbn; split; try reflexivity;
    apply lookup_insert_eq.
Qed.

Lemma unreadable_counter_becomes_one_witness :
  exists w',
    TaskDeletedClient_get alice "t1" None
      (with_counter (PStr "12 o'clock")
         (with_task "t1" (mkMeta "SUCCESS" (deletion false)) idle))
    = (Returned (PList [PList [PInt 0; PStr "client removed"]]), w')
    /\ session w' !! "_extra" = Some (PStr "1")
    /\ cache w' = ∅.
Proof.
  apply (unreadable_counter_becomes_one alice "t1" None
           (with_counter (PStr "12 o'clock")
              (with_task "t1" (mkMeta "SUCCESS" (deletion false)) idle))
           _ _ "alice" None "12 o'clock"
           eq_refl eq_refl eq_refl eq_refl eq_refl eq_refl eq_refl eq_refl
           eq_refl).
Defined.

(** X10: A session counter of a type [int] does not take (no value, a list, a
    map) interrupts the deletion half way: the [TypeError] is not caught,
    and by then the task is revoked and the cache emptied, while the
    session is as it was and no refresh was scheduled. *)
Theorem counter_type_error_half_way
    rq task_id node w d kw owner origin v msg :
  task_state w task_id = "SUCCESS" ->
  task_result w task_id = PDict d ->
  get (PDict d) "user" = inl (PStr owner) ->
  get (PDict d) "server" = inl (of_opt origin) ->
  get (PDict d) "kwargs" = inl (PDict kw) ->
  truthy (field kw "keepconf") = false ->
  owner_on_node (name (current_user rq)) owner node origin = true ->
  session w !! "_extra" = Some v ->
  int v = inr (TypeError msg) ->
  exists w',
    TaskDeletedClient_get rq task_id node w = (Raised (TypeError msg), w')
    /\ cache w' = ∅
    /\ task_id ∈ revoked w'
    /\ session w' = session w
    /\ rescheduled w' = rescheduled w.
Proof.
  intros Hst Hres Hu%get_field_inv Hs%get_field_inv Hk%get_field_inv Hkeep
    Hok Hsess Hbad.
  rewrite (deletion_steps rq task_id node w d kw Hst Hres Hk), Hu, Hs, Hkeep.
  rewrite guard_value, Hok. cbn [negb].
  unfold read_counter. rewrite Hsess, Hbad.
  eexists. split; [reflexivity|]. cbn. repeat split.
  apply elem_of_union_l, elem_of_singleton. reflexivity.
Qed.

Lemma counter_type_error_half_way_witness :
  exists w',
    fst (TaskDeletedClient_get alice "t1" None
           (with_cached "report" (PInt 3)
              (with_counter PNone
                 (with_task "t1" (mkMeta "SUCCESS" (deletion false)) idle))))
    = Raised (TypeError
                ("int() argument must be a string, a bytes-like object or a "
                 +:+ "real number, not 'NoneType'"))
    /\ snd (TaskDeletedClient_get alice "t1" None
              (with_cached "report" (PInt 3)
                 (with_counter PNone
                    (with_task "t1" (mkMeta "SUCCESS" (deletion false))
                       idle)))) = w'
    /\ cache w' = ∅.
Proof.
  destruct (counter_type_error_half_way alice "t1" None
              (with_cached "report" (PInt 3)
                 (with_counter PNone
                    (with_task "t1" (mkMeta "SUCCESS" (deletion false))
                       idle)))
              _ _ "alice" None PNone _
              eq_refl eq_refl eq_refl eq_refl eq_refl eq_refl eq_refl eq_refl
              eq_refl) as (w' & Hrun & Hc & _).
  exists w'. rewrite Hrun. repeat split. exact Hc.
Defined.

Lemma invalidated_frame rq task_id n w :
  backend (invalidated rq task_id n w) = backend w
  /\ session (invalidated rq task_id n w) !! "_extra"
     = Some (PStr (str_of_Z (n + 1)))
  /\ cache (invalidated rq task_id n w) = ∅
  /\ rescheduled (invalidated rq task_id n w)
     = if with_celery rq then S (rescheduled w) else rescheduled w.
Proof.
  unfold invalidated. destruct (with_celery rq); cbn;
    repeat split; apply lookup_insert_eq.
Qed.

(** The immediate refresh of the periodic caches is asked for once per
    deletion fetched without [keepconf], and only when Celery is
    configured; with [keepconf] it is never asked for. *)
Theorem deletion_schedules_refresh rq task_id node w d kw owner origin n :
  task_state w task_id = "SUCCESS" ->
  task_result w task_id = PDict d ->
  get (PDict d) "user" = inl (PStr owner) ->
  get (PDict d) "server" = inl (of_opt origin) ->
  get (PDict d) "kwargs" = inl (PDict kw) ->
  owner_on_node (name (current_user rq)) owner node origin = true ->
  read_counter rq w = inl n ->
  short (n + 1) ->
  rescheduled (snd (TaskDeletedClient_get rq task_id node w))
  = if with_celery rq && negb (truthy (field kw "keepconf"))
    then S (rescheduled w) else rescheduled w.
Proof.
  intros Hst Hres Hu%get_field_inv Hs%get_field_inv Hk%get_field_inv Hok Hn
    Hshort.
  rewrite (deletion_steps rq task_id node w d kw Hst Hres Hk), Hu, Hs.
  rewrite guard_value, Hok, Hn, (format_int_short _ Hshort). cbn [negb].
  destruct (truthy (field kw "keepconf")); cbn [negb snd].
  - rewrite andb_false_r. reflexivity.
  - rewrite andb_true_r.
    destruct (invalidated_frame rq task_id n w) as (_ & _ & _ & Hr).
    exact Hr.
Qed.

Lemma deletion_schedules_refresh_witness :
  rescheduled (snd (TaskDeletedClient_get root "t1" None
                      (with_task "t1"
                         (mkMeta "SUCCESS"
                            (PDict [("user", PStr "root");
                                    ("kwargs", PDict [])])) idle)))
  = 1%nat.
Proof.
  apply (deletion_schedules_refresh root "t1" None
           (with_task "t1"
              (mkMeta "SUCCESS"
                 (PDict [("user", PStr "root"); ("kwargs", PDict [])])) idle)
           _ _ "root" None 1700000000
           eq_refl eq_refl eq_refl eq_refl eq_refl eq_refl eq_refl eq_refl).
Defined.

(** X11: The counter written by one fetch is the counter read by the next:
    two results of deletions fetched one after the other (of two tasks,
    or twice of the same task, which stays in state [SUCCESS]) move a
    counter that read [n] to [n + 2], as long as [n + 1] and [n + 2]
    have no more digits than Python converts to text. *)
Theorem two_deletions_count_twice
    rq id1 id2 node w d1 kw1 d2 kw2 owner origin n :
  task_state w id1 = "SUCCESS" ->
  task_result w id1 = PDict d1 ->
  task_state w id2 = "SUCCESS" ->
  task_result w id2 = PDict d2 ->
  get (PDict d1) "user" = inl (PStr owner) ->
  get (PDict d2) "user" = inl (PStr owner) ->
  get (PDict d1) "server" = inl (of_opt origin) ->
  get (PDict d2) "server" = inl (of_opt origin) ->
  get (PDict d1) "kwargs" = inl (PDict kw1) ->
  get (PDict d2) "kwargs" = inl (PDict kw2) ->
  truthy (field kw1 "keepconf") = false ->
  truthy (field kw2 "keepconf") = false ->
  owner_on_node (name (current_user rq)) owner node origin = true ->
  read_counter rq w = inl n ->
  short (n + 1) ->
  short (n + 2) ->
  session (snd (TaskDeletedClient_get rq id2 node
                  (snd (TaskDeletedClient_get rq id1 node w)))) !! "_extra"
  = Some (PStr (str_of_Z (n + 2))).
Proof.
  intros Hst1 Hres1 Hst2 Hres2 Hu1%get_field_inv Hu2%get_field_inv
    Hs1%get_field_inv Hs2%get_field_inv Hk1%get_field_inv Hk2%get_field_inv
    Hkeep1 Hkeep2 Hok Hn Hshort1 Hshort2.
  rewrite (deletion_steps rq id1 node w d1 kw1 Hst1 Hres1 Hk1), Hu1, Hs1.
  rewrite guard_value, Hok, Hkeep1, Hn, (format_int_short _ Hshort1).
  cbn [negb snd].
  destruct (invalidated_frame rq id1 n w) as (Hbk & Hsess & _).
  set (w1 := invalidated rq id1 n w) in *.
  assert (Hst : task_state w1 id2 = "SUCCESS")
    by (unfold task_state in *; rewrite Hbk; exact Hst2).
  assert (Hres : task_result w1 id2 = PDict d2)
    by (unfold task_result in *; rewrite Hbk; exact Hres2).
  assert (Hn1 : read_counter rq w1 = inl (n + 1))
    by (unfold read_counter; rewrite Hsess; cbn [int];
        rewrite (int_of_str_of_Z _ Hshort1); reflexivity).
  replace (n + 2) with (n + 1 + 1) in Hshort2 |- * by lia.
  rewrite (deletion_steps rq id2 node w1 d2 kw2 Hst Hres Hk2), Hu2, Hs2.
  rewrite guard_value, Hok, Hkeep2, Hn1, (format_int_short _ Hshort2).
  cbn [negb snd].
  destruct (invalidated_frame rq id2 (n + 1) w1) as (_ & Hsess2 & _).
  exact Hsess2.
Qed.

Lemma two_deletions_count_twice_witness :
  session (snd (TaskDeletedClient_get alice "t1" None
                  (snd (TaskDeletedClient_get alice "t1" None
                          (with_counter (PStr "١٢")
                             (with_task "t1"
                                (mkMeta "SUCCESS" (deletion false))
                                idle)))))) !! "_extra"
  = Some (PStr "14").
Proof.
  apply (two_deletions_count_twice alice "t1" "t1" None
           (with_counter (PStr "١٢")
              (with_task "t1" (mkMeta "SUCCESS" (deletion false)) idle))
           _ _ _ _ "alice" None 12
           eq_refl eq_refl eq_refl eq_refl eq_refl eq_refl eq_refl eq_refl
           eq_refl eq_refl eq_refl eq_refl eq_refl eq_refl eq_refl eq_refl).
Defined.

Lemma owner_on_own_node caller origin :
  owner_on_node caller caller origin origin = true.
Proof.
  unfold owner_on_node. rewrite String.eqb_refl.
  destruct origin as [o|]; [|reflexivity].
  rewrite String.eqb_refl, orb_true_r. reflexivity.
Qed.

(** X12: Following the location: the status query of a successful restore
    gives its owner the path of the fetch endpoint under the root of the
    API, with the node named in the result, quoted for a URL, as a
    segment of it when the result names one, and the quoted id; a fetch
    on that node passes the ownership guard, for the archive as for a
    tree. *)
Theorem location_passes_guard rq task_id node w d origin :
  backend w !! task_id = Some (mkMeta "SUCCESS" (PDict d)) ->
  get (PDict d) "user" = inl (PStr (name (current_user rq))) ->
  get (PDict d) "server" = inl (of_opt origin) ->
  TaskStatus_get rq "restore" task_id node w
  = (Returned
       (json (PDict [("state", PStr "SUCCESS");
                     ("location",
                      PStr (api_root rq
                            +:+ match origin with
                                | Some o => "/" +:+ url_quote o
                                | None => ""
                                end
                            +:+ "/get/" +:+ url_quote task_id))]) 200), w)
  /\ forbidden (TaskGetFile_get rq task_id origin w) = false
  /\ forbidden (TaskDoBrowseAll_get rq task_id origin w) = false.
Proof.
  intros Hb Hu Hs.
  assert (Hd : truthy (PDict d) = true)
    by (destruct d; [discriminate | reflexivity]).
  split.
  - unfold TaskStatus_get. cbn [task_types String.eqb Ascii.eqb Bool.eqb].
    unfold bind at 1, AsyncResult. rewrite Hb.
    cbn [t_state t_result String.eqb Ascii.eqb Bool.eqb]. rewrite Hd.
    cbn [negb]. unfold bind. rewrite Hs. cbn [lift].
    unfold url_for. cbn [String.eqb Ascii.eqb Bool.eqb].
    destruct origin as [o|]; cbn [of_opt str String.append]; reflexivity.
  - split.
    + rewrite (fetch_guard rq task_id origin w "SUCCESS" d
                 (name (current_user rq)) origin Hb Hu Hs eq_refl).
      rewrite owner_on_own_node. reflexivity.
    + rewrite (tree_guard rq task_id origin w "SUCCESS" d
                 (name (current_user rq)) origin Hb Hu Hs eq_refl).
      rewrite owner_on_own_node. reflexivity.
Qed.

Lemma location_passes_guard_witness :
  fst (TaskStatus_get alice "restore" "t1" None
         (with_task "t1" (mkMeta "SUCCESS" spaced_restore) idle))
  = Returned (json (PDict [("state", PStr "SUCCESS");
                           ("location",
                            PStr "/api/tasks/agent%201/get/t1")]) 200)
  /\ forbidden (TaskGetFile_get alice "t1" (Some "agent 1")
                  (with_task "t1" (mkMeta "SUCCESS" spaced_restore) idle))
     = false.
Proof.
  destruct (location_passes_guard alice "t1" None
              (with_task "t1" (mkMeta "SUCCESS" spaced_restore) idle)
              _ (Some "agent 1") eq_refl eq_refl eq_refl)
    as (Hstatus & Hfetch & _).
  split; [rewrite Hstatus; reflexivity | exact Hfetch].
Defined.

(** X13: Cancelling a task and fetching a tree write nothing but the set of
    revoked ids: on every path, with every answer, the result backend,
    the durable rows, the cache, the session and the files stay as they
    are. *)
Theorem cancel_and_tree_only_revoke rq task_type task_id node :
  only_revokes (TaskStatus_delete rq task_type task_id node)
  /\ only_revokes (TaskDoBrowseAll_get rq task_id node).
Proof.
  split; intros w.
  - destruct (task_types task_type) as [p|] eqn:Ht.
    + rewrite cancel_run by (rewrite Ht; eexists; reflexivity).
      destruct (get (task_result w task_id) "user") as [user|e];
        [|exists (revoked w); symmetry; apply set_revoked_same].
      destruct (get (task_result w task_id) "server") as [dst|e];
        [|exists (revoked w); symmetry; apply set_revoked_same].
      match goal with |- context [if ?c then _ else _] => destruct c end.
      * exists (revoked w). symmetry. apply set_revoked_same.
      * eexists. reflexivity.
    + unfold TaskStatus_delete. rewrite Ht.
      exists (revoked w). symmetry. apply set_revoked_same.
  - unfold TaskDoBrowseAll_get, bind at 1. rewrite AsyncResult_value.
    cbn [t_state t_result].
    destruct (negb (String.eqb (task_state w task_id) "SUCCESS")).
    + destruct (String.eqb (task_state w task_id) "FAILURE");
        [|exists (revoked w); symmetry; apply set_revoked_same].
      unfold bind, lift.
      destruct (get (task_result w task_id) "error");
        exists (revoked w); symmetry; apply set_revoked_same.
    + unfold bind, lift.
      destruct (get (task_result w task_id) "user") as [user|e];
        [|exists (revoked w); symmetry; apply set_revoked_same].
      destruct (get (task_result w task_id) "server") as [dst|e];
        [|exists (revoked w); symmetry; apply set_revoked_same].
      destruct (get (task_result w task_id) "tree") as [tree|e];
        [|exists (revoked w); symmetry; apply set_revoked_same].
      match goal with |- context [if ?c then _ else _] => destruct c end.
      * exists (revoked w). symmetry. apply set_revoked_same.
      * eexists. reflexivity.
Qed.

(** ** More on the relay *)

(** The wire format of a length: 8 bytes that read back as the number,
    for every number below 2^64. *)
Theorem length_prefix_round_trip n :
  0 <= n < 2 ^ 64 ->
  length (pack_Q n) = 8%nat /\ unpack_Q (pack_Q n) = inl n.
Proof.
  intros Hn. split; [apply be_encode_length | apply unpack_pack_Q; exact Hn].
Qed.

Lemma length_prefix_round_trip_witness :
  length (pack_Q 1024) = 8%nat /\ unpack_Q (pack_Q 1024) = inl 1024.
Proof. apply (length_prefix_round_trip 1024). lia. Defined.

(** X14: The length prefix is read with a single [recv(8)]: when its 8 bytes
    reach the socket in two pieces, the first read is short and
    [struct.unpack] raises, although the agent sent a full prefix; the
    same happens when the agent closes without sending anything. *)
Theorem short_prefix_is_not_retried rq w server path filename sock bs rest :
  agents w !! (server, path) = Some sock ->
  rxbuf sock = [] ->
  (wire sock = Data bs :: rest /\ bs <> [] /\ (length bs < 8)%nat)
  \/ (wire sock = [] /\ peer_closed sock = true) ->
  stream_file rq (PStr path) filename (PStr server) w
  = (Raised (StructError "unpack requires a buffer of 8 bytes"), w).
Proof.
  intros Hagent Hrx Hcase. unfold stream_file, bind at 1, get_file.
  rewrite Hagent. unfold recv. rewrite Hrx.
  destruct Hcase as [(Hw & Hne & Hlen) | (Hw & Hcl)]; rewrite Hw.
  - destruct bs as [|b bs]; [congruence|]. cbn [next_data].
    change (Z.to_nat 8) with 8%nat.
    rewrite take_ge by lia. unfold bind, lift, unpack_Q.
    replace (length (b :: bs) =? 8)%nat with false
      by (symmetry; apply Nat.eqb_neq; lia).
    reflexivity.
  - cbn [next_data]. rewrite Hcl. reflexivity.
Qed.

Lemma short_prefix_is_not_retried_witness :
  stream_file alice (PStr "/tmp/r.zip") (PStr "r.zip") (PStr "agent1")
    (with_agent "agent1" "/tmp/r.zip"
       (mkSocket [] [Data [x00; x00; x00; x00]; Data [x00; x00; x00; x01];
                     Data [byte_a]] false [] false) idle)
  = (Raised (StructError "unpack requires a buffer of 8 bytes"),
     with_agent "agent1" "/tmp/r.zip"
       (mkSocket [] [Data [x00; x00; x00; x00]; Data [x00; x00; x00; x01];
                     Data [byte_a]] false [] false) idle).
Proof.
  apply (short_prefix_is_not_retried alice
           (with_agent "agent1" "/tmp/r.zip"
              (mkSocket [] [Data [x00; x00; x00; x00];
                            Data [x00; x00; x00; x01]; Data [byte_a]]
                 false [] false) idle)
           "agent1" "/tmp/r.zip" (PStr "r.zip") _
           [x00; x00; x00; x00]
           [Data [x00; x00; x00; x01]; Data [byte_a]] eq_refl eq_refl).
  left. split; [reflexivity|]. split; [discriminate | cbn; lia].
Defined.

Lemma poll_bytes w : forall budget,
  match poll w budget with
  | (Some bs, w') => wire_bytes w = bs ++ wire_bytes w'
  | (None, w') => wire_bytes w = wire_bytes w'
  end.
Proof.
  induction w as [|a w IH]; intros budget; cbn [poll]; [reflexivity|].
  destruct a as [bs|secs].
  - destruct bs as [|b bs]; [apply IH | reflexivity].
  - destruct (secs <? budget); [apply IH | reflexivity].
Qed.

Lemma select_pending s t : pending (snd (select s t)) = pending s.
Proof.
  unfold select, pending. destruct (rxbuf s) as [|b rx] eqn:Hrx;
    [|cbn [snd]; rewrite Hrx; reflexivity].
  pose proof (poll_bytes (wire s) t) as Hp.
  destruct (poll (wire s) t) as [[bs|] w'].
  - cbn. rewrite Hp. reflexivity.
  - destruct w'; cbn; rewrite Hp; reflexivity.
Qed.

Lemma next_data_bytes w :
  match next_data w with
  | Some (bs, w') => wire_bytes w = bs ++ wire_bytes w'
  | None => wire_bytes w = []
  end.
Proof.
  induction w as [|a w IH]; cbn [next_data]; [reflexivity|].
  destruct a as [bs|secs]; [|exact IH].
  destruct bs as [|b bs]; [exact IH | reflexivity].
Qed.

Lemma recv_pending s n buf s' :
  recv s n = Some (buf, s') ->
  pending s = buf ++ pending s' /\ (length buf <= Z.to_nat n)%nat.
Proof.
  unfold recv, pending. destruct (rxbuf s) as [|b rx] eqn:Hrx.
  - pose proof (next_data_bytes (wire s)) as Hn.
    destruct (next_data (wire s)) as [[bs w']|].
    + intros [= <- <-]. cbn [set_rx rxbuf wire app]. split.
      * rewrite Hn, app_assoc, take_drop. reflexivity.
      * rewrite length_take. lia.
    + destruct (peer_closed s); [|discriminate].
      intros [= <- <-]. cbn. split; [exact Hn | lia].
  - intros [= <- <-]. cbn [set_rx rxbuf wire]. split.
    + rewrite app_assoc, take_drop. reflexivity.
    + rewrite length_take. lia.
Qed.

Lemma loop_preserves_bytes size bsize fuel : forall sock received,
  let r := stream_loop fuel sock size bsize received in
  pending sock = concat (chunks r) ++ pending (final r)
  /\ Forall (fun c => c <> [] /\ (length c <= Z.to_nat bsize)%nat) (chunks r).
Proof.
  induction fuel as [|fuel IH]; intros sock received; cbn zeta;
    rewrite stream_loop_eq; destruct (received <? size).
  1,2,4: cbn [chunks final concat app]; split; [reflexivity | constructor].
  pose proof (select_pending sock 5) as Hsel.
  destruct (select sock 5) as [r sock1]. cbn [snd] in Hsel.
  destruct r; cbn [negb];
    [|cbn [chunks final concat app]; split; [auto | constructor]].
  destruct (recv sock1 bsize) as [[buf sock2]|] eqn:Hrecv;
    [|cbn [chunks final concat app]; split; [auto | constructor]].
  apply recv_pending in Hrecv as [Hp Hlen].
  destruct buf as [|b buf].
  - destruct (IH sock2 received) as [Hbytes Hall].
    cbn [emit chunks final app]. split; [|exact Hall].
    rewrite <- Hbytes, <- Hsel, Hp. reflexivity.
  - remember (b :: buf) as chunk eqn:Hchunk.
    destruct (IH sock2 (received + Z.of_nat (length chunk)))
      as [Hbytes Hall].
    rewrite Hchunk at 1. rewrite <- Hchunk.
    cbn [emit chunks final app]. split.
    + rewrite concat_cons, <- app_assoc, <- Hbytes, <- Hsel, Hp.
      reflexivity.
    + constructor; [|exact Hall]. split; [subst; discriminate | exact Hlen].
Qed.

(** X15: The relay neither loses nor reorders bytes: at any point, whatever
    the agent does, the chunks handed over so far followed by what the
    socket still holds are the bytes the socket held at the start; and
    every chunk has between 1 and 1024 bytes. *)
Theorem relay_preserves_bytes fuel sock size :
  pending sock
  = concat (chunks (stream fuel sock size))
    ++ pending (final (stream fuel sock size))
  /\ Forall (fun c => (1 <= length c <= 1024)%nat)
       (chunks (stream fuel sock size)).
Proof.
  unfold stream.
  destruct (loop_preserves_bytes size (if size <? 1024 then size else 1024)
              fuel sock 0) as [Hbytes Hall].
  split; [exact Hbytes|].
  eapply Forall_impl; [exact Hall|]. cbn beta.
  intros c [Hne Hlen]. split.
  - destruct c; [congruence | cbn; lia].
  - destruct (size <? 1024) eqn:E; [apply Z.ltb_lt in E|]; lia.
Qed.

Lemma loop_length_bounds size bsize fuel : forall sock received,
  0 <= bsize ->
  let r := stream_loop fuel sock size bsize received in
  (received < size -> received + sent_bytes r < size + bsize)
  /\ (size <= received -> sent_bytes r = 0)
  /\ (ending r = Completed -> size <= received + sent_bytes r).
Proof.
  unfold sent_bytes.
  induction fuel as [|fuel IH]; intros sock received Hb; cbn zeta;
    rewrite stream_loop_eq; destruct (received <? size) eqn:Hlt;
    [apply Z.ltb_lt in Hlt | apply Z.ltb_ge in Hlt
    | apply Z.ltb_lt in Hlt | apply Z.ltb_ge in Hlt].
  1,2,4: cbn [chunks ending concat length]; repeat split;
         intros; try discriminate; lia.
  destruct (select sock 5) as [r sock1]. destruct r; cbn [negb];
    [|cbn [chunks ending concat length]; repeat split;
      intros; try discriminate; lia].
  destruct (recv sock1 bsize) as [[buf sock2]|] eqn:Hrecv;
    [|cbn [chunks ending concat length]; repeat split;
      intros; try discriminate; lia].
  apply recv_pending in Hrecv as [_ Hlen].
  destruct buf as [|b buf].
  - destruct (IH sock2 received Hb) as (H1 & H2 & H3).
    cbn [emit chunks ending app]. repeat split; auto; lia.
  - remember (b :: buf) as chunk eqn:Hchunk.
    destruct (IH sock2 (received + Z.of_nat (length chunk)) Hb)
      as (H1 & H2 & H3).
    rewrite Hchunk at 1. rewrite <- Hchunk.
    cbn [emit chunks ending app]. rewrite concat_cons, length_app.
    repeat split; intros.
    + destruct (Z.lt_ge_cases (received + Z.of_nat (length chunk)) size)
        as [Hc|Hc].
      * specialize (H1 Hc). lia.
      * specialize (H2 Hc). lia.
    + lia.
    + specialize (H3 H). lia.
Qed.

(** X16: How many bytes the relay hands over, whatever the agent delivers:
    for an announced length [size > 0], less than [size] plus one read,
    and at least [size] once the transfer is acknowledged.  Nothing cuts
    the last chunk to the bytes still expected, so an agent that
    delivers more than it announced gets more than [Content-Length]
    relayed. *)
Theorem relay_length_bounds fuel sock size :
  0 < size ->
  sent_bytes (stream fuel sock size) < size + Z.min 1024 size
  /\ (ending (stream fuel sock size) = Completed ->
      size <= sent_bytes (stream fuel sock size)).
Proof.
  intros Hsize. unfold stream.
  destruct (loop_length_bounds size (if size <? 1024 then size else 1024)
              fuel sock 0) as (H1 & _ & H3).
  - destruct (size <? 1024); lia.
  - split.
    + specialize (H1 Hsize).
      destruct (size <? 1024) eqn:E;
        [apply Z.ltb_lt in E | apply Z.ltb_ge in E]; lia.
    + intros H. specialize (H3 H). lia.
Qed.

Lemma relay_length_bounds_witness :
  sent_bytes (stream 3 generous 2) = 3
  /\ ending (stream 3 generous 2) = Completed
  /\ sent_bytes (stream 3 generous 2) < 2 + Z.min 1024 2.
Proof.
  split; [reflexivity|]. split; [reflexivity|].
  apply (relay_length_bounds 3 generous 2). lia.
Defined.

Lemma loop_spins size bsize fuel : forall sock received,
  0 < bsize ->
  steady sock = true ->
  peer_closed sock = true ->
  received + Z.of_nat (length (pending sock)) < size ->
  ending (stream_loop fuel sock size bsize received) = Unfinished.
Proof.
  induction fuel as [|fuel IH]; intros sock received Hb Hst Hcl Hless;
    rewrite stream_loop_eq;
    (destruct (received <? size) eqn:Hlt; [|apply Z.ltb_ge in Hlt; lia]);
    [reflexivity|].
  destruct (pending sock) as [|b0 rest0] eqn:Hp.
  - unfold pending in Hp. apply app_eq_nil in Hp as [Hrx Hw].
    pose proof (poll_steady (wire sock) 5 Hst) as Hpoll.
    unfold select. rewrite Hrx.
    destruct (poll (wire sock) 5) as [[bs|] w'].
    + destruct Hpoll as (Hne & Hbytes & _). rewrite Hw in Hbytes.
      symmetry in Hbytes. apply app_eq_nil in Hbytes as [Hbs _]. congruence.
    + destruct Hpoll as [_ ->]. rewrite Hcl. cbn [negb].
      unfold recv. cbn [set_rx rxbuf wire next_data peer_closed].
      rewrite Hcl. cbn [emit ending]. apply IH; auto.
  - assert (Hne : pending sock <> []) by (rewrite Hp; discriminate).
    destruct (select_steady sock Hst Hne)
      as (s1 & Hsel & Hrx & Hp1 & _ & Hst1 & _).
    pose proof (select_socket sock 5) as (_ & _ & Hcl1).
    rewrite Hsel in *. cbn [snd negb] in *.
    destruct (recv_buffered s1 bsize Hrx Hb)
      as (buf & s2 & Hrecv & Hbuf & Hp2 & Hw2 & _).
    rewrite Hrecv. pose proof (recv_socket _ _ _ _ Hrecv) as (_ & _ & Hcl2).
    destruct buf as [|b buf]; [congruence|]. cbn [emit ending].
    apply IH; auto.
    + unfold steady in *. rewrite Hw2. exact Hst1.
    + congruence.
    + rewrite <- Hp, <- Hp1, Hp2, length_app in Hless. lia.
Qed.

Lemma loop_keeps_socket size bsize fuel : forall sock received,
  ending (stream_loop fuel sock size bsize received) <> Completed ->
  tx (final (stream_loop fuel sock size bsize received)) = tx sock.
Proof.
  induction fuel as [|fuel IH]; intros sock received;
    rewrite stream_loop_eq; destruct (received <? size);
    cbn [ending final]; try congruence.
  pose proof (select_socket sock 5) as (Htx & _).
  destruct (select sock 5) as [r sock1]. cbn [snd] in Htx.
  destruct r; cbn [negb ending final]; [|congruence].
  destruct (recv sock1 bsize) as [[buf sock2]|] eqn:Hrecv;
    cbn [ending final]; [|congruence].
  pose proof (recv_socket _ _ _ _ Hrecv) as (Htx2 & _).
  destruct buf; cbn [emit ending final]; intros H;
    rewrite (IH _ _ H); congruence.
Qed.

(** X17: An agent that closes the connection before it has delivered the
    announced length leaves the relay polling for ever: the closed
    socket is always readable and always reads empty, so the loop never
    finishes, never times out and never acknowledges, however many
    iterations it is given. *)
Theorem early_close_spins fuel sock size :
  steady sock = true ->
  peer_closed sock = true ->
  Z.of_nat (length (pending sock)) < size ->
  ending (stream fuel sock size) = Unfinished
  /\ ~ In (OpSelect 5 false) (trace (stream fuel sock size))
  /\ tx (final (stream fuel sock size)) = tx sock.
Proof.
  intros Hst Hcl Hless.
  assert (Hend : ending (stream fuel sock size) = Unfinished).
  { unfold stream. apply loop_spins; auto; try lia.
    destruct (size <? 1024) eqn:E; lia. }
  split; [exact Hend|]. split.
  - intros Hin. unfold stream in *.
    apply (loop_timeout size (if size <? 1024 then size else 1024) fuel
             sock 0) in Hin.
    rewrite Hend in Hin. discriminate.
  - unfold stream in *.
    apply (loop_keeps_socket size (if size <? 1024 then size else 1024)
             fuel sock 0).
    rewrite Hend. discriminate.
Qed.

Lemma early_close_spins_witness :
  ending (stream 7 hung_up 2) = Unfinished
  /\ chunks (stream 7 hung_up 2) = [[byte_a]].
Proof.
  split; [|reflexivity].
  apply (early_close_spins 7 hung_up 2); [reflexivity | reflexivity |].
  cbn. lia.
Defined.

(** ** Configuration lookup and start-up *)

Lemma find_first {A} (f : A -> bool) (l : list A) :
  match List.find f l with
  | Some x =>
      exists before after,
        l = before ++ x :: after /\ f x = true
        /\ Forall (fun y => f y = false) before
  | None => Forall (fun y => f y = false) l
  end.
Proof.
  induction l as [|a l IH]; cbn [List.find]; [constructor|].
  destruct (f a) eqn:Ha.
  - exists [], l. repeat split; [exact Ha | constructor].
  - destruct (List.find f l) as [x|].
    + destruct IH as (before & after & -> & Hx & Hall).
      exists (a :: before), after. repeat split; [exact Hx|].
      constructor; assumption.
    + constructor; assumption.
Qed.

(** X18: What [lookup_config] returns is a file that exists, and a file that
    was named is never replaced by another: it is returned, or its
    absence is an [IOError] that says so. *)
Theorem lookup_config_result prefix w conf :
  match lookup_config prefix w conf with
  | inl (Some p) =>
      isfile w p = true
      /\ (forall c, conf = Some c -> c <> "" -> p = c)
  | inl None =>
      (conf = None \/ conf = Some "")
      /\ Forall (fun q => isfile w q = false) (conf_files prefix)
  | inr e =>
      exists c,
        conf = Some c /\ c <> "" /\ isfile w c = false
        /\ e = OSError ("File not found: '" +:+ c +:+ "'")
  end.
Proof.
  unfold lookup_config. destruct conf as [c|]; cbn [of_opt truthy].
  - destruct (String.eqb c "") eqn:Hc; cbn [negb].
    + apply String.eqb_eq in Hc. subst c.
      pose proof (find_first (isfile w) (conf_files prefix)) as Hfind.
      destruct (List.find (isfile w) (conf_files prefix)) as [p|].
      * destruct Hfind as (before & after & _ & Hp & _).
        split; [exact Hp|]. intros c [= <-]. congruence.
      * split; [right; reflexivity | exact Hfind].
    + apply String.eqb_neq in Hc. destruct (isfile w c) eqn:Hf.
      * split; [exact Hf|]. intros c' [= <-] _. reflexivity.
      * exists c. repeat split; auto.
  - pose proof (find_first (isfile w) (conf_files prefix)) as Hfind.
    destruct (List.find (isfile w) (conf_files prefix)) as [p|].
    + destruct Hfind as (before & after & _ & Hp & _).
      split; [exact Hp|]. intros c [=].
    + split; [left; reflexivity | exact Hfind].
Qed.

(** X19: With no file named, the candidates are tried in order: the system
    file [/etc/burp/burpui.cfg], then [burpui.cfg] and at last
    [burpui.sample.cfg] under [sys.prefix]; the first that exists is
    returned, so a later candidate is returned only if the earlier ones
    do not exist. *)
Theorem lookup_config_order prefix w conf p :
  conf = None \/ conf = Some "" ->
  lookup_config prefix w conf = inl (Some p) ->
  exists before after,
    conf_files prefix = before ++ p :: after
    /\ Forall (fun q => isfile w q = false) before
    /\ (isfile w "/etc/burp/burpui.cfg" = true -> p = "/etc/burp/burpui.cfg").
Proof.
  intros Hconf Hrun.
  assert (Hfind : List.find (isfile w) (conf_files prefix) = Some p).
  { destruct Hconf as [-> | ->];
      change (@inl (option string) pyexn
                (List.find (isfile w) (conf_files prefix)) = inl (Some p))
        in Hrun; congruence. }
  pose proof (find_first (isfile w) (conf_files prefix)) as Hfirst.
  rewrite Hfind in Hfirst. destruct Hfirst as (before & after & Heq & _ & Hall).
  exists before, after. split; [exact Heq|]. split; [exact Hall|].
  intros Hetc. unfold conf_files in Hfind. cbn [List.find] in Hfind.
  rewrite Hetc in Hfind. congruence.
Qed.

Lemma lookup_config_order_witness :
  exists before after,
    conf_files "/usr" = before ++ "/usr/share/burpui/etc/burpui.sample.cfg"
                          :: after
    /\ Forall (fun q => isfile
                          (set_files
                             {["/usr/share/burpui/etc/burpui.sample.cfg"
                               := []]} idle) q = false) before.
Proof.
  assert (Hrun :
    lookup_config "/usr"
      (set_files {["/usr/share/burpui/etc/burpui.sample.cfg" := []]} idle)
      None
    = inl (Some "/usr/share/burpui/etc/burpui.sample.cfg"))
    by (vm_compute; reflexivity).
  destruct (lookup_config_order _ _ _ _ (or_introl eq_refl) Hrun)
    as (before & after & Heq & Hall & _).
  exists before, after. split; assumption.
Defined.

(** X20: The verbosity asked of [init]: a count of 4 or more is [DEBUG], the
    counts 0 to 4 go from silence through [ERROR], [WARNING] and [INFO]
    to [DEBUG], the booleans stand for 0 and 4; a negative count indexes
    the levels from the end, and below -5 it is an [IndexError]. *)
Theorem debug_level_of_count n :
  (4 <= n -> debug_level (DebugCount n) = Some DEBUG)
  /\ (0 <= n <= 4 ->
      debug_level (DebugCount n)
      = nth_error [NOTSET; ERROR; WARNING; INFO; DEBUG] (Z.to_nat n))
  /\ (-5 <= n < 0 ->
      debug_level (DebugCount n) = debug_level (DebugCount (n + 5)))
  /\ (n < -5 -> debug_level (DebugCount n) = None)
  /\ debug_level (DebugFlag true) = debug_level (DebugCount 4)
  /\ debug_level (DebugFlag false) = debug_level (DebugCount 0).
Proof.
  repeat split.
  - intros Hn. unfold debug_level.
    change (Z.of_nat (length [NOTSET; ERROR; WARNING; INFO; DEBUG])) with 5.
    destruct (n >=? 5) eqn:E; [reflexivity|].
    rewrite Z.geb_leb in E. apply Z.leb_gt in E.
    assert (n = 4) as -> by lia. reflexivity.
  - intros Hn.
    assert (n = 0 \/ n = 1 \/ n = 2 \/ n = 3 \/ n = 4) as Hc by lia.
    destruct Hc as [-> | [-> | [-> | [-> | ->]]]]; reflexivity.
  - intros Hn.
    assert (n = -5 \/ n = -4 \/ n = -3 \/ n = -2 \/ n = -1) as Hc by lia.
    destruct Hc as [-> | [-> | [-> | [-> | ->]]]]; reflexivity.
  - intros Hn. unfold debug_level, py_index.
    change (Z.of_nat (length [NOTSET; ERROR; WARNING; INFO; DEBUG])) with 5.
    replace (n >=? 5) with false by (symmetry; rewrite Z.geb_leb; lia).
    cbn [truthy]. replace (n =? 0) with false by (symmetry; lia).
    cbn [negb].
    replace (0 <=? n) with false by (symmetry; lia).
    replace (- (5) <=? n) with false by (symmetry; lia).
    reflexivity.
Qed.

(** ** Migrations *)

Lemma table_round_trip name t (s : gmap string table) :
  s !! name = None ->
  exists s',
    create_table name t s = Some s'
    /\ drop_table name s' = Some s
    /\ create_table name t s' = None
    /\ drop_table name s = None
    /\ s' !! name = Some t
    /\ forall other, other <> name -> s' !! other = s !! other.
Proof.
  intros Hfree. unfold create_table, drop_table. rewrite Hfree.
  eexists. split; [reflexivity|].
  rewrite lookup_insert_eq, delete_insert_id by exact Hfree.
  repeat split. intros other Hne. apply lookup_insert_ne. congruence.
Qed.

(** X21: The migration [56de018f4d88] is undone by its downgrade: on a schema
    without the table [pref] the upgrade goes through and creates it,
    with [id] as its primary key, and changes no other table; the
    downgrade then gives the schema back.  The upgrade is refused where
    the table exists, and the downgrade where it does not. *)
Theorem user_prefs_round_trip (s : gmap string table) :
  s !! "pref" = None ->
  exists s' t,
    Rev_56de018f4d88.upgrade s = Some s'
    /\ Rev_56de018f4d88.downgrade s' = Some s
    /\ Rev_56de018f4d88.upgrade s' = None
    /\ Rev_56de018f4d88.downgrade s = None
    /\ s' !! "pref" = Some t
    /\ primary_key t = ["id"]
    /\ map col_name (columns t) = ["id"; "user"; "key"; "value"]
    /\ forall other, other <> "pref" -> s' !! other = s !! other.
Proof.
  intros Hfree. unfold Rev_56de018f4d88.upgrade, Rev_56de018f4d88.downgrade.
  destruct (table_round_trip "pref"
              (mkTable
                 [mkColumn "id" SqlInteger false;
                  mkColumn "user" (SqlString 256) true;
                  mkColumn "key" (SqlString 256) false;
                  mkColumn "value" (SqlString 256) true]
                 ["id"] []) s Hfree)
    as (s' & Hup & Hdown & Hagain & Hnone & Hnew & Hother).
  exists s'. eexists. repeat split; try eassumption; reflexivity.
Qed.

Lemma user_prefs_round_trip_witness :
  exists s',
    Rev_56de018f4d88.upgrade ∅ = Some s'
    /\ Rev_56de018f4d88.downgrade s' = Some ∅.
Proof.
  assert (Hfree : (∅ : gmap string table) !! "pref" = None)
    by (vm_compute; reflexivity).
  destruct (user_prefs_round_trip ∅ Hfree) as (s' & t & Hup & Hdown & _).
  exists s'. split; assumption.
Defined.

(** X22: The migration [7f317474332d] is undone by its downgrade: on a schema
    without the table [session] the upgrade creates it, with [id] as its
    primary key and [uuid] unique, and changes no other table; the
    downgrade then gives the schema back.  The two migrations commute:
    each goes through after the other. *)
Theorem sessions_round_trip (s : gmap string table) :
  s !! "session" = None ->
  exists s' t,
    Rev_7f317474332d.upgrade s = Some s'
    /\ Rev_7f317474332d.downgrade s' = Some s
    /\ Rev_7f317474332d.upgrade s' = None
    /\ Rev_7f317474332d.downgrade s = None
    /\ s' !! "session" = Some t
    /\ primary_key t = ["id"] /\ unique t = [["uuid"]]
    /\ (forall other, other <> "session" -> s' !! other = s !! other)
    /\ (s !! "pref" = None ->
        exists s'', Rev_56de018f4d88.upgrade s' = Some s''
                    /\ s'' !! "session" = Some t).
Proof.
  intros Hfree. unfold Rev_7f317474332d.upgrade, Rev_7f317474332d.downgrade.
  destruct (table_round_trip "session"
              (mkTable
                 [mkColumn "id" SqlInteger false;
                  mkColumn "uuid" (SqlString 256) true;
                  mkColumn "user" (SqlString 256) true;
                  mkColumn "ip" (SqlString 256) true;
                  mkColumn "ua" (SqlString 2048) true;
                  mkColumn "timestamp" SqlDateTime true;
                  mkColumn "expire" SqlDateTime true;
                  mkColumn "permanent" SqlBoolean true;
                  mkColumn "api" SqlBoolean true]
                 ["id"] [["uuid"]]) s Hfree)
    as (s' & Hup & Hdown & Hagain & Hnone & Hnew & Hother).
  exists s'. eexists.
  do 5 (split; [eassumption|]). do 2 (split; [reflexivity|]).
  split; [exact Hother|].
  intros Hpref. unfold Rev_56de018f4d88.upgrade, create_table.
  rewrite Hother by discriminate. rewrite Hpref.
  eexists. split; [reflexivity|].
  rewrite lookup_insert_ne by discriminate. exact Hnew.
Qed.

Lemma sessions_round_trip_witness :
  exists s',
    Rev_7f317474332d.upgrade ∅ = Some s'
    /\ Rev_7f317474332d.downgrade s' = Some ∅.
Proof.
  assert (Hfree : (∅ : gmap string table) !! "session" = None)
    by (vm_compute; reflexivity).
  destruct (sessions_round_trip ∅ Hfree) as (s' & t & Hup & Hdown & _).
  exists s'. split; assumption.
Defined.

(** ** Submissions *)

Lemma timedelta_in_range m :
  minutes_in_range m -> timedelta_minutes (Some m) = inl (m * 60).
Proof.
  unfold minutes_in_range, timedelta_minutes. intros Hm.
  assert (-999999999 <= m * 60 / 86400 <= 999999999) as Hd.
  { split.
    - apply Z.div_le_lower_bound; lia.
    - apply Z.lt_succ_r, Z.div_lt_upper_bound; lia. }
  replace (m * 60 / 86400 <? -999999999) with false by (symmetry; lia).
  replace (999999999 <? m * 60 / 86400) with false by (symmetry; lia).
  reflexivity.
Qed.

Lemma timedelta_too_long m :
  1440000000000 <= m -> timedelta_minutes (Some m) = inr "OverflowError".
Proof.
  unfold timedelta_minutes. intros Hm.
  assert (1000000000 <= m * 60 / 86400) as Hd
    by (apply Z.div_le_lower_bound; lia).
  replace (999999999 <? m * 60 / 86400) with true by (symmetry; lia).
  rewrite orb_true_r. reflexivity.
Qed.

Lemma record_task_same_results id task user w :
  same_results w (record_task id task user w).
Proof.
  unfold same_results, record_task.
  destruct (db w) as [d|]; [|tauto].
  destruct (commit_fails d); cbn; tauto.
Qed.

Lemma record_task_recorded id task user w d :
  db w = Some d -> commit_fails d = false ->
  has_record id (record_task id task user w).
Proof.
  intros Hdb Hc. unfold has_record, record_task. rewrite Hdb, Hc.
  cbn [set_db db rows]. rewrite lookup_insert_eq. eexists; reflexivity.
Qed.

Lemma restore_complete_inv a name backup :
  restore_complete a name backup = true ->
  negb (truthy (PStr (arg_list a))) || negb (truthy name)
  || negb (truthy backup) = false.
Proof.
  unfold restore_complete. cbn [truthy].
  destruct (String.eqb (arg_list a) ""), (truthy name), (truthy backup);
    cbn; congruence.
Qed.

Lemma may_restore_inv p name server :
  may_restore p name server = true ->
  negb (is_anonymous p) && negb (is_admin (who p))
  && negb (is_client_rw p name server) = false.
Proof.
  unfold may_restore.
  destruct (is_anonymous p), (is_admin (who p)), (is_client_rw p name server);
    cbn; congruence.
Qed.

(** X23: A restoration that is refused leaves one line in the audit log and
    nothing else: the answer is 400 when the list of files is empty, the
    client name is empty or the backup number is 0 or missing, and 403
    when the request is complete and the caller, named and no
    administrator, has no write access to the client; no job is queued
    and no row is written. *)
Theorem refused_restore_only_logged e a server name backup s :
  restore_complete a name backup && may_restore (caller e) name server
  = false ->
  exists code msg line,
    TaskRestore_post e a server name backup s
    = (Refused code msg, mkSite (here s) (queue s) (audit s ++ [line]))
    /\ audit_server line = server
    /\ (restore_complete a name backup = false -> code = 400)
    /\ (restore_complete a name backup = true -> code = 403).
Proof.
  intros Hno. unfold TaskRestore_post.
  destruct (restore_complete a name backup) eqn:Hc.
  - rewrite (restore_complete_inv _ _ _ Hc).
    cbn [andb] in Hno. unfold may_restore in Hno.
    apply orb_false_elim in Hno as [Hno Hrw].
    apply orb_false_elim in Hno as [Hanon Hadm].
    rewrite Hanon, Hadm, Hrw. cbn [negb andb].
    do 3 eexists. split; [reflexivity|]. repeat split; congruence.
  - unfold restore_complete in Hc. cbn [truthy].
    assert (negb (negb (String.eqb (arg_list a) ""))
            || negb (truthy name) || negb (truthy backup) = true) as ->.
    { destruct (String.eqb (arg_list a) ""), (truthy name), (truthy backup);
        cbn in *; congruence. }
    do 3 eexists. split; [reflexivity|]. repeat split; congruence.
Qed.

Lemma refused_restore_only_logged_witness :
  exists code msg line,
    TaskRestore_post (desk clerk false) (etc_as_zip (Some 60)) PNone
      (PStr "laptop") (PInt 0) office
    = (Refused code msg, mkSite (here office) (queue office) [line])
    /\ code = 400.
Proof.
  destruct (refused_restore_only_logged (desk clerk false)
              (etc_as_zip (Some 60)) PNone (PStr "laptop") (PInt 0) office
              eq_refl)
    as (code & msg & line & Hrun & _ & H400 & _).
  exists code, msg, line. split; [exact Hrun | apply H400; reflexivity].
Defined.

(** X24: The password of an encrypted backup is not logged: two restorations
    that differ in their password only get the same answer, write the
    same audit log and leave the same state; the password is in the
    queued job and nowhere else. *)
Theorem restore_password_not_logged e a server name backup s p q :
  fst (TaskRestore_post e (with_pass p a) server name backup s)
  = fst (TaskRestore_post e (with_pass q a) server name backup s)
  /\ audit (snd (TaskRestore_post e (with_pass p a) server name backup s))
     = audit (snd (TaskRestore_post e (with_pass q a) server name backup s))
  /\ here (snd (TaskRestore_post e (with_pass p a) server name backup s))
     = here (snd (TaskRestore_post e (with_pass q a) server name backup s)).
Proof.
  unfold TaskRestore_post, with_pass, restore_args_dict.
  cbn [arg_pass arg_format arg_strip arg_list arg_timeout del_key
       String.eqb Ascii.eqb Bool.eqb].
  destruct (negb (truthy (PStr (arg_list a))) || negb (truthy name)
            || negb (truthy backup)); [repeat split|].
  destruct (negb (is_anonymous (caller e)) && negb (is_admin (who (caller e)))
            && negb (is_client_rw (caller e) name server)); [repeat split|].
  cbn [apply_async audit_info here queue audit].
  destruct (db (here s)); [|repeat split].
  destruct (timedelta_minutes (arg_timeout a)); repeat split.
Qed.

(** X25: With a database, a restoration whose [timeout] is null, or longer
    than [timedelta] takes, fails with an exception after its job was
    queued: the job runs, no row is written for it and the caller never
    learns its id. *)
Theorem restore_fails_after_queueing e a server name backup s d :
  restore_complete a name backup = true ->
  may_restore (caller e) name server = true ->
  db (here s) = Some d ->
  arg_timeout a = None
  \/ (exists m, arg_timeout a = Some m /\ 1440000000000 <= m) ->
  exists cls j line,
    TaskRestore_post e a server name backup s
    = (Failed cls, mkSite (here s) (queue s ++ [j]) (audit s ++ [line]))
    /\ job_id j = uuid e /\ job_task j = perform_restore
    /\ (arg_timeout a = None -> cls = "TypeError")
    /\ (arg_timeout a <> None -> cls = "OverflowError").
Proof.
  intros Hc Hmay Hdb Ht. unfold TaskRestore_post.
  rewrite (restore_complete_inv _ _ _ Hc), (may_restore_inv _ _ _ Hmay).
  cbn [apply_async audit_info here queue audit]. rewrite Hdb.
  destruct Ht as [Ht | (m & Ht & Hm)]; rewrite Ht.
  - do 3 eexists. split; [reflexivity|]. repeat split. congruence.
  - rewrite (timedelta_too_long _ Hm).
    do 3 eexists. split; [reflexivity|]. repeat split. discriminate.
Qed.

Lemma restore_fails_after_queueing_witness :
  exists j line,
    TaskRestore_post (desk clerk false) (etc_as_zip None) PNone
      (PStr "laptop") (PInt 3) office
    = (Failed "TypeError", mkSite (here office) [j] [line]).
Proof.
  destruct (restore_fails_after_queueing (desk clerk false) (etc_as_zip None)
              PNone (PStr "laptop") (PInt 3) office (mkDb ∅ false)
              eq_refl eq_refl eq_refl (or_introl eq_refl))
    as (cls & j & line & Hrun & _ & _ & Hcls & _).
  rewrite (Hcls eq_refl) in Hrun. exists j, line. exact Hrun.
Defined.

(** What [TaskRestore.post] does when it goes through. *)
Lemma restore_run e a server name backup s :
  restore_complete a name backup = true ->
  may_restore (caller e) name server = true ->
  (db (here s) = None
   \/ exists m, arg_timeout a = Some m /\ minutes_in_range m) ->
  exists line,
    TaskRestore_post e a server name backup s
    = (Answered (accepted (uuid e) "perform_restore"),
       mkSite (record_task (uuid e) "perform_restore" (user_name (caller e))
                 (here s))
         (queue s ++
            [mkJob (uuid e) perform_restore
               [name; backup; PStr (arg_list a); of_optZ (arg_strip a);
                por (PStr (format_text (arg_format a))) (PStr "zip");
                of_opt (arg_pass a); server; PStr (user_name (caller e));
                PBool (negb (is_anonymous (caller e))
                       && is_admin (who (caller e)));
                if ws_available e then sid e else PNone]])
         (audit s ++ [line]))
    /\ audit_server line = server.
Proof.
  intros Hc Hmay Ht. unfold TaskRestore_post.
  rewrite (restore_complete_inv _ _ _ Hc), (may_restore_inv _ _ _ Hmay).
  cbn [apply_async audit_info here queue audit].
  destruct Ht as [Hdb | (m & Ht & Hm)].
  - unfold record_task. rewrite Hdb. eexists. split; reflexivity.
  - rewrite Ht, (timedelta_in_range _ Hm). unfold record_task.
    destruct (db (here s)) as [d|] eqn:Hdb; eexists; split; reflexivity.
Qed.

(** X26: A complete restoration by a caller who may restore the client, with
    a timeout [timedelta] takes, is answered 202 with the id of the job
    it queued behind the jobs already there; the job carries the archive
    format the parser let through, the password, the name of the caller
    and the administrator mark, which an anonymous caller never gets;
    where the database works the job has a row, and nothing else of the
    state is written. *)
Theorem restore_accepted e a server name backup s :
  restore_complete a name backup = true ->
  may_restore (caller e) name server = true ->
  (db (here s) = None
   \/ exists m, arg_timeout a = Some m /\ minutes_in_range m) ->
  exists j mark s',
    TaskRestore_post e a server name backup s
    = (Answered (accepted (uuid e) "perform_restore"), s')
    /\ queue s' = queue s ++ [j]
    /\ job_id j = uuid e /\ job_task j = perform_restore
    /\ length (job_args j) = 10%nat
    /\ nth_error (job_args j) 4 = Some (PStr (format_text (arg_format a)))
    /\ nth_error (job_args j) 5 = Some (of_opt (arg_pass a))
    /\ nth_error (job_args j) 7 = Some (PStr (user_name (caller e)))
    /\ nth_error (job_args j) 8 = Some (PBool mark)
    /\ (mark = true
        <-> is_anonymous (caller e) = false
            /\ is_admin (who (caller e)) = true)
    /\ same_results (here s) (here s')
    /\ (forall d, db (here s) = Some d -> commit_fails d = false ->
        has_record (uuid e) (here s')).
Proof.
  intros Hc Hmay Ht.
  destruct (restore_run e a server name backup s Hc Hmay Ht)
    as (line & Hrun & _).
  do 3 eexists. split; [exact Hrun|]. cbn [queue here job_id job_task job_args].
  split; [reflexivity|]. do 3 (split; [reflexivity|]).
  split; [destruct (arg_format a); reflexivity|].
  do 3 (split; [reflexivity|]). split.
  { destruct (is_anonymous (caller e)), (is_admin (who (caller e))); cbn;
      intuition congruence. }
  split; [apply record_task_same_results|].
  intros d Hdb Hcf. eapply record_task_recorded; eassumption.
Qed.

Lemma restore_accepted_witness :
  exists j s',
    TaskRestore_post (desk clerk false)
      (mkRestoreArgs (Some "s3cret") TarGz (Some 0) "/etc" (Some 60)) PNone
      (PStr "laptop") (PInt 3) office
    = (Answered (accepted "7c9e6679" "perform_restore"), s')
    /\ queue s' = [j]
    /\ nth_error (job_args j) 4 = Some (PStr "tar.gz")
    /\ has_record "7c9e6679" (here s').
Proof.
  assert (Ht : db (here office) = None
               \/ exists m,
                    arg_timeout
                      (mkRestoreArgs (Some "s3cret") TarGz (Some 0) "/etc"
                         (Some 60)) = Some m
                    /\ minutes_in_range m).
  { right. exists 60. split; [reflexivity | unfold minutes_in_range; lia]. }
  destruct (restore_accepted (desk clerk false)
              (mkRestoreArgs (Some "s3cret") TarGz (Some 0) "/etc" (Some 60))
              PNone (PStr "laptop") (PInt 3) office eq_refl eq_refl Ht)
    as (j & mark & s' & Hrun & Hq & _ & _ & _ & Hfmt & _ & _ & _ & _ & _
        & Hrec).
  exists j, s'. split; [exact Hrun|]. split; [exact Hq|].
  split; [exact Hfmt|].
  exact (Hrec (mkDb ∅ false) eq_refl eq_refl).
Defined.



(** X28: [ClientSettings.delete] tests the rights of a moderator on the
    server before it asks whether a backup is running: without them the
    answer is 403 whatever the client does, with a backup running it is
    409, and in both cases nothing is queued, written or logged.
    Otherwise the deletion is queued with the options in the order the
    task takes them, a row is written where there is a database, and the
    answer is 202; no exception escapes. *)
Theorem client_deletion_submission e a server client conf s :
  (may_delete (caller e) server = false ->
   ClientSettings_delete e a server client conf s
   = (Refused 403 "You don't have rights on this server", s))
  /\ (may_delete (caller e) server = true ->
      is_backup_running e client server = true ->
      exists msg,
        ClientSettings_delete e a server client conf s = (Refused 409 msg, s))
  /\ (may_delete (caller e) server = true ->
      is_backup_running e client server = false ->
      ClientSettings_delete e a server client conf s
      = (Answered (accepted (uuid e) "delete_client"),
         mkSite (record_task (uuid e) "delete_client" (user_name (caller e))
                   (here s))
           (queue s ++
              [mkJob (uuid e) delete_client
                 [client; of_optb (arg_keepconf a); of_optb (arg_delcert a);
                  of_optb (arg_revoke a); of_optb (arg_template a);
                  of_optb (arg_delete a); server;
                  PStr (user_name (caller e))]])
           (audit s)))
  /\ (forall cls, fst (ClientSettings_delete e a server client conf s)
                  <> Failed cls).
Proof.
  unfold ClientSettings_delete, may_delete.
  destruct (is_anonymous (caller e)), (is_moderator (caller e)),
    (is_server_rw (caller e) server), (is_backup_running e client server);
    cbn [negb andb orb apply_async here queue audit];
    (repeat split; try discriminate; try (intros; eexists; reflexivity);
     intros; unfold record_task;
     destruct (db (here s)) as [d|] eqn:Hdb;
     try reflexivity; try discriminate;
     cbn [timedelta_minutes]; destruct s; reflexivity).
Qed.

(** X29: [TaskClientTreeAll.post] asks the backend before it asks who is
    calling: where batch listing is not supported the answer is 405 for
    every caller, and 403 comes only after; the node is the one of the
    route, or else the [serverName] argument.  An accepted listing is
    queued and answered 202, and no row is written for it, database or
    not. *)
Theorem tree_submission e serverName server name backup s :
  (batch_list_supported e (por server (of_opt serverName)) = false ->
   exists msg,
     TaskClientTreeAll_post e serverName server name backup s
     = (Refused 405 msg, s))
  /\ (batch_list_supported e (por server (of_opt serverName)) = true ->
      may_browse (caller e) name (por server (of_opt serverName)) = false ->
      exists msg,
        TaskClientTreeAll_post e serverName server name backup s
        = (Refused 403 msg, s))
  /\ (batch_list_supported e (por server (of_opt serverName)) = true ->
      may_browse (caller e) name (por server (of_opt serverName)) = true ->
      TaskClientTreeAll_post e serverName server name backup s
      = (Answered (accepted (uuid e) "load_all_tree"),
         mkSite (here s)
           (queue s ++
              [mkJob (uuid e) load_all_tree
                 [name; backup; por server (of_opt serverName);
                  PStr (user_name (caller e))]])
           (audit s)))
  /\ (truthy server = true -> por server (of_opt serverName) = server)
  /\ (truthy server = false ->
      por server (of_opt serverName) = of_opt serverName).
Proof.
  unfold TaskClientTreeAll_post, may_browse.
  repeat split.
  - intros ->. eexists; reflexivity.
  - intros -> Hno.
    apply orb_false_elim in Hno as [Hno ->].
    apply orb_false_elim in Hno as [-> ->]. eexists; reflexivity.
  - intros -> Hmay.
    destruct (is_anonymous (caller e)), (is_admin (who (caller e)));
      cbn in Hmay |- *; try rewrite Hmay; reflexivity.
  - unfold por. intros ->. reflexivity.
  - unfold por. intros ->. reflexivity.
Qed.

(** X30: No submission does more than append: whatever its end, each of the
    three leaves the jobs queued and the lines logged before it in
    place, adds at most one job, under the id it was given, and at most
    one line, and leaves the results, the revocations, the cache, the
    session and the files alone.  It answers only after its job was
    queued, and a refusal queues nothing. *)
Theorem submissions_only_append e ra da serverName server name backup conf s :
  only_appends e s (TaskRestore_post e ra server name backup s)
  /\ only_appends e s (ClientSettings_delete e da server name conf s)
  /\ only_appends e s
       (TaskClientTreeAll_post e serverName server name backup s).
Proof.
  repeat split.
  - unfold TaskRestore_post.
    destruct (negb (truthy (PStr (arg_list ra))) || negb (truthy name)
              || negb (truthy backup));
      [appended record_task_same_results|].
    destruct (negb (is_anonymous (caller e))
              && negb (is_admin (who (caller e)))
              && negb (is_client_rw (caller e) name server));
      [appended record_task_same_results|].
    cbn [apply_async audit_info here queue audit].
    destruct (db (here s)) as [d|];
      [|appended record_task_same_results].
    destruct (timedelta_minutes (arg_timeout ra));
      appended record_task_same_results.
  - unfold ClientSettings_delete.
    destruct (negb (is_anonymous (caller e)) && is_moderator (caller e)
              && negb (is_server_rw (caller e) server));
      [appended record_task_same_results|].
    destruct (is_backup_running e name server);
      [appended record_task_same_results|].
    cbn [apply_async here queue audit].
    destruct (db (here s)) as [d|];
      [|appended record_task_same_results].
    cbn [timedelta_minutes]. appended record_task_same_results.
  - unfold TaskClientTreeAll_post.
    destruct (negb (batch_list_supported e (por server (of_opt serverName))));
      [appended record_task_same_results|].
    destruct (negb (is_anonymous (caller e))
              && negb (is_admin (who (caller e)))
              && negb (is_client_allowed (caller e) name
                         (por server (of_opt serverName))));
      appended record_task_same_results.
Qed.
